(** * claude-desktop-github-logger: the MCP server of [mcp-server/src/index.ts]

    A shallow embedding of the logger class [ClaudeGitHubLogger] and of the
    tool-call handler, followed by the properties of the design
    specification that concern them.

    The program is asynchronous but strictly sequential (every call is
    awaited), so it is embedded as state-passing code in a state-and-exception
    monad.  What the host provides (the JSON codec, the network, the clock)
    is a type class [Host]; a reference instance is given further down and
    is used to run the embedding on concrete inputs. *)

From Stdlib Require Import String Ascii List ZArith Lia Bool.
From Stdlib Require Import Decimal DecimalString.
Import ListNotations.
Local Open Scope list_scope.
Local Open Scope string_scope.

Set Warnings "-register-all".

(* ================================================================= *)
(** ** JavaScript values *)

(** An integer or an infinity: the range of ToIntegerOrInfinity. *)
Inductive extended : Type :=
| Finite (z : Z)
| PlusInfinity
| MinusInfinity.

(** A number that is not an integer: one with a fraction, or an infinity
    ([JSON.parse] reads [1e400] as [Infinity]).  The program never computes
    with numbers; such a number is given by the two things the program can
    observe of it, its conversion to a string and its integer part. *)
Record real : Type := {
  rendering : string;
  integer_part : extended
}.

(** The values that reach this program are JSON values (tool arguments, the
    parsed configuration file, parsed HTTP replies) and [undefined].
    [JNum n] is the integer [n]; [JReal x] is any other number. *)
Inductive json : Type :=
| JNull
| JBool (b : bool)
| JNum (n : Z)
| JReal (x : real)
| JStr (s : string)
| JArr (items : list json)
| JObj (fields : list (string * json)).

(** [None] is [undefined]. *)
Definition jsval : Type := option json.

Definition undefined : jsval := None.


Inductive exn : Type :=
| Error (msg : string)
| TypeError (msg : string)
| SyntaxError (msg : string)
| SystemError (msg : string)
| FetchError (msg : string).

(** [error.message] *)
Definition message (e : exn) : string :=
  match e with
  | Error m | TypeError m | SyntaxError m | SystemError m | FetchError m => m
  end.

Inductive result (A : Type) : Type :=
| Ok (a : A)
| Throw (e : exn).

Arguments Ok {A} a.
Arguments Throw {A} e.

Definition nl : string := String "010" EmptyString.
Definition dquote : string := String "034" EmptyString.

Definition string_of_Z (z : Z) : string := NilZero.string_of_int (Z.to_int z).
Definition string_of_nat (n : nat) : string := string_of_Z (Z.of_nat n).

(** [sep.join]-style concatenation of already converted pieces. *)
Fixpoint join (sep : string) (l : list string) : string :=
  match l with
  | [] => ""
  | [x] => x
  | x :: rest => x ++ sep ++ join sep rest
  end.


(** ToBoolean.  A number that is not an integer is neither 0 nor NaN. *)
Definition truthy (v : jsval) : bool :=
  match v with
  | None => false
  | Some JNull => false
  | Some (JBool b) => b
  | Some (JNum n) => negb (n =? 0)%Z
  | Some (JReal _) => true
  | Some (JStr s) => negb (s =? "")
  | Some (JArr _) => true
  | Some (JObj _) => true
  end.

(** [a || b] *)
Definition js_or (a b : jsval) : jsval := if truthy a then a else b.

(** Own-property lookup; of two bindings of one key the later one counts. *)
Fixpoint lookup (k : string) (fields : list (string * json)) : jsval :=
  match fields with
  | [] => None
  | (k', v) :: rest =>
      match lookup k rest with
      | Some w => Some w
      | None => if k' =? k then Some v else None
      end
  end.

(** The object has a property [k] of its own. *)
Definition has_own (k : string) (fields : list (string * json)) : bool :=
  match lookup k fields with
  | Some _ => true
  | None => false
  end.

(** An object literal: a property whose value is [undefined] reads the same
    as an absent one and is left out by [JSON.stringify], so it is not
    stored. *)
Fixpoint object_literal (props : list (string * jsval)) : list (string * json) :=
  match props with
  | [] => []
  | (k, Some v) :: rest => (k, v) :: object_literal rest
  | (_, None) :: rest => object_literal rest
  end.

(** [o.k] for the property names this program reads, none of which is a
    built-in property of strings, numbers, booleans, arrays or objects. *)
Definition prop (o : jsval) (k : string) : result jsval :=
  match o with
  | None =>
      Throw (TypeError ("Cannot read properties of undefined (reading '" ++ k ++ "')"))
  | Some JNull =>
      Throw (TypeError ("Cannot read properties of null (reading '" ++ k ++ "')"))
  | Some (JObj fields) => Ok (lookup k fields)
  | Some _ => Ok None
  end.

(** [o?.k] *)
Definition prop_opt (o : jsval) (k : string) : jsval :=
  match o with
  | Some (JObj fields) => lookup k fields
  | _ => None
  end.

(** [s.endsWith(suffix)] *)
Definition endsWith (s suffix : string) : bool :=
  let n := String.length s in
  let m := String.length suffix in
  (m <=? n)%nat && (substring (n - m) m s =? suffix).

Definition is_digit (c : ascii) : bool :=
  let n := nat_of_ascii c in ((48 <=? n) && (n <=? 57))%nat.

(** [/^\d{4}$/.test(s)] for a string [s] *)
Definition is_year (s : string) : bool :=
  match list_ascii_of_string s with
  | [a; b; c; d] => is_digit a && is_digit b && is_digit c && is_digit d
  | _ => false
  end.

(** The items a [for (const x of what)] loop visits, [v] being the value of
    [what]: the elements of an array, the characters of a string; any other
    value is not iterable and the loop throws.  (The loops of this program
    read properties of the item, and a character has none of them: how a
    string is cut into characters does not show.) *)
Definition iterate (what : string) (v : json) : result (list json) :=
  match v with
  | JArr items => Ok items
  | JStr s => Ok (map (fun c => JStr (String c EmptyString)) (list_ascii_of_string s))
  | _ => Throw (TypeError (what ++ " is not iterable"))
  end.

(** [xs.slice(0, n)], [n] already converted *)
Definition slice0 {A : Type} (xs : list A) (n : extended) : list A :=
  match n with
  | MinusInfinity => []
  | PlusInfinity => xs
  | Finite z =>
      if (z <? 0)%Z
      then firstn (Z.to_nat (Z.max (Z.of_nat (length xs) + z) 0)) xs
      else firstn (Z.to_nat z) xs
  end.

(** [f] on every element in turn, up to the first that throws. *)
Section Each.

Context {A B : Type}.
Variable f : A -> result B.

Fixpoint each (l : list A) : result (list B) :=
  match l with
  | [] => Ok []
  | x :: rest =>
      match f x with
      | Ok y =>
          match each rest with
          | Ok ys => Ok (y :: ys)
          | Throw e => Throw e
          end
      | Throw e => Throw e
      end
  end.

End Each.


(* ================================================================= *)
(** ** The monad of the embedding *)

(** A computation over a state [S] that returns a value or throws; the state
    reached is kept in both cases, which is what [try]/[catch] observes. *)
Definition M (S A : Type) : Type := S -> result A * S.

Definition ret {S A} (a : A) : M S A := fun s => (Ok a, s).

Definition throw {S A} (e : exn) : M S A := fun s => (Throw e, s).

Definition bind {S A B} (m : M S A) (k : A -> M S B) : M S B :=
  fun s =>
    match m s with
    | (Ok a, s') => k a s'
    | (Throw e, s') => (Throw e, s')
    end.

Definition try_catch {S A} (m : M S A) (handler : exn -> M S A) : M S A :=
  fun s =>
    match m s with
    | (Ok a, s') => (Ok a, s')
    | (Throw e, s') => handler e s'
    end.

Definition lift {S A} (r : result A) : M S A := fun s => (r, s).

Definition gets {S A} (f : S -> A) : M S A := fun s => (Ok (f s), s).

Definition modify {S} (f : S -> S) : M S unit := fun s => (Ok tt, f s).

(** Sequencing of two steps that touch no state. *)
Definition and_then {A B} (r : result A) (k : A -> result B) : result B :=
  match r with
  | Ok a => k a
  | Throw e => Throw e
  end.

Declare Scope js_scope.
Delimit Scope js_scope with js.
Notation "x <- m ;; k" := (bind m (fun x => k))
  (at level 61, m at next level, right associativity) : js_scope.
Notation "m ;;; k" := (bind m (fun _ => k))
  (at level 61, right associativity) : js_scope.
Notation "x <~ r ;; k" := (and_then r (fun x => k))
  (at level 61, r at next level, right associativity) : js_scope.
Local Open Scope js_scope.

(** [for (const x of xs) body(x)] *)
Fixpoint for_of {S A} (xs : list A) (body : A -> M S unit) : M S unit :=
  match xs with
  | [] => ret tt
  | x :: rest => body x ;;; for_of rest body
  end.

Definition run_local {S T A} (init : T) (m : M (S * T) A) : M S A :=
  fun s => let '(r, (s', _)) := m (s, init) in (r, s').

Definition on_fst {S T A} (m : M S A) : M (S * T) A :=
  fun st => let '(r, s') := m (fst st) in (r, (s', snd st)).

(* ================================================================= *)
(** ** The host: network, file system, codec, clock *)

Record Request : Type := {
  method : string;
  target : jsval;
  headers : list (string * string);
  body : option string
}.

(** A reply of [fetch]; [json_body] and [text_body] are what [.json()] and
    [.text()] resolve to (or reject with). *)
Record Response : Type := {
  status : Z;
  statusText : string;
  json_body : result json;
  text_body : result string
}.

(** [response.ok] *)
Definition ok (r : Response) : bool :=
  ((200 <=? status r) && (status r <? 300))%Z.

Inductive FetchResult : Type :=
| Rejected (e : exn)
| Resolved (r : Response).

Inductive Event : Type :=
| EvFetch (r : Request)
| EvReadFile
| EvWriteFile (data : string).


(** What the program takes from its host.  The network answers a request
    given everything the process did before; the clock and the random
    source are indexed by the number of identifiers drawn so far.
    [Number_toString] is the conversion of an integer beyond the range in
    which every integer is a number and prints as its decimal digits. *)
Class Host : Type := {
  JSON_parse : string -> result json;
  JSON_stringify : json -> nat -> string;
  StringToInteger : string -> extended;
  Number_toString : Z -> string;
  network : list Event -> Request -> FetchResult;
  Date_now : nat -> Z;
  Date_toISOString : nat -> string;
  Math_random_tail : nat -> string
}.

(** Number::toString on an integer. *)
Definition integer_text `{Host} (n : Z) : string :=
  if (Z.abs n <=? 9007199254740992)%Z then string_of_Z n else Number_toString n.

(** ToString, as a template literal and [RegExp.prototype.test] apply it.
    An object is converted by the [toString] it finds: the inherited one
    gives "[object Object]"; a property [toString] of its own, which in a
    JSON value is never a function, leaves no method that yields a
    primitive, and the conversion throws.  An array is converted by [join],
    which renders [null] as the empty string and converts every other
    element in turn. *)
Fixpoint ToString_json `{Host} (v : json) : result string :=
  match v with
  | JNull => Ok "null"
  | JBool true => Ok "true"
  | JBool false => Ok "false"
  | JNum n => Ok (integer_text n)
  | JReal x => Ok (rendering x)
  | JStr s => Ok s
  | JArr items =>
      match each (fun x => match x with
                           | JNull => Ok ""
                           | _ => ToString_json x
                           end) items with
      | Ok pieces => Ok (join "," pieces)
      | Throw e => Throw e
      end
  | JObj fields =>
      if has_own "toString" fields
      then Throw (TypeError "Cannot convert object to primitive value")
      else Ok "[object Object]"
  end.

Definition ToString `{Host} (v : jsval) : result string :=
  match v with
  | None => Ok "undefined"
  | Some j => ToString_json j
  end.

(** An element as [Array.prototype.join] renders it. *)
Definition element_text `{Host} (x : json) : result string :=
  match x with
  | JNull => Ok ""
  | _ => ToString_json x
  end.

(** ToIntegerOrInfinity, as [Array.prototype.slice] applies it: ToNumber,
    then truncation, NaN counting as 0.  An object or an array is first
    converted to a string, which is where it can throw. *)
Definition ToIntegerOrInfinity `{Host} (v : jsval) : result extended :=
  match v with
  | None => Ok (Finite 0)
  | Some JNull => Ok (Finite 0)
  | Some (JBool b) => Ok (Finite (if b then 1 else 0))
  | Some (JNum n) => Ok (Finite n)
  | Some (JReal x) => Ok (integer_part x)
  | Some (JStr s) => Ok (StringToInteger s)
  | Some j =>
      match ToString_json j with
      | Ok t => Ok (StringToInteger t)
      | Throw e => Throw e
      end
  end.


(* ================================================================= *)
(** ** Data model *)

Record LoggerConfig : Type := {
  webhook_url : string;
  github_repo : string;
  session_id : string;
  auto_log : bool;
  project : option string;
  github_token : option string
}.

(** The object a [LoggerConfig] is at run time. *)
Definition LoggerConfig_js (c : LoggerConfig) : json :=
  JObj (object_literal
          [("webhook_url", Some (JStr (webhook_url c)));
           ("github_repo", Some (JStr (github_repo c)));
           ("github_token", option_map JStr (github_token c));
           ("session_id", Some (JStr (session_id c)));
           ("auto_log", Some (JBool (auto_log c)));
           ("project", option_map JStr (project c))]).

(** The fields are read from arbitrary parsed JSON and from unchecked tool
    arguments, so an entry holds run-time values. *)
Record ChatLogEntry : Type := {
  timestamp : string;
  entry_session_id : jsval;
  user_msg : jsval;
  assistant_msg : jsval;
  model : string;
  tools_used : jsval;
  entry_project : jsval
}.

(** The logger object together with the part of the world it acts on.  The
    field [chatBuffer] is never read or written and [configPath] never
    changes; the one file it names is [disk]. *)
Record State : Type := {
  config : json;                (* this.config, null until loaded or saved *)
  currentUserMessage : jsval;
  disk : option string;         (* the file at configPath; None: unreadable *)
  disk_writable : bool;
  events : list Event;          (* everything done so far, oldest first *)
  ticks : nat
}.

Definition set_config (c : json) (s : State) : State :=
  {| config := c; currentUserMessage := currentUserMessage s;
     disk := disk s; disk_writable := disk_writable s;
     events := events s; ticks := ticks s |}.

Definition set_currentUserMessage (m : jsval) (s : State) : State :=
  {| config := config s; currentUserMessage := m;
     disk := disk s; disk_writable := disk_writable s;
     events := events s; ticks := ticks s |}.

Definition set_disk (d : option string) (s : State) : State :=
  {| config := config s; currentUserMessage := currentUserMessage s;
     disk := d; disk_writable := disk_writable s;
     events := events s; ticks := ticks s |}.

Definition log_event (e : Event) (s : State) : State :=
  {| config := config s; currentUserMessage := currentUserMessage s;
     disk := disk s; disk_writable := disk_writable s;
     events := (events s ++ [e])%list; ticks := ticks s |}.

Definition tick (s : State) : State :=
  {| config := config s; currentUserMessage := currentUserMessage s;
     disk := disk s; disk_writable := disk_writable s;
     events := events s; ticks := S (ticks s) |}.

(** The state with the history [h] in place of its own; the program never
    does this, it serves to state what a step leaves. *)
Definition set_events (h : list Event) (s : State) : State :=
  {| config := config s; currentUserMessage := currentUserMessage s;
     disk := disk s; disk_writable := disk_writable s;
     events := h; ticks := ticks s |}.

(** [new ClaudeGitHubLogger()] on a given file system *)
Definition initial (d : option string) (w : bool) : State :=
  {| config := JNull; currentUserMessage := Some (JStr "");
     disk := d; disk_writable := w; events := []; ticks := 0 |}.

(* ================================================================= *)
(** ** The program *)

Section Program.

Context `{Host}.

(** [fs.readFile(this.configPath, 'utf8')] *)
Definition readFile : M State string :=
  fun s =>
    let s' := log_event EvReadFile s in
    match disk s with
    | Some data => (Ok data, s')
    | None => (Throw (SystemError "ENOENT: no such file or directory"), s')
    end.

(** [fs.writeFile(this.configPath, data)] *)
Definition writeFile (data : string) : M State unit :=
  fun s =>
    let s' := log_event (EvWriteFile data) s in
    if disk_writable s
    then (Ok tt, set_disk (Some data) s')
    else (Throw (SystemError "EACCES: permission denied"), s').

(** [fetch(url, init)] *)
Definition fetch (r : Request) : M State Response :=
  fun s =>
    let s' := log_event (EvFetch r) s in
    match network (events s) r with
    | Rejected e => (Throw e, s')
    | Resolved resp => (Ok resp, s')
    end.

(* ----------------------------------------------------------------- *)
(** *** class ClaudeGitHubLogger *)

Definition loadConfig : M State json :=
  try_catch
    (data <- readFile ;;
     v <- lift (JSON_parse data) ;;
     modify (set_config v) ;;;
     gets config)
    (fun _ => ret JNull).

Definition saveConfig (c : json) : M State unit :=
  modify (set_config c) ;;;
  writeFile (JSON_stringify c 2).

Definition sendToN8N (entry : ChatLogEntry) : M State json :=
  cfg <- gets config ;;
  let url := prop_opt (Some cfg) "webhook_url" in
  if negb (truthy url) then throw (Error "Webhook URL not configured") else
  project_field <-
    (if truthy (entry_project entry) then ret (entry_project entry) else
     p <- lift (prop (Some cfg) "project") ;;
     ret (js_or p (Some (JStr "")))) ;;
  let payload :=
    JObj (object_literal
            [("session_id", entry_session_id entry);
             ("model", Some (JStr (model entry)));
             ("tools_used", tools_used entry);
             ("user_message", user_msg entry);
             ("assistant_message", assistant_msg entry);
             ("project", project_field)]) in
  response <- fetch {| method := "POST";
                       target := url;
                       headers := [("Content-Type", "application/json")];
                       body := Some (JSON_stringify payload 0) |} ;;
  if negb (ok response)
  then throw (Error ("HTTP " ++ string_of_Z (status response) ++ ": "
                             ++ statusText response))
  else lift (json_body response).

Definition getGitHubHeaders : M State (list (string * string)) :=
  cfg <- gets config ;;
  let headers := [("Accept", "application/vnd.github+json");
                  ("User-Agent", "Claude-GitHub-Logger/1.0")] in
  let token := prop_opt (Some cfg) "github_token" in
  if truthy token
  then t <- lift (ToString token) ;;
       ret (List.app headers [("Authorization", "token " ++ t)])
  else ret headers.

Definition generateSessionId : M State string :=
  t <- gets ticks ;;
  modify tick ;;;
  ret ("claude-" ++ string_of_Z (Date_now t) ++ "-" ++ Math_random_tail t).

(* ----------------------------------------------------------------- *)
(** *** The transcript walk

    The walk runs over the logger state paired with the local array
    [transcripts], which [getTranscriptsFromYearFolder] receives by
    reference and extends in place. *)

Definition Walk : Type := (State * list string)%type.

(** [transcripts.push(t)] *)
Definition push (t : string) : M Walk unit :=
  modify (fun w : Walk => (fst w, (snd w ++ [t])%list)).

Definition GET (url : jsval) (hdrs : list (string * string)) : Request :=
  {| method := "GET"; target := url; headers := hdrs; body := None |}.

(** [file.name.endsWith('.md')] on whatever [file.name] holds *)
Definition call_endsWith (name : jsval) (suffix : string) : result bool :=
  match name with
  | Some (JStr s) => Ok (endsWith s suffix)
  | None =>
      Throw (TypeError "Cannot read properties of undefined (reading 'endsWith')")
  | Some JNull =>
      Throw (TypeError "Cannot read properties of null (reading 'endsWith')")
  | Some _ => Throw (TypeError "file.name.endsWith is not a function")
  end.

(** [v === 'dir'] *)
Definition is_dir (v : jsval) : bool :=
  match v with
  | Some (JStr s) => s =? "dir"
  | _ => false
  end.

(** [const content = await fetch(url, { headers }); if (content.ok)
    transcripts.push(await content.text())], the download shared by the
    [latest.md] blocks (lines 117-120, 135-138) and the file loop
    (lines 189-192). *)
Definition download (url : jsval) (hdrs : list (string * string))
  : M Walk unit :=
  content <- on_fst (fetch (GET url hdrs)) ;;
  if ok content then
    t <- lift (text_body content) ;;
    push t
  else ret tt.

(** The body shared by the two [latest.md] blocks of [retrieveTranscripts]
    (lines 112-125 and 130-143), which differ in the address only. *)
Definition fetchLatest (url : string) (hdrs : list (string * string))
  : M Walk unit :=
  try_catch
    (latestResponse <- on_fst (fetch (GET (Some (JStr url)) hdrs)) ;;
     if ok latestResponse then
       latestData <- lift (json_body latestResponse) ;;
       download_url <- lift (prop (Some latestData) "download_url") ;;
       if truthy download_url then download download_url hdrs
       else ret tt
     else ret tt)
    (fun _ => ret tt).

(** The innermost loop body (lines 188-193). *)
Definition visitFile (hdrs : list (string * string)) (file : json)
  : M Walk unit :=
  name <- lift (prop (Some file) "name") ;;
  is_md <- lift (call_endsWith name ".md") ;;
  if is_md then
    download_url <- lift (prop (Some file) "download_url") ;;
    if truthy download_url then download download_url hdrs
    else ret tt
  else ret tt.

(** The date-folder loop body (lines 181-196). *)
Definition visitDateItem (hdrs : list (string * string)) (dateItem : json)
  : M Walk unit :=
  ty <- lift (prop (Some dateItem) "type") ;;
  if is_dir ty then
    url <- lift (prop (Some dateItem) "url") ;;
    dateResponse <- on_fst (fetch (GET url hdrs)) ;;
    if ok dateResponse then
      dateContents <- lift (json_body dateResponse) ;;
      files <- lift (iterate "dateContents" dateContents) ;;
      for_of files (visitFile hdrs)
    else ret tt
  else ret tt.

Definition getTranscriptsFromYearFolder
  (yearFolderUrl : jsval) (hdrs : list (string * string)) : M Walk unit :=
  try_catch
    (yearResponse <- on_fst (fetch (GET yearFolderUrl hdrs)) ;;
     if negb (ok yearResponse) then ret tt else
     yearContents <- lift (json_body yearResponse) ;;
     dateItems <- lift (iterate "yearContents" yearContents) ;;
     for_of dateItems (visitDateItem hdrs))
    (fun _ => ret tt).

(** The project-folder loop body (lines 154-156); the regular expression
    is tested on [item.name] converted to a string. *)
Definition visitProjectItem (hdrs : list (string * string)) (item : json)
  : M Walk unit :=
  ty <- lift (prop (Some item) "type") ;;
  if is_dir ty then
    name <- lift (prop (Some item) "name") ;;
    name_text <- lift (ToString name) ;;
    if is_year name_text then
      url <- lift (prop (Some item) "url") ;;
      getTranscriptsFromYearFolder url hdrs
    else ret tt
  else ret tt.

(** Lines 147-161. *)
Definition browseProjectFolder (url : string) (hdrs : list (string * string))
  : M Walk unit :=
  try_catch
    (folderResponse <- on_fst (fetch (GET (Some (JStr url)) hdrs)) ;;
     if ok folderResponse then
       folderContents <- lift (json_body folderResponse) ;;
       items <- lift (iterate "folderContents" folderContents) ;;
       for_of items (visitProjectItem hdrs)
     else ret tt)
    (fun _ => ret tt).

(** [`https://api.github.com/repos/${repo}/contents/${path}`], both parts
    converted. *)
Definition contents_url (repo path : string) : string :=
  "https://api.github.com/repos/" ++ repo ++ "/contents/" ++ path.

(** The three addresses are template literals over [this.config.github_repo]
    and [project]; they are built inside the outer [try] and outside the
    inner ones (lines 111, 129, 146), the headers before it (line 107). *)
Definition retrieveTranscripts (project : jsval) : M State (list string) :=
  cfg <- gets config ;;
  let repo := prop_opt (Some cfg) "github_repo" in
  if negb (truthy repo) then throw (Error "GitHub repo not configured") else
  hdrs <- getGitHubHeaders ;;
  run_local []
    (try_catch
       (repo_text <- lift (ToString repo) ;;
        fetchLatest (contents_url repo_text "transcripts/latest.md") hdrs ;;;
        (if truthy project then
           repo_text <- lift (ToString repo) ;;
           project_text <- lift (ToString project) ;;
           fetchLatest
             (contents_url repo_text ("transcripts/" ++ project_text ++ "/latest.md"))
             hdrs ;;;
           repo_text <- lift (ToString repo) ;;
           project_text <- lift (ToString project) ;;
           browseProjectFolder
             (contents_url repo_text ("transcripts/" ++ project_text)) hdrs
         else ret tt) ;;;
        gets snd)
       (fun _ => ret [])).

(* ----------------------------------------------------------------- *)
(** *** The tool-call handler *)

(** [args.k] and [args?.k]; the protocol layer passes an arguments object
    or none. *)
Definition arg (args : option (list (string * json))) (k : string) : jsval :=
  match args with
  | Some fields => lookup k fields
  | None => None
  end.

(** [v !== false] *)
Definition is_not_false (v : jsval) : bool :=
  match v with
  | Some (JBool false) => false
  | _ => true
  end.

(** [xs.join(sep)] on whatever [xs] holds *)
Definition call_join (xs : jsval) (sep : string) : result string :=
  match xs with
  | Some (JArr items) =>
      match each element_text items with
      | Ok pieces => Ok (join sep pieces)
      | Throw e => Throw e
      end
  | None =>
      Throw (TypeError "Cannot read properties of undefined (reading 'join')")
  | Some JNull =>
      Throw (TypeError "Cannot read properties of null (reading 'join')")
  | Some _ => Throw (TypeError "entry.tools_used.join is not a function")
  end.

(** [${v || fallback}] inside a template literal *)
Definition or_text (v : jsval) (fallback : string) : result string :=
  if truthy v then ToString v else Ok fallback.

(** The substitutions of a template literal are converted in the order in
    which they stand; each text below is built after the effects of its
    case. *)
Definition setup_github_logging (args : option (list (string * json)))
  : M State string :=
  match args with
  | None => throw (Error "No arguments provided")
  | Some _ =>
      sid <- generateSessionId ;;
      let c_webhook_url := arg args "webhook_url" in
      let c_github_repo := arg args "github_repo" in
      let c_github_token := arg args "github_token" in
      let c_auto_log := is_not_false (arg args "auto_log") in
      let c_project := arg args "project" in
      let config :=
        JObj (object_literal
                [("webhook_url", c_webhook_url);
                 ("github_repo", c_github_repo);
                 ("github_token", c_github_token);
                 ("session_id", Some (JStr sid));
                 ("auto_log", Some (JBool c_auto_log));
                 ("project", c_project)]) in
      saveConfig config ;;;
      webhook_text <- lift (ToString c_webhook_url) ;;
      repo_text <- lift (ToString c_github_repo) ;;
      project_text <- lift (or_text c_project "None") ;;
      ret ("GitHub logging configured successfully!" ++ nl ++ nl ++
           "- Webhook: " ++ webhook_text ++ nl ++
           "- Repository: " ++ repo_text ++ nl ++
           "- GitHub Token: " ++
             (if truthy c_github_token
              then "Configured (hidden for security)"
              else "Not provided") ++ nl ++
           "- Session ID: " ++ sid ++ nl ++
           "- Auto-logging: " ++
             (if c_auto_log then "Enabled" else "Disabled") ++ nl ++
           "- Project: " ++ project_text ++ nl ++ nl ++
           "Your conversations will now be logged to GitHub via n8n with authenticated access.")
  end.

Definition log_conversation (args : option (list (string * json)))
  : M State string :=
  match args with
  | None => throw (Error "No arguments provided")
  | Some _ =>
      loadConfig ;;;
      cfg <- gets config ;;
      if negb (truthy (Some cfg))
      then throw (Error "GitHub logging not configured. Run setup_github_logging first.")
      else
        t <- gets ticks ;;
        sid <- lift (prop (Some cfg) "session_id") ;;
        cfg_project <- lift (prop (Some cfg) "project") ;;
        let entry :=
          {| timestamp := Date_toISOString t;
             entry_session_id := sid;
             user_msg := arg args "user_message";
             assistant_msg := arg args "assistant_message";
             model := "claude-sonnet-4";
             tools_used := js_or (arg args "tools_used") (Some (JArr []));
             entry_project := js_or (arg args "project") cfg_project |} in
        result <- sendToN8N entry ;;
        session_text <- lift (ToString (entry_session_id entry)) ;;
        tools <- lift (call_join (tools_used entry) ", ") ;;
        project_text <- lift (or_text (entry_project entry) "default") ;;
        latest_url <- lift (prop (Some result) "latest_url") ;;
        latest_text <- lift (or_text latest_url "N/A") ;;
        dated_url <- lift (prop (Some result) "dated_url") ;;
        dated_text <- lift (or_text dated_url "N/A") ;;
        project_latest_url <- lift (prop (Some result) "project_latest_url") ;;
        project_latest_text <- lift (or_text project_latest_url "N/A") ;;
        ret ("Conversation logged successfully!" ++ nl ++ nl ++
             "- Session: " ++ session_text ++ nl ++
             "- Tools used: " ++ (if tools =? "" then "none" else tools) ++ nl ++
             "- Project: " ++ project_text ++ nl ++ nl ++
             "GitHub URLs:" ++ nl ++
             "- Latest: " ++ latest_text ++ nl ++
             "- Dated: " ++ dated_text ++ nl ++
             "- Project Latest: " ++ project_latest_text)
  end.

(** [`**Transcript ${idx + 1}:**\n${transcript}\n\n---\n`] for the items
    of [limited], [idx] counting from [i]. *)
Fixpoint transcript_blocks (i : nat) (limited : list string) : list string :=
  match limited with
  | [] => []
  | transcript :: rest =>
      ("**Transcript " ++ string_of_nat (i + 1) ++ ":**" ++ nl ++
       transcript ++ nl ++ nl ++ "---" ++ nl)
        :: transcript_blocks (S i) rest
  end.

(** The unused [lines]/[firstLine] of the [map] callback compute on a string
    and cannot throw; they are left out. *)
Definition retrieve_chat_history (args : option (list (string * json)))
  : M State string :=
  loadConfig ;;;
  cfg <- gets config ;;
  if negb (truthy (Some cfg))
  then throw (Error "GitHub logging not configured. Run setup_github_logging first.")
  else
    transcripts <- retrieveTranscripts (arg args "project") ;;
    let limit := js_or (arg args "limit") (Some (JNum 10)) in
    slice_end <- lift (ToIntegerOrInfinity limit) ;;
    let limited := slice0 transcripts slice_end in
    if (length limited =? 0)%nat
    then ret "No chat transcripts found in the repository."
    else
      let summary := join nl (transcript_blocks 0 limited) in
      ret ("Found " ++ string_of_nat (length transcripts) ++
           " transcripts (showing " ++ string_of_nat (length limited) ++ "):" ++
           nl ++ nl ++ summary).

Definition get_logger_status : M State string :=
  config <- loadConfig ;;
  if negb (truthy (Some config))
  then ret "GitHub logging is not configured. Run 'setup_github_logging' to get started."
  else
    c_webhook_url <- lift (prop (Some config) "webhook_url") ;;
    webhook_text <- lift (ToString c_webhook_url) ;;
    c_github_repo <- lift (prop (Some config) "github_repo") ;;
    repo_text <- lift (ToString c_github_repo) ;;
    c_github_token <- lift (prop (Some config) "github_token") ;;
    c_session_id <- lift (prop (Some config) "session_id") ;;
    session_text <- lift (ToString c_session_id) ;;
    c_auto_log <- lift (prop (Some config) "auto_log") ;;
    c_project <- lift (prop (Some config) "project") ;;
    project_text <- lift (or_text c_project "None") ;;
    ret ("GitHub Logger Status:" ++ nl ++ nl ++
         "‚úÖ Configured: Yes" ++ nl ++
         "üîó Webhook: " ++ webhook_text ++ nl ++
         "üìÅ Repository: " ++ repo_text ++ nl ++
         "üîê GitHub Token: " ++
           (if truthy c_github_token then "Configured" else "Missing") ++ nl ++
         "üÜî Session: " ++ session_text ++ nl ++
         "ü§ñ Auto-logging: " ++
           (if truthy c_auto_log then "Enabled" else "Disabled") ++ nl ++
         "üìÇ Project: " ++ project_text ++ nl ++ nl ++
         "Ready to log conversations to GitHub with authenticated access!").

Definition update_session_context (args : option (list (string * json)))
  : M State string :=
  match args with
  | None => throw (Error "No arguments provided")
  | Some _ =>
      modify (set_currentUserMessage (arg args "user_message")) ;;;
      ret "Session context updated. User message prepared for logging."
  end.

(** The [switch] of the handler. *)
Definition dispatch (name : string) (args : option (list (string * json)))
  : M State string :=
  if name =? "setup_github_logging" then setup_github_logging args
  else if name =? "log_conversation" then log_conversation args
  else if name =? "retrieve_chat_history" then retrieve_chat_history args
  else if name =? "get_logger_status" then get_logger_status
  else if name =? "update_session_context" then update_session_context args
  else throw (Error ("Unknown tool: " ++ name)).

(** What a tool call returns: the text of the single content item and the
    error flag. *)
Record ToolResult : Type := {
  text : string;
  isError : bool
}.

(** The handler registered for [CallToolRequestSchema]. *)
Definition callTool (name : string) (args : option (list (string * json)))
  : State -> ToolResult * State :=
  fun s =>
    match dispatch name args s with
    | (Ok t, s') => ({| text := t; isError := false |}, s')
    | (Throw e, s') =>
        ({| text := "Error: " ++ message e; isError := true |}, s')
    end.

End Program.

(* ----------------------------------------------------------------- *)
(** *** The advertised tools *)

(** One property of an input schema: its name, its JSON type, the type of
    its items when it is an array, its description and its default. *)
Record SchemaProperty : Type := {
  property_name : string;
  property_type : string;
  property_items : option string;
  property_description : string;
  property_default : option json
}.

Record Tool : Type := {
  tool_name : string;
  tool_description : string;
  tool_properties : list SchemaProperty;
  tool_required : list string
}.

Definition schema_property (name type description : string)
           (default : option json) : SchemaProperty :=
  {| property_name := name; property_type := type; property_items := None;
     property_description := description; property_default := default |}.

(** [const tools: Tool[]] *)
Definition tools : list Tool :=
  [ {| tool_name := "setup_github_logging";
       tool_description :=
         "Configure the GitHub logging integration with your n8n webhook";
       tool_properties :=
         [ schema_property "webhook_url" "string"
             "Your n8n webhook URL for chat logging" None;
           schema_property "github_repo" "string"
             "GitHub repository in format 'owner/repo' (e.g., 'john/chat-transcripts')"
             None;
           schema_property "github_token" "string"
             "GitHub Personal Access Token for private repository access" None;
           schema_property "project" "string"
             "Optional project name for organizing transcripts" None;
           schema_property "auto_log" "boolean"
             "Enable automatic logging of all conversations"
             (Some (JBool true)) ];
       tool_required := ["webhook_url"; "github_repo"; "github_token"] |};
    {| tool_name := "log_conversation";
       tool_description :=
         "Manually log the current conversation to GitHub via n8n";
       tool_properties :=
         [ schema_property "user_message" "string"
             "The user's message in this conversation" None;
           schema_property "assistant_message" "string"
             "The assistant's response message" None;
           {| property_name := "tools_used"; property_type := "array";
              property_items := Some "string";
              property_description := "List of tools used in this conversation";
              property_default := Some (JArr []) |};
           schema_property "project" "string"
             "Optional project override for this specific log" None ];
       tool_required := ["user_message"; "assistant_message"] |};
    {| tool_name := "retrieve_chat_history";
       tool_description := "Retrieve previous chat transcripts from GitHub";
       tool_properties :=
         [ schema_property "project" "string"
             "Optional project name to filter transcripts" None;
           schema_property "limit" "number"
             "Maximum number of transcripts to retrieve" (Some (JNum 10)) ];
       tool_required := [] |};
    {| tool_name := "get_logger_status";
       tool_description :=
         "Check the current configuration and status of GitHub logging";
       tool_properties := [];
       tool_required := [] |};
    {| tool_name := "update_session_context";
       tool_description :=
         "Update the current session with user message for auto-logging";
       tool_properties :=
         [ schema_property "user_message" "string"
             "The current user message to prepare for logging" None ];
       tool_required := ["user_message"] |} ].

(** The handler registered for [ListToolsRequestSchema]. *)
Definition listTools : list Tool := tools.

(* ================================================================= *)
(** ** The vocabulary of the properties *)

(** [needle] occurs in [hay]. *)
Definition occurs_in (needle hay : string) : Prop :=
  exists before after, hay = before ++ needle ++ after.

(** Whether a run returned. *)
Definition returned {A : Type} (r : result A) : bool :=
  match r with
  | Ok _ => true
  | Throw _ => false
  end.

(** The value can be converted to a string. *)
Definition renders `{Host} (v : jsval) : bool := returned (ToString v).

(** *** Steps of the walk *)

(** The headers [getGitHubHeaders] builds in state [s]. *)
Definition current_headers `{Host} (s : State) : list (string * string) :=
  match fst (getGitHubHeaders s) with
  | Ok hdrs => hdrs
  | Throw _ => []
  end.

(** A listing entry that is not [null]; one that has a string for a name. *)
Definition is_entry (item : json) : bool :=
  match item with
  | JNull => false
  | _ => true
  end.

Definition has_name (file : json) : bool :=
  match prop_opt (Some file) "name" with
  | Some (JStr _) => true
  | _ => false
  end.

(** A project-folder entry is descended into: its type is [dir] and its
    name, converted to a string, is four digits. *)
Definition descends `{Host} (item : json) : bool :=
  is_dir (prop_opt (Some item) "type")
  && match ToString (prop_opt (Some item) "name") with
     | Ok name => is_year name
     | Throw _ => false
     end.

(** The loop over the project folder gets past the entry: it is not [null]
    and, where its name is tested, the name converts to a string. *)
Definition inspectable `{Host} (item : json) : bool :=
  is_entry item
  && (negb (is_dir (prop_opt (Some item) "type"))
      || renders (prop_opt (Some item) "name")).

(** A year-folder entry is listed: its type is [dir]. *)
Definition listed (dateItem : json) : bool :=
  is_dir (prop_opt (Some dateItem) "type").

(** A date-folder entry is fetched: its name ends in [.md] and it carries a
    download URL.  Its type plays no part. *)
Definition selected (file : json) : bool :=
  match prop_opt (Some file) "name" with
  | Some (JStr name) =>
      endsWith name ".md" && truthy (prop_opt (Some file) "download_url")
  | _ => false
  end.


(** The requests among the events. *)
Definition requests (h : list Event) : list Request :=
  flat_map (fun e => match e with
                     | EvFetch r => [r]
                     | _ => []
                     end) h.

(** The walk as a function of what the remote service answers, laid out in
    the steps of the design specification (4.2 and 4.3): the root
    [latest.md], the project's [latest.md], then the year folders in
    listing order, in each the date folders in listing order, in each the
    files in listing order.  The remote service is asked one request at a
    time and may answer by everything that happened before, so every step
    takes the history [h] and returns it extended by what it asked.  A step
    yields the bodies it retrieved and whether it completed: a non-success
    status or a missing download URL is "nothing here" and the step
    completes; on a request that is refused, a body that cannot be read or
    an entry that cannot be inspected the step fails, and steps in sequence
    are taken up to the first that fails.  Which entries a step follows
    and how far a failure reaches are those of the code: an entry of a date
    folder is fetched by its name and download URL whatever its type, and a
    failure ends the enclosing year folder, project folder or [latest.md]
    step rather than the one entry. *)
Module Spec.

Section Remote.

Context `{Host}.
Variable hdrs : list (string * string).

Definition outcome : Type := (list string * bool)%type.

Definition asked (r : Request) (h : list Event) : list Event :=
  (h ++ [EvFetch r])%list.

(** Steps taken in listing order, up to the first that fails. *)
Fixpoint in_order {A : Type} (step : A -> list Event -> outcome * list Event)
         (xs : list A) (h : list Event) : outcome * list Event :=
  match xs with
  | [] => (([], true), h)
  | x :: rest =>
      let '((bodies, completed), h1) := step x h in
      if completed
      then let '((more, all_completed), h2) := in_order step rest h1 in
           (((bodies ++ more)%list, all_completed), h2)
      else ((bodies, false), h1)
  end.

(** fetchFileBody: text, or skipped on a non-success reply. *)
Definition fetchFileBody (download_url : jsval) (h : list Event)
  : outcome * list Event :=
  let h1 := asked (GET download_url hdrs) h in
  match network h (GET download_url hdrs) with
  | Rejected _ => (([], false), h1)
  | Resolved content =>
      if ok content
      then match text_body content with
           | Ok t => (([t], true), h1)
           | Throw _ => (([], false), h1)
           end
      else (([], true), h1)
  end.

(** listDirectory: the entries, empty on a non-success reply; [None] when
    the listing itself fails. *)
Definition listDirectory (url : jsval) (h : list Event)
  : option (list json) * list Event :=
  let h1 := asked (GET url hdrs) h in
  match network h (GET url hdrs) with
  | Rejected _ => (None, h1)
  | Resolved response =>
      if ok response
      then match json_body response with
           | Ok contents =>
               match iterate "contents" contents with
               | Ok entries => (Some entries, h1)
               | Throw _ => (None, h1)
               end
           | Throw _ => (None, h1)
           end
      else (Some [], h1)
  end.

(** Steps 1 and 2: a [latest.md] file, looked up and then fetched. *)
Definition latest (url : string) (h : list Event) : list string * list Event :=
  let h1 := asked (GET (Some (JStr url)) hdrs) h in
  match network h (GET (Some (JStr url)) hdrs) with
  | Rejected _ => ([], h1)
  | Resolved response =>
      if ok response
      then match json_body response with
           | Ok data =>
               if truthy (prop_opt (Some data) "download_url")
               then let '((bodies, _), h2) :=
                      fetchFileBody (prop_opt (Some data) "download_url") h1 in
                    (bodies, h2)
               else ([], h1)
           | Throw _ => ([], h1)
           end
      else ([], h1)
  end.

(** Step 3b: one entry of a date directory. *)
Definition file_step (file : json) (h : list Event) : outcome * list Event :=
  if has_name file
  then if selected file
       then fetchFileBody (prop_opt (Some file) "download_url") h
       else (([], true), h)
  else (([], false), h).

(** Step 3a: one entry of a year directory. *)
Definition date_step (dateItem : json) (h : list Event) : outcome * list Event :=
  if is_entry dateItem
  then if listed dateItem
       then match listDirectory (prop_opt (Some dateItem) "url") h with
            | (Some files, h1) => in_order file_step files h1
            | (None, h1) => (([], false), h1)
            end
       else (([], true), h)
  else (([], false), h).

(** A year directory: a failure inside it ends it and nothing else. *)
Definition year_bodies (url : jsval) (h : list Event) : list string * list Event :=
  match listDirectory url h with
  | (Some dateItems, h1) =>
      let '((bodies, _), h2) := in_order date_step dateItems h1 in (bodies, h2)
  | (None, h1) => ([], h1)
  end.

(** Step 3: one entry of the project directory. *)
Definition project_step (item : json) (h : list Event) : outcome * list Event :=
  if inspectable item
  then if descends item
       then let '(bodies, h1) := year_bodies (prop_opt (Some item) "url") h in
            ((bodies, true), h1)
       else (([], true), h)
  else (([], false), h).

Definition archived (url : string) (h : list Event) : list string * list Event :=
  match listDirectory (Some (JStr url)) h with
  | (Some items, h1) =>
      let '((bodies, _), h2) := in_order project_step items h1 in (bodies, h2)
  | (None, h1) => ([], h1)
  end.

(** retrieve(project): root latest, then project latest, then the archive. *)
Definition retrieve (repo : string) (project : option string) (h : list Event)
  : list string * list Event :=
  let '(root, h1) := latest (contents_url repo "transcripts/latest.md") h in
  match project with
  | Some p =>
      let '(project_latest, h2) :=
        latest (contents_url repo ("transcripts/" ++ p ++ "/latest.md")) h1 in
      let '(archive, h3) :=
        archived (contents_url repo ("transcripts/" ++ p)) h2 in
      ((root ++ project_latest ++ archive)%list, h3)
  | None => (root, h1)
  end.

End Remote.

End Spec.

(** The code of a step does what the specification of the step says: from
    a walk whose events are [h] it collects the bodies the step yields,
    leaves the events the step leaves and nothing else changed, and returns
    exactly when the step completes. *)
Definition runs_as `{Host} (m : M Walk unit)
           (step : list Event -> Spec.outcome * list Event) : Prop :=
  forall w : Walk,
    snd (m w) = (set_events (snd (step (events (fst w)))) (fst w),
                 (snd w ++ fst (fst (step (events (fst w)))))%list)
    /\ returned (fst (m w)) = snd (fst (step (events (fst w)))).

(** A step that always completes. *)
Definition completing (f : list Event -> list string * list Event)
  : list Event -> Spec.outcome * list Event :=
  fun h => ((fst (f h), true), snd (f h)).

(** The project a retrieval is given: none for a falsy value. *)
Definition given_project `{Host} (project : jsval) : result (option string) :=
  if truthy project
  then p <~ ToString project ;; Ok (Some p)
  else Ok None.

(** *** Tool invocations *)

(** A computation leaves an observation [f] of its state as it was. *)
Definition preserves {S X A : Type} (f : S -> X) (m : M S A) : Prop :=
  forall s, f (snd (m s)) = f s.

(** The configuration file and the count of identifiers drawn. *)
Definition store (s : State) : option string * nat := (disk s, ticks s).

(** A sequence of tool invocations, served one at a time. *)
Fixpoint run_calls `{Host} (calls : list (string * option (list (string * json))))
         (s : State) : State :=
  match calls with
  | [] => s
  | (name, args) :: rest => run_calls rest (snd (callTool name args s))
  end.

(** The bindings of an object other than those of key [k]. *)
Definition without_key (k : string) (fields : list (string * json))
  : list (string * json) :=
  filter (fun kv => negb (fst kv =? k)) fields.

(** The report of [get_logger_status] for a stored object. *)
Definition status_report `{Host} (fields : list (string * json)) : result string :=
  webhook_text <~ ToString (lookup "webhook_url" fields) ;;
  repo_text <~ ToString (lookup "github_repo" fields) ;;
  session_text <~ ToString (lookup "session_id" fields) ;;
  project_text <~ or_text (lookup "project" fields) "None" ;;
  Ok ("GitHub Logger Status:" ++ nl ++ nl ++
         "‚úÖ Configured: Yes" ++ nl ++
         "üîó Webhook: " ++ webhook_text ++ nl ++
         "üìÅ Repository: " ++ repo_text ++ nl ++
         "üîê GitHub Token: " ++
           (if truthy (lookup "github_token" fields) then "Configured" else "Missing") ++ nl ++
         "üÜî Session: " ++ session_text ++ nl ++
         "ü§ñ Auto-logging: " ++
           (if truthy (lookup "auto_log" fields) then "Enabled" else "Disabled") ++ nl ++
         "üìÇ Project: " ++ project_text ++ nl ++ nl ++
         "Ready to log conversations to GitHub with authenticated access!").

(** The fields [get_logger_status] puts into its text. *)
Definition displayed_fields : list string :=
  ["webhook_url"; "github_repo"; "session_id"; "project"].

(** *** Effects *)

(** A computation only adds, to the events [ev] of its state, events that
    satisfy [P]; it removes none. *)
Definition adds {S A : Type} (ev : S -> list Event) (P : Event -> Prop)
           (m : M S A) : Prop :=
  forall s, exists added,
    ev (snd (m s)) = (ev s ++ added)%list /\ Forall P added.

(** A request of the walk: a GET with the given headers and no body. *)
Definition is_get (hdrs : list (string * string)) (e : Event) : Prop :=
  exists url, e = EvFetch (GET url hdrs).

(** The configuration file cannot be loaded: it is missing, or its content
    does not parse. *)
Definition unloadable `{Host} (s : State) : Prop :=
  match disk s with
  | Some data => returned (JSON_parse data) = false
  | None => True
  end.

(** Two states of the logger that differ at most in the message kept by
    [update_session_context]. *)
Definition same_but_message (s1 s2 : State) : Prop :=
  config s1 = config s2
  /\ disk s1 = disk s2
  /\ disk_writable s1 = disk_writable s2
  /\ events s1 = events s2
  /\ ticks s1 = ticks s2.

Definition same_walk (w1 w2 : Walk) : Prop :=
  same_but_message (fst w1) (fst w2) /\ snd w1 = snd w2.

(** A computation does not tell apart states related by [R]: from two such
    states it gives the same result and reaches related states. *)
Definition blind {S A : Type} (R : S -> S -> Prop) (m : M S A) : Prop :=
  forall s1 s2, R s1 s2 ->
    fst (m s1) = fst (m s2) /\ R (snd (m s1)) (snd (m s2)).

(** The answers to a sequence of tool invocations, served one at a time. *)
Fixpoint answers `{Host} (calls : list (string * option (list (string * json))))
         (s : State) : list ToolResult :=
  match calls with
  | [] => []
  | (name, args) :: rest =>
      fst (callTool name args s) :: answers rest (snd (callTool name args s))
  end.

(** The names the tool list advertises. *)
Definition advertised (name : string) : bool :=
  existsb (String.eqb name) (map tool_name tools).

(** The default the tool list advertises for a property of a tool. *)
Definition advertised_default (tool property : string) : option json :=
  match find (fun t => tool_name t =? tool) tools with
  | Some t =>
      match find (fun q => property_name q =? property) (tool_properties t) with
      | Some q => property_default q
      | None => None
      end
  | None => None
  end.

(** The arguments [fields] with [k] bound to [v] in addition. *)
Definition with_argument (k : string) (v : json) (fields : list (string * json))
  : list (string * json) :=
  (fields ++ [(k, v)])%list.

(** *** The relay *)

(** The fields of a stored value: those of an object, none otherwise. *)
Definition fields_of (v : json) : list (string * json) :=
  match v with
  | JObj fields => fields
  | _ => []
  end.

(** The entry [log_conversation] builds from its arguments in state [s]. *)
Definition log_entry `{Host} (fields : list (string * json)) (s : State)
  : ChatLogEntry :=
  {| timestamp := Date_toISOString (ticks s);
     entry_session_id := prop_opt (Some (config s)) "session_id";
     user_msg := lookup "user_message" fields;
     assistant_msg := lookup "assistant_message" fields;
     model := "claude-sonnet-4";
     tools_used := js_or (lookup "tools_used" fields) (Some (JArr []));
     entry_project := js_or (lookup "project" fields)
                            (prop_opt (Some (config s)) "project") |}.

(** The object posted for an entry under a stored configuration. *)
Definition relay_payload (entry : ChatLogEntry) (cfg : json) : json :=
  JObj (object_literal
          [("session_id", entry_session_id entry);
           ("model", Some (JStr (model entry)));
           ("tools_used", tools_used entry);
           ("user_message", user_msg entry);
           ("assistant_message", assistant_msg entry);
           ("project",
            if truthy (entry_project entry) then entry_project entry
            else js_or (prop_opt (Some cfg) "project") (Some (JStr "")))]).

Definition relay_request `{Host} (entry : ChatLogEntry) (cfg : json) : Request :=
  {| method := "POST";
     target := prop_opt (Some cfg) "webhook_url";
     headers := [("Content-Type", "application/json")];
     body := Some (JSON_stringify (relay_payload entry cfg) 0) |}.

(** What [sendToN8N] makes of the network's answer. *)
Definition relay_result (answer : FetchResult) : result json :=
  match answer with
  | Rejected e => Throw e
  | Resolved response =>
      if ok response
      then json_body response
      else Throw (Error ("HTTP " ++ string_of_Z (status response) ++ ": "
                                 ++ statusText response))
  end.

(** The confirmation [log_conversation] builds from the webhook's reply,
    its substitutions evaluated and converted in the order in which they
    stand. *)
Definition log_reply_text `{Host} (entry : ChatLogEntry) (reply : json)
  : result string :=
  session_text <~ ToString (entry_session_id entry) ;;
  tools <~ call_join (tools_used entry) ", " ;;
  project_text <~ or_text (entry_project entry) "default" ;;
  latest_url <~ prop (Some reply) "latest_url" ;;
  latest_text <~ or_text latest_url "N/A" ;;
  dated_url <~ prop (Some reply) "dated_url" ;;
  dated_text <~ or_text dated_url "N/A" ;;
  project_latest_url <~ prop (Some reply) "project_latest_url" ;;
  project_latest_text <~ or_text project_latest_url "N/A" ;;
  Ok ("Conversation logged successfully!" ++ nl ++ nl ++
      "- Session: " ++ session_text ++ nl ++
      "- Tools used: " ++ (if tools =? "" then "none" else tools) ++ nl ++
      "- Project: " ++ project_text ++ nl ++ nl ++
      "GitHub URLs:" ++ nl ++
      "- Latest: " ++ latest_text ++ nl ++
      "- Dated: " ++ dated_text ++ nl ++
      "- Project Latest: " ++ project_latest_text).

(** [tools_used] can be joined: it is an array, or falsy and replaced by
    the empty array. *)
Definition joinable (v : jsval) : bool :=
  match js_or v (Some (JArr [])) with
  | Some (JArr _) => true
  | _ => false
  end.

(** The values [log_conversation] converts for its confirmation: the
    session identifier, the elements of [tools_used], the project shown and
    the three addresses of the reply. *)
Definition confirmation_renders `{Host} (entry : ChatLogEntry) (reply : json)
  : bool :=
  renders (entry_session_id entry)
  && match tools_used entry with
     | Some (JArr items) => returned (each element_text items)
     | _ => true
     end
  && returned (or_text (entry_project entry) "default")
  && returned (or_text (prop_opt (Some reply) "latest_url") "N/A")
  && returned (or_text (prop_opt (Some reply) "dated_url") "N/A")
  && returned (or_text (prop_opt (Some reply) "project_latest_url") "N/A").

(** The answer of [retrieve_chat_history] for the transcripts collected and
    the end of the slice. *)
Definition history_text (transcripts : list string) (slice_end : extended)
  : string :=
  match slice0 transcripts slice_end with
  | [] => "No chat transcripts found in the repository."
  | limited =>
      "Found " ++ string_of_nat (length transcripts) ++
      " transcripts (showing " ++ string_of_nat (length limited) ++ "):" ++
      nl ++ nl ++ join nl (transcript_blocks 0 limited)
  end.

(** *** The setup *)

(** The identifier [generateSessionId] makes of draw number [t]. *)
Definition session_identifier `{Host} (t : nat) : string :=
  "claude-" ++ string_of_Z (Date_now t) ++ "-" ++ Math_random_tail t.

(** The record [setup_github_logging] builds from its arguments. *)
Definition setup_record (fields : list (string * json)) (sid : string) : json :=
  JObj (object_literal
          [("webhook_url", lookup "webhook_url" fields);
           ("github_repo", lookup "github_repo" fields);
           ("github_token", lookup "github_token" fields);
           ("session_id", Some (JStr sid));
           ("auto_log", Some (JBool (is_not_false (lookup "auto_log" fields))));
           ("project", lookup "project" fields)]).

(** The confirmation [setup_github_logging] builds after saving. *)
Definition setup_text `{Host} (fields : list (string * json)) (sid : string)
  : result string :=
  webhook_text <~ ToString (lookup "webhook_url" fields) ;;
  repo_text <~ ToString (lookup "github_repo" fields) ;;
  project_text <~ or_text (lookup "project" fields) "None" ;;
  Ok ("GitHub logging configured successfully!" ++ nl ++ nl ++
      "- Webhook: " ++ webhook_text ++ nl ++
      "- Repository: " ++ repo_text ++ nl ++
      "- GitHub Token: " ++
        (if truthy (lookup "github_token" fields)
         then "Configured (hidden for security)"
         else "Not provided") ++ nl ++
      "- Session ID: " ++ sid ++ nl ++
      "- Auto-logging: " ++
        (if is_not_false (lookup "auto_log" fields)
         then "Enabled" else "Disabled") ++ nl ++
      "- Project: " ++ project_text ++ nl ++ nl ++
      "Your conversations will now be logged to GitHub via n8n with authenticated access.").

(** What the handler makes of the outcome of a case. *)
Definition answer (r : result string) : ToolResult :=
  match r with
  | Ok t => {| text := t; isError := false |}
  | Throw e => {| text := "Error: " ++ message e; isError := true |}
  end.

(** The integer part of a number, as [slice] takes it. *)
Definition numeric (v : json) : option extended :=
  match v with
  | JNum z => Some (Finite z)
  | JReal x => Some (integer_part x)
  | _ => None
  end.

(* ================================================================= *)
(** ** A reference host

    A JSON printer and parser in the format of [JSON.stringify(v, null, n)]
    and [JSON.parse], a clock, and a network that is given per scenario.
    The theorems hold for every host; this one serves to run the program on
    concrete inputs.  It is a host for integers: its parser reads integer
    literals and refuses a number with a fraction or an exponent, its
    [StringToInteger] takes every string that is not a decimal integer
    literal for [NaN], and it prints an integer beyond 2^53 by its digits.
    The scenarios stay within that range. *)

Module RefHost.

Definition hex_digit (n : nat) : ascii :=
  ascii_of_nat (if (n <? 10)%nat then 48 + n else 87 + n).

(** The escape of one character inside a string literal. *)
Definition escape_char (c : ascii) : string :=
  let n := nat_of_ascii c in
  if (n =? 34)%nat then "\" ++ dquote
  else if (n =? 92)%nat then "\\"
  else if (n =? 8)%nat then "\b"
  else if (n =? 9)%nat then "\t"
  else if (n =? 10)%nat then "\n"
  else if (n =? 12)%nat then "\f"
  else if (n =? 13)%nat then "\r"
  else if (n <? 32)%nat
       then "\u00" ++ String (hex_digit (n / 16)) (String (hex_digit (n mod 16)) "")
  else String c "".

Fixpoint escape (s : string) : string :=
  match s with
  | EmptyString => ""
  | String c rest => escape_char c ++ escape rest
  end.

Definition quote (s : string) : string := dquote ++ escape s ++ dquote.

(** [gap] is the indentation unit and [cur] the indentation reached. *)
Fixpoint print (gap cur : string) (v : json) : string :=
  let inner := cur ++ gap in
  let sep := if gap =? "" then "," else "," ++ nl ++ inner in
  let opening := if gap =? "" then "" else nl ++ inner in
  let closing := if gap =? "" then "" else nl ++ cur in
  let colon := if gap =? "" then ":" else ": " in
  match v with
  | JNull => "null"
  | JBool true => "true"
  | JBool false => "false"
  | JNum n => string_of_Z n
  | JReal x =>
      match integer_part x with
      | Finite _ => rendering x
      | _ => "null"
      end
  | JStr s => quote s
  | JArr [] => "[]"
  | JArr items =>
      "[" ++ opening ++ join sep (map (print gap inner) items) ++ closing ++ "]"
  | JObj [] => "{}"
  | JObj fields =>
      "{" ++ opening
          ++ join sep (map (fun kv => quote (fst kv) ++ colon ++ print gap inner (snd kv))
                           fields)
          ++ closing ++ "}"
  end.

Fixpoint spaces (n : nat) : string :=
  match n with
  | O => ""
  | S m => " " ++ spaces m
  end.

Definition stringify (v : json) (indent : nat) : string :=
  print (spaces (Nat.min indent 10)) "" v.

(** *** Parsing *)

Definition is_ws (c : ascii) : bool :=
  let n := nat_of_ascii c in
  ((n =? 32) || (n =? 9) || (n =? 10) || (n =? 13))%nat.

Fixpoint skip_ws (s : string) : string :=
  match s with
  | String c rest => if is_ws c then skip_ws rest else s
  | EmptyString => s
  end.

(** [expect lit s]: [s] without its prefix [lit]. *)
Fixpoint expect (lit s : string) : option string :=
  match lit, s with
  | EmptyString, _ => Some s
  | String a lit', String b s' => if Ascii.eqb a b then expect lit' s' else None
  | String _ _, EmptyString => None
  end.

Definition hex_value (c : ascii) : option nat :=
  let n := nat_of_ascii c in
  if ((48 <=? n) && (n <=? 57))%nat then Some (n - 48)
  else if ((97 <=? n) && (n <=? 102))%nat then Some (n - 87)
  else if ((65 <=? n) && (n <=? 70))%nat then Some (n - 55)
  else None.

(** The UTF-8 bytes of a code point of the basic plane. *)
Definition utf8 (cp : nat) : string :=
  if (cp <? 128)%nat then String (ascii_of_nat cp) ""
  else if (cp <? 2048)%nat
  then String (ascii_of_nat (192 + cp / 64))
         (String (ascii_of_nat (128 + cp mod 64)) "")
  else String (ascii_of_nat (224 + cp / 4096))
         (String (ascii_of_nat (128 + (cp / 64) mod 64))
            (String (ascii_of_nat (128 + cp mod 64)) "")).

(** The characters of a string literal after its opening quote. *)
Fixpoint parse_chars (s : string) : option (string * string) :=
  match s with
  | EmptyString => None
  | String c rest =>
      let n := nat_of_ascii c in
      if (n =? 34)%nat then Some ("", rest)
      else if (n <? 32)%nat then None
      else if (n =? 92)%nat then
        match rest with
        | String e rest' =>
            let simple (ch : nat) :=
              match parse_chars rest' with
              | Some (t, r) => Some (String (ascii_of_nat ch) t, r)
              | None => None
              end in
            let m := nat_of_ascii e in
            if (m =? 34)%nat then simple 34%nat
            else if (m =? 92)%nat then simple 92%nat
            else if (m =? 47)%nat then simple 47%nat
            else if (m =? 98)%nat then simple 8%nat
            else if (m =? 102)%nat then simple 12%nat
            else if (m =? 110)%nat then simple 10%nat
            else if (m =? 114)%nat then simple 13%nat
            else if (m =? 116)%nat then simple 9%nat
            else if (m =? 117)%nat then
              match rest' with
              | String h1 (String h2 (String h3 (String h4 rest''))) =>
                  match hex_value h1, hex_value h2, hex_value h3, hex_value h4,
                        parse_chars rest'' with
                  | Some a, Some b, Some c', Some d, Some (t, r) =>
                      Some (utf8 (((a * 16 + b) * 16 + c') * 16 + d) ++ t, r)
                  | _, _, _, _, _ => None
                  end
              | _ => None
              end
            else None
        | EmptyString => None
        end
      else
        match parse_chars rest with
        | Some (t, r) => Some (String c t, r)
        | None => None
        end
  end.

Fixpoint take_digits (s : string) : string * string :=
  match s with
  | String c rest =>
      if is_digit c
      then let (d, r) := take_digits rest in (String c d, r)
      else ("", s)
  | EmptyString => ("", s)
  end.

(** An integer literal: no leading zero, no fraction or exponent part. *)
Definition parse_number (s : string) : option (Z * string) :=
  let (neg, s1) := match s with
                   | String "-" r => (true, r)
                   | _ => (false, s)
                   end in
  let (digits, rest) := take_digits s1 in
  match digits with
  | EmptyString => None
  | String "0" (String _ _) => None
  | _ =>
      match rest with
      | String "." _ | String "e" _ | String "E" _ => None
      | _ =>
          match NilZero.uint_of_string digits with
          | Some u => let z := Z.of_uint u in
                      Some (if neg then Z.opp z else z, rest)
          | None => None
          end
      end
  end.

Fixpoint parse_value (fuel : nat) (s : string) : option (json * string) :=
  match fuel with
  | O => None
  | S fuel' =>
      match skip_ws s with
      | String "n" _ =>
          option_map (fun r => (JNull, r)) (expect "null" (skip_ws s))
      | String "t" _ =>
          option_map (fun r => (JBool true, r)) (expect "true" (skip_ws s))
      | String "f" _ =>
          option_map (fun r => (JBool false, r)) (expect "false" (skip_ws s))
      | String "034" rest =>
          option_map (fun tr => (JStr (fst tr), snd tr)) (parse_chars rest)
      | String "[" rest =>
          match skip_ws rest with
          | String "]" r => Some (JArr [], r)
          | _ => option_map (fun ir => (JArr (fst ir), snd ir))
                            (parse_items fuel' rest)
          end
      | String "{" rest =>
          match skip_ws rest with
          | String "}" r => Some (JObj [], r)
          | _ => option_map (fun mr => (JObj (fst mr), snd mr))
                            (parse_members fuel' rest)
          end
      | other =>
          option_map (fun nr => (JNum (fst nr), snd nr)) (parse_number other)
      end
  end

with parse_items (fuel : nat) (s : string) : option (list json * string) :=
  match fuel with
  | O => None
  | S fuel' =>
      match parse_value fuel' s with
      | Some (v, r) =>
          match skip_ws r with
          | String "," r' =>
              option_map (fun ir => (v :: fst ir, snd ir)) (parse_items fuel' r')
          | String "]" r' => Some ([v], r')
          | _ => None
          end
      | None => None
      end
  end

with parse_members (fuel : nat) (s : string)
  : option (list (string * json) * string) :=
  match fuel with
  | O => None
  | S fuel' =>
      match skip_ws s with
      | String "034" r0 =>
          match parse_chars r0 with
          | Some (k, r1) =>
              match skip_ws r1 with
              | String ":" r2 =>
                  match parse_value fuel' r2 with
                  | Some (v, r3) =>
                      match skip_ws r3 with
                      | String "," r4 =>
                          option_map (fun mr => ((k, v) :: fst mr, snd mr))
                                     (parse_members fuel' r4)
                      | String "}" r4 => Some ([(k, v)], r4)
                      | _ => None
                      end
                  | None => None
                  end
              | _ => None
              end
          | None => None
          end
      | _ => None
      end
  end.

Definition parse (s : string) : result json :=
  match parse_value (2 * String.length s + 2) s with
  | Some (v, rest) =>
      match skip_ws rest with
      | EmptyString => Ok v
      | _ => Throw (SyntaxError "Unexpected non-whitespace character after JSON")
      end
  | None => Throw (SyntaxError "Unexpected token in JSON")
  end.

(** *** Flat objects: the shape of the stored record *)

(** A value printed on one line. *)
Definition scalar (v : json) : Prop :=
  match v with
  | JNull | JBool _ | JStr _ => True
  | _ => False
  end.

(** One member and the members of an object, as [print] lays them out at
    the first level of indentation. *)
Definition member_text (kv : string * json) : string :=
  quote (fst kv) ++ ": " ++ print "  " "  " (snd kv).

Definition members_text (fields : list (string * json)) : string :=
  join ("," ++ nl ++ "  ") (map member_text fields).

(** [Number(s)] truncated, for the strings that are decimal integer
    literals; this host takes every other string for [NaN], which
    truncates to 0. *)
Definition string_to_integer (s : string) : extended :=
  match NilZero.int_of_string s with
  | Some d => Finite (Z.of_int d)
  | None => Finite 0
  end.

Definition host (net : list Event -> Request -> FetchResult) : Host :=
  {| JSON_parse := parse;
     JSON_stringify := stringify;
     StringToInteger := string_to_integer;
     Number_toString := string_of_Z;
     network := net;
     Date_now := fun t => (1757808000000 + Z.of_nat t)%Z;
     Date_toISOString := fun _ => "2025-09-14T00:00:00.000Z";
     Math_random_tail := fun t => "k3v9x0q2" ++ string_of_nat t |}.

(** A network on which every request is refused. *)
Definition offline : list Event -> Request -> FetchResult :=
  fun _ _ => Rejected (FetchError "request failed").

(** *** A small remote repository and webhook *)

Definition reply_json (v : json) : FetchResult :=
  Resolved {| status := 200; statusText := "OK";
              json_body := Ok v; text_body := Ok (stringify v 0) |}.

Definition reply_text (t : string) : FetchResult :=
  Resolved {| status := 200; statusText := "OK";
              json_body := Throw (SyntaxError "Unexpected token in JSON");
              text_body := Ok t |}.

Definition reply_status (code : Z) (reason : string) : FetchResult :=
  Resolved {| status := code; statusText := reason;
              json_body := Ok (JObj [("message", JStr reason)]);
              text_body := Ok reason |}.

Definition file_entry (name download_url : string) : json :=
  JObj [("name", JStr name); ("type", JStr "file");
        ("download_url", JStr download_url)].

Definition dir_entry (name url : string) : json :=
  JObj [("name", JStr name); ("type", JStr "dir"); ("url", JStr url);
        ("download_url", JNull)].

(** The repository [john/chat]: a root [latest.md], a project [p] with its
    own [latest.md], a year folder 2024 whose listing cannot be fetched, a
    folder [notes], and a year folder 2025 holding one date folder with a
    transcript and a text file.  The webhook answers 500. *)
Definition demo_remote (r : Request) : FetchResult :=
  match target r with
  | Some (JStr url) =>
      if url =? "https://api.github.com/repos/john/chat/contents/transcripts/latest.md"
      then reply_json (file_entry "latest.md" "https://raw.example/latest.md")
      else if url =? "https://raw.example/latest.md"
      then reply_text "## root latest"
      else if url =? "https://api.github.com/repos/john/chat/contents/transcripts/p/latest.md"
      then reply_json (file_entry "latest.md" "https://raw.example/p/latest.md")
      else if url =? "https://raw.example/p/latest.md"
      then reply_text "## p latest"
      else if url =? "https://api.github.com/repos/john/chat/contents/transcripts/p"
      then reply_json
             (JArr [file_entry "latest.md" "https://raw.example/p/latest.md";
                    dir_entry "2024" "https://api.example/p/2024";
                    dir_entry "notes" "https://api.example/p/notes";
                    dir_entry "2025" "https://api.example/p/2025"])
      else if url =? "https://api.example/p/2024"
      then Rejected (FetchError "socket hang up")
      else if url =? "https://api.example/p/2025"
      then reply_json (JArr [dir_entry "2025-09-14" "https://api.example/p/2025/2025-09-14"])
      else if url =? "https://api.example/p/2025/2025-09-14"
      then reply_json
             (JArr [file_entry "session.md" "https://raw.example/p/session.md";
                    file_entry "notes.txt" "https://raw.example/p/notes.txt"])
      else if url =? "https://raw.example/p/session.md"
      then reply_text "## session"
      else if url =? "https://n8n.example/webhook/chat"
      then reply_status 500 "Internal Server Error"
      else reply_status 404 "Not Found"
  | _ => Rejected (TypeError "Invalid URL")
  end.

Definition demo_host : Host := host (fun _ => demo_remote).

Definition demo_config (token : string) : LoggerConfig :=
  {| webhook_url := "https://n8n.example/webhook/chat";
     github_repo := "john/chat";
     session_id := "claude-1757808000000-k3v9x0q2a";
     auto_log := true;
     project := None;
     github_token := Some token |}.

Definition config_fields (c : LoggerConfig) : list (string * json) :=
  match LoggerConfig_js c with
  | JObj fields => fields
  | _ => []
  end.

(** The logger after it saved [demo_config token]. *)
Definition demo_state (token : string) : State :=
  {| config := LoggerConfig_js (demo_config token);
     currentUserMessage := Some (JStr "");
     disk := Some (stringify (LoggerConfig_js (demo_config token)) 2);
     disk_writable := true;
     events := [];
     ticks := 1 |}.

Definition project_p : jsval := Some (JStr "p").


Definition demo_entry : ChatLogEntry :=
  {| timestamp := "2025-09-14T00:00:00.000Z";
     entry_session_id := Some (JStr "claude-1757808000000-k3v9x0q2a");
     user_msg := Some (JStr "hello");
     assistant_msg := Some (JStr "hi");
     model := "claude-sonnet-4";
     tools_used := Some (JArr []);
     entry_project := None |}.

(** Invocations other than [setup_github_logging]. *)
Definition demo_calls : list (string * option (list (string * json))) :=
  [("get_logger_status", None);
   ("log_conversation",
    Some [("user_message", JStr "hello"); ("assistant_message", JStr "hi")]);
   ("retrieve_chat_history", Some [("project", JStr "p")]);
   ("update_session_context", Some [("user_message", JStr "next")]);
   ("unknown_tool", None)].

Definition demo_arguments (token : string) : list (string * json) :=
  [("webhook_url", JStr "https://n8n.example/webhook/chat");
   ("github_repo", JStr "john/chat");
   ("github_token", JStr token);
   ("project", JStr "p")].

(** A webhook that accepts what is posted and names the file it wrote;
    every other request is answered by [demo_remote]. *)
Definition accepting_remote (r : Request) : FetchResult :=
  if method r =? "POST"
  then reply_json
         (JObj [("latest_url",
                 JStr "https://github.com/john/chat/blob/main/transcripts/latest.md")])
  else demo_remote r.

Definition accepting_host : Host := host (fun _ => accepting_remote).

(** The headers of a request of the walk under [demo_config token]. *)
Definition demo_headers (token : string) : list (string * string) :=
  [("Accept", "application/vnd.github+json");
   ("User-Agent", "Claude-GitHub-Logger/1.0");
   ("Authorization", "token " ++ token)].

(** A turn to log, without and with a [tools_used] that is no array. *)
Definition demo_turn : list (string * json) :=
  [("user_message", JStr "hello"); ("assistant_message", JStr "hi")].

Definition demo_turn_with_tool : list (string * json) :=
  [("user_message", JStr "hello"); ("assistant_message", JStr "hi");
   ("tools_used", JStr "web_search")].

(** The repository [john/chat] with an archive in which one download is
    refused: the year folder 2024 holds the date folder 2024-01-01 with
    [a.md], whose download is refused, and [b.md], and the date folder
    2024-01-02 with [c.md]; the year folder 2025 holds one date folder with
    [e.md].  The project has no [latest.md] of its own. *)
Definition failing_remote (r : Request) : FetchResult :=
  match target r with
  | Some (JStr url) =>
      if url =? "https://api.github.com/repos/john/chat/contents/transcripts/latest.md"
      then reply_json (file_entry "latest.md" "https://raw.example/latest.md")
      else if url =? "https://raw.example/latest.md"
      then reply_text "## root latest"
      else if url =? "https://api.github.com/repos/john/chat/contents/transcripts/p"
      then reply_json
             (JArr [dir_entry "2024" "https://api.example/p/2024";
                    dir_entry "2025" "https://api.example/p/2025"])
      else if url =? "https://api.example/p/2024"
      then reply_json
             (JArr [dir_entry "2024-01-01" "https://api.example/p/2024/2024-01-01";
                    dir_entry "2024-01-02" "https://api.example/p/2024/2024-01-02"])
      else if url =? "https://api.example/p/2024/2024-01-01"
      then reply_json
             (JArr [file_entry "a.md" "https://raw.example/p/a.md";
                    file_entry "b.md" "https://raw.example/p/b.md"])
      else if url =? "https://raw.example/p/a.md"
      then Rejected (FetchError "socket hang up")
      else if url =? "https://raw.example/p/b.md"
      then reply_text "## b"
      else if url =? "https://api.example/p/2024/2024-01-02"
      then reply_json (JArr [file_entry "c.md" "https://raw.example/p/c.md"])
      else if url =? "https://raw.example/p/c.md"
      then reply_text "## c"
      else if url =? "https://api.example/p/2025"
      then reply_json
             (JArr [dir_entry "2025-09-14" "https://api.example/p/2025/2025-09-14"])
      else if url =? "https://api.example/p/2025/2025-09-14"
      then reply_json (JArr [file_entry "e.md" "https://raw.example/p/e.md"])
      else if url =? "https://raw.example/p/e.md"
      then reply_text "## e"
      else reply_status 404 "Not Found"
  | _ => Rejected (TypeError "Invalid URL")
  end.

Definition failing_host : Host := host (fun _ => failing_remote).




(** A limit with a fraction. *)
Definition one_half : json :=
  JReal {| rendering := "0.5"; integer_part := Finite 0 |}.

(** A record whose stored project cannot be converted to a string. *)
Definition odd_project : json := JObj [("toString", JNum 1)].

End RefHost.

(* ================================================================= *)
(** ** Properties *)

Lemma bind_lift_eq {S A B} (r : result A) (k : A -> M S B) (s : S) :
  bind (lift r) k s
  = match r with
    | Ok a => k a s
    | Throw e => (Throw e, s)
    end.
Proof. unfold bind, lift. destruct r; reflexivity. Qed.

Ltac run_monad :=
  cbv beta iota delta
    [bind ret throw try_catch lift gets modify run_local on_fst fst snd].

(* ----------------------------------------------------------------- *)
(** *** The reference codec reads back the stored record *)

Section ReferenceCodec.

Import RefHost.

Lemma append_assoc (a b c : string) : ((a ++ b) ++ c = a ++ (b ++ c))%string.
Proof. induction a as [|x a IH]; cbn; [reflexivity | now rewrite IH]. Qed.

Lemma parse_chars_plain (c : ascii) (rest : string) :
  (32 <= nat_of_ascii c)%nat -> nat_of_ascii c <> 34%nat -> nat_of_ascii c <> 92%nat ->
  parse_chars (String c rest)
  = match parse_chars rest with
    | Some (t, r) => Some (String c t, r)
    | None => None
    end.
Proof.
  intros H32 H34 H92. cbn [parse_chars].
  apply Nat.eqb_neq in H34, H92. rewrite H34, H92.
  apply Nat.ltb_ge in H32. rewrite H32. reflexivity.
Qed.

Lemma escape_char_plain (c : ascii) :
  (32 <= nat_of_ascii c)%nat -> nat_of_ascii c <> 34%nat -> nat_of_ascii c <> 92%nat ->
  escape_char c = String c "".
Proof.
  intros H32 H34 H92. unfold escape_char.
  apply Nat.eqb_neq in H34, H92. rewrite H34, H92.
  repeat match goal with
         | |- context [(nat_of_ascii c =? ?k)%nat] =>
             destruct (Nat.eqb_spec (nat_of_ascii c) k); [lia|]
         end.
  apply Nat.ltb_ge in H32. now rewrite H32.
Qed.

Lemma parse_chars_escape_char (c : ascii) (tail : string) :
  parse_chars (escape_char c ++ tail)
  = match parse_chars tail with
    | Some (t, r) => Some (String c t, r)
    | None => None
    end.
Proof.
  destruct (Nat.eq_dec (nat_of_ascii c) 34) as [E34|N34].
  { rewrite <- (ascii_nat_embedding c), E34. reflexivity. }
  destruct (Nat.eq_dec (nat_of_ascii c) 92) as [E92|N92].
  { rewrite <- (ascii_nat_embedding c), E92. reflexivity. }
  destruct (le_lt_dec 32 (nat_of_ascii c)) as [H32|H32].
  - rewrite escape_char_plain by assumption. cbn [append].
    now apply parse_chars_plain.
  - rewrite <- (ascii_nat_embedding c).
    remember (nat_of_ascii c) as n eqn:En. clear En N34 N92.
    do 32 (destruct n as [|n]; [reflexivity|]).
    lia.
Qed.

Lemma parse_chars_escape (s rest : string) :
  parse_chars (escape s ++ String "034" rest) = Some (s, rest).
Proof.
  induction s as [|c s IH]; [reflexivity|].
  cbn [escape]. rewrite append_assoc, parse_chars_escape_char, IH. reflexivity.
Qed.

Lemma print_object (kv : string * json) (fields : list (string * json)) :
  stringify (JObj (kv :: fields)) 2
  = String "{" (nl ++ "  " ++ members_text (kv :: fields) ++ nl ++ "}").
Proof. reflexivity. Qed.

Lemma parse_value_scalar (fuel : nat) (v : json) (rest : string) :
  scalar v ->
  parse_value (S fuel) (String " " (print "  " "  " v ++ rest)) = Some (v, rest).
Proof.
  destruct v as [|[]| | |s| |]; cbn [scalar]; intros Hv; try contradiction;
    try reflexivity.
  cbn [print]. unfold quote, dquote. cbn [append]. rewrite append_assoc.
  cbn [append].
  match goal with
  | |- parse_value _ (String _ (String _ ?X)) = _ =>
      change (option_map (fun tr : string * string => (JStr (fst tr), snd tr))
                (parse_chars X) = Some (JStr s, rest))
  end.
  now rewrite parse_chars_escape.
Qed.

Lemma parse_members_key (fuel : nat) (X : string) :
  parse_members (S fuel) (String "010" (String " " (String " " (String "034" X))))
  = match parse_chars X with
    | Some (k, r1) =>
        match skip_ws r1 with
        | String ":" r2 =>
            match parse_value fuel r2 with
            | Some (v, r3) =>
                match skip_ws r3 with
                | String "," r4 =>
                    option_map (fun mr => ((k, v) :: fst mr, snd mr))
                               (parse_members fuel r4)
                | String "}" r4 => Some ([(k, v)], r4)
                | _ => None
                end
            | None => None
            end
        | _ => None
        end
    | None => None
    end.
Proof. reflexivity. Qed.

Lemma parse_member (fuel : nat) (k : string) (v : json) (tail : string) :
  scalar v ->
  parse_members (S (S fuel))
    (nl ++ "  " ++ member_text (k, v) ++ tail)
  = match skip_ws tail with
    | String "," r4 =>
        option_map (fun mr => ((k, v) :: fst mr, snd mr))
                   (parse_members (S fuel) r4)
    | String "}" r4 => Some ([(k, v)], r4)
    | _ => None
    end.
Proof.
  intros Hv. unfold member_text, quote, dquote, nl. cbn [fst snd append].
  rewrite !append_assoc. cbn [append].
  rewrite parse_members_key, parse_chars_escape.
  change (skip_ws (String ":" (String " " (print "  " "  " v ++ tail))))
    with (String ":" (String " " (print "  " "  " v ++ tail))).
  cbv beta iota. now rewrite parse_value_scalar.
Qed.

Lemma parse_members_flat (fields : list (string * json)) :
  forall (kv : string * json) (fuel : nat) (rest : string),
    Forall (fun kv => scalar (snd kv)) (kv :: fields) ->
    (length (kv :: fields) < fuel)%nat ->
    parse_members fuel (nl ++ "  " ++ members_text (kv :: fields) ++ nl ++ "}" ++ rest)
    = Some (kv :: fields, rest).
Proof.
  induction fields as [|kv' more IH]; intros [k v] fuel rest Hflat Hfuel;
    (destruct fuel as [|[|fuel]]; cbn [List.length] in Hfuel; try lia);
    inversion Hflat as [|? ? Hv Hmore]; subst; cbn [snd] in Hv.
  - change (members_text [(k, v)]) with (member_text (k, v)).
    now rewrite parse_member.
  - change (members_text ((k, v) :: kv' :: more))
      with (member_text (k, v) ++ ("," ++ nl ++ "  ") ++ members_text (kv' :: more)).
    rewrite !append_assoc, parse_member by assumption.
    change (skip_ws ("," ++ nl ++ "  " ++ members_text (kv' :: more) ++ nl ++ "}" ++ rest))
      with (String "," (nl ++ "  " ++ members_text (kv' :: more) ++ nl ++ "}" ++ rest)).
    cbv beta iota.
    rewrite IH by (assumption || (cbn [List.length] in *; lia)).
    reflexivity.
Qed.

Lemma string_length_append (a b : string) :
  String.length (a ++ b) = (String.length a + String.length b)%nat.
Proof. induction a as [|c a IH]; cbn; [reflexivity | now rewrite IH]. Qed.

Lemma members_text_length (fields : list (string * json)) :
  (length fields <= String.length (members_text fields))%nat.
Proof.
  induction fields as [|kv [|kv' more] IH]; [apply Nat.le_0_l| |].
  - change (members_text [kv]) with (member_text kv).
    unfold member_text, quote, dquote. cbn [append String.length List.length].
    apply le_n_S, Nat.le_0_l.
  - change (members_text (kv :: kv' :: more))
      with (member_text kv ++ ("," ++ nl ++ "  ") ++ members_text (kv' :: more)).
    rewrite !string_length_append. unfold nl.
    cbn [List.length String.length] in *. lia.
Qed.

Lemma parse_value_object (fuel : nat) (kv : string * json)
      (fields : list (string * json)) (tail : string) :
  parse_value (S fuel) (String "{" (nl ++ "  " ++ members_text (kv :: fields) ++ tail))
  = option_map (fun mr : list (string * json) * string => (JObj (fst mr), snd mr))
      (parse_members fuel (nl ++ "  " ++ members_text (kv :: fields) ++ tail)).
Proof. destruct fields; reflexivity. Qed.

(** The reference codec reads back what it prints for an object whose
    values are strings, booleans or [null]. *)
Lemma parse_stringify_flat (fields : list (string * json)) :
  Forall (fun kv => scalar (snd kv)) fields ->
  parse (stringify (JObj fields) 2) = Ok (JObj fields).
Proof.
  intros Hflat. destruct fields as [|kv fields]; [reflexivity|].
  rewrite print_object. unfold parse.
  set (doc := String "{" (nl ++ "  " ++ members_text (kv :: fields) ++ nl ++ "}")).
  assert (Hfuel : exists fuel, (2 * String.length doc + 2 = S fuel
                                /\ length (kv :: fields) < fuel)%nat).
  { exists (2 * String.length doc + 1)%nat. split; [lia|].
    subst doc. cbn [String.length]. rewrite !string_length_append.
    pose proof (members_text_length (kv :: fields)). lia. }
  destruct Hfuel as (fuel & -> & Hfuel).
  subst doc.
  rewrite parse_value_object.
  change (nl ++ "}") with (nl ++ "}" ++ "").
  now rewrite parse_members_flat.
Qed.

Lemma parse_stringify_config (c : LoggerConfig) :
  parse (stringify (LoggerConfig_js c) 2) = Ok (LoggerConfig_js c).
Proof.
  apply parse_stringify_flat.
  destruct c as [w r sid a [p|] [t|]]; cbn; repeat constructor.
Qed.

(** Equal run-time objects come from equal records. *)
Lemma LoggerConfig_js_inj (c1 c2 : LoggerConfig) :
  LoggerConfig_js c1 = LoggerConfig_js c2 -> c1 = c2.
Proof.
  destruct c1 as [w1 r1 s1 a1 [p1|] [t1|]], c2 as [w2 r2 s2 a2 [p2|] [t2|]];
    cbn; intros Heq; inversion Heq; reflexivity.
Qed.

End ReferenceCodec.

(* ----------------------------------------------------------------- *)
(** *** Configuration store *)

Section ConfigurationStore.

Context `{Host}.

(** What [loadConfig] does, by the state of the file. *)
Lemma loadConfig_cases (s : State) :
  loadConfig s =
  match disk s with
  | None => (Ok JNull, log_event EvReadFile s)
  | Some data =>
      match JSON_parse data with
      | Ok v => (Ok v, set_config v (log_event EvReadFile s))
      | Throw _ => (Ok JNull, log_event EvReadFile s)
      end
  end.
Proof.
  unfold loadConfig, readFile. run_monad.
  destruct (disk s) as [data|]; [|reflexivity].
  destruct (JSON_parse data); reflexivity.
Qed.

Lemma loadConfig_disk (s : State) : disk (snd (loadConfig s)) = disk s.
Proof.
  rewrite loadConfig_cases.
  destruct (disk s) as [data|] eqn:E; [|exact E].
  destruct (JSON_parse data); exact E.
Qed.

Lemma saveConfig_cases (c : json) (s : State) :
  saveConfig c s =
  let s1 := log_event (EvWriteFile (JSON_stringify c 2)) (set_config c s) in
  if disk_writable s
  then (Ok tt, set_disk (Some (JSON_stringify c 2)) s1)
  else (Throw (SystemError "EACCES: permission denied"), s1).
Proof.
  unfold saveConfig, writeFile. run_monad. cbn.
  destruct (disk_writable s); reflexivity.
Qed.

(** C5.  Whatever the state of the configuration file, [loadConfig]
    returns normally; when the file cannot be read or its content does not
    parse, the value returned is [null]. *)
Theorem loadConfig_absent_never_raises (s : State) :
  (exists v s', loadConfig s = (Ok v, s')) /\
  fst (loadConfig s) =
  match disk s with
  | None => Ok JNull
  | Some data =>
      match JSON_parse data with
      | Ok v => Ok v
      | Throw _ => Ok JNull
      end
  end.
Proof.
  rewrite loadConfig_cases. split.
  - destruct (disk s) as [data|]; [destruct (JSON_parse data)|]; eauto.
  - destruct (disk s) as [data|]; [destruct (JSON_parse data)|]; reflexivity.
Qed.

(** C4.  On a writable store, and with a codec that reads back the text it
    prints for the record, [saveConfig c] followed by [loadConfig] returns
    [c]; the file in between holds the printed text of [c]. *)
Theorem save_then_load_roundtrip (c : LoggerConfig) (s : State) :
  disk_writable s = true ->
  JSON_parse (JSON_stringify (LoggerConfig_js c) 2) = Ok (LoggerConfig_js c) ->
  exists s1 s2,
    saveConfig (LoggerConfig_js c) s = (Ok tt, s1) /\
    disk s1 = Some (JSON_stringify (LoggerConfig_js c) 2) /\
    loadConfig s1 = (Ok (LoggerConfig_js c), s2) /\
    config s2 = LoggerConfig_js c.
Proof.
  intros Hw Hcodec.
  rewrite saveConfig_cases, Hw. cbv zeta.
  eexists. eexists. split; [reflexivity|]. split; [reflexivity|].
  rewrite loadConfig_cases. cbn [disk set_disk log_event set_config].
  rewrite Hcodec. split; reflexivity.
Qed.

End ConfigurationStore.

(* ----------------------------------------------------------------- *)
(** *** Log relay *)

Section LogRelay.

Context `{Host}.

(** C6.  With a webhook configured, [sendToN8N] performs exactly one POST
    to it.  When the reply has a status outside 200..299 the call throws an
    [Error] whose message contains the status code in decimal; when the
    status is inside, the call returns what [response.json()] yields,
    unchanged. *)
Theorem sendToN8N_reply (entry : ChatLogEntry) (s : State) :
  truthy (prop_opt (Some (config s)) "webhook_url") = true ->
  exists req,
    method req = "POST" /\
    target req = prop_opt (Some (config s)) "webhook_url" /\
    snd (sendToN8N entry s) = log_event (EvFetch req) s /\
    match network (events s) req with
    | Rejected e => fst (sendToN8N entry s) = Throw e
    | Resolved response =>
        if ok response
        then fst (sendToN8N entry s) = json_body response
        else exists msg,
               fst (sendToN8N entry s) = Throw (Error msg) /\
               occurs_in (string_of_Z (status response)) msg
    end.
Proof.
  intros Hurl.
  unfold sendToN8N, fetch. run_monad. cbn [negb]. rewrite Hurl. cbn [negb].
  assert (Hobj : exists fields, config s = JObj fields).
  { destruct (config s); cbn in Hurl; try discriminate; eauto. }
  destruct Hobj as [fields Hcfg].
  assert (Hproject : prop (Some (config s)) "project" = Ok (lookup "project" fields))
    by (rewrite Hcfg; reflexivity).
  rewrite Hproject.
  destruct (truthy (entry_project entry));
    match goal with
    | |- context [network (events s) ?r] =>
        exists r; split; [reflexivity|]; split; [reflexivity|];
        cbn [method target];
        destruct (network (events s) r) as [e|response]
    end;
    try (split; reflexivity);
    destruct (ok response); cbn [negb];
    (split; [reflexivity|]);
    try reflexivity;
    (eexists; split; [reflexivity|]);
    exists "HTTP ", (": " ++ statusText response); reflexivity.
Qed.

End LogRelay.

(* ----------------------------------------------------------------- *)
(** *** The transcript walk, step by step *)

Section WalkSteps.

Context `{Host}.
Variable hdrs : list (string * string).

Lemma set_events_same (s : State) : set_events (events s) s = s.
Proof. now destruct s. Qed.

(** A request of the walk: the answer of the network and the event. *)
Lemma on_fst_fetch (r : Request) (w : Walk) :
  on_fst (fetch r) w
  = (match network (events (fst w)) r with
     | Rejected e => Throw e
     | Resolved response => Ok response
     end,
     (set_events (Spec.asked r (events (fst w))) (fst w), snd w)).
Proof. unfold on_fst, fetch. destruct (network _ r); reflexivity. Qed.

Lemma bind_fetch {B} (r : Request) (k : Response -> M Walk B) (w : Walk) :
  bind (on_fst (fetch r)) k w
  = match network (events (fst w)) r with
    | Rejected e =>
        (Throw e, (set_events (Spec.asked r (events (fst w))) (fst w), snd w))
    | Resolved response =>
        k response (set_events (Spec.asked r (events (fst w))) (fst w), snd w)
    end.
Proof.
  unfold bind. rewrite on_fst_fetch. destruct (network _ r); reflexivity.
Qed.

(** A step that leaves the walk as it found it. *)
Lemma idle_walk (w : Walk) :
  w = (set_events (events (fst w)) (fst w), (snd w ++ [])%list).
Proof. rewrite set_events_same, app_nil_r. now destruct w. Qed.

Ltac idle :=
  cbn [prop prop_opt call_endsWith bind lift ret throw fst snd
       andb negb orb returned];
  split; [apply idle_walk | reflexivity].

Lemma runs_as_download (url : jsval) :
  runs_as (download url hdrs) (Spec.fetchFileBody hdrs url).
Proof.
  intros w. unfold download, Spec.fetchFileBody. rewrite bind_fetch.
  destruct (network (events (fst w)) (GET url hdrs)) as [e|content];
    cbn [fst snd returned]; [now rewrite app_nil_r|].
  destruct (ok content); cbn [fst snd returned ret]; [|now rewrite app_nil_r].
  rewrite bind_lift_eq.
  destruct (text_body content) as [t|e]; cbn [fst snd returned];
    [split; reflexivity | now rewrite app_nil_r].
Qed.

Lemma runs_as_for_of {A} (body : A -> M Walk unit)
      (step : A -> list Event -> Spec.outcome * list Event) (xs : list A) :
  (forall x, runs_as (body x) (step x)) ->
  runs_as (for_of xs body) (Spec.in_order step xs).
Proof.
  intros Hbody. induction xs as [|x rest IH]; intros w;
    cbn [for_of Spec.in_order].
  - idle.
  - unfold bind. destruct (Hbody x w) as [Hstate Hret].
    destruct (body x w) as [r w1]. cbn [fst snd] in Hstate, Hret.
    destruct (step x (events (fst w))) as [[bodies completed] h1].
    cbn [fst snd] in Hstate, Hret. subst w1.
    destruct r as [[]|e]; cbn [returned] in Hret; subst completed.
    + destruct (IH (set_events h1 (fst w), (snd w ++ bodies)%list))
        as [IHstate IHret].
      cbn [fst snd events set_events] in IHstate, IHret.
      destruct (Spec.in_order step rest h1) as [[more all] h2].
      cbn [fst snd] in *. split; [|exact IHret].
      rewrite IHstate. now rewrite app_assoc.
    + cbn [fst snd]. split; reflexivity.
Qed.

Lemma runs_as_visitFile (file : json) :
  runs_as (visitFile hdrs file) (Spec.file_step hdrs file).
Proof.
  intros w. unfold visitFile, Spec.file_step, has_name, selected.
  rewrite bind_lift_eq.
  destruct file as [| | | | | |fields];
    try (idle).
  cbn [prop prop_opt].
  destruct (lookup "name" fields) as [[| | | |name| |]|];
    try (idle).
  rewrite bind_lift_eq. cbn [call_endsWith].
  destruct (endsWith name ".md"); cbn [andb];
    [|idle].
  rewrite bind_lift_eq.
  destruct (truthy (lookup "download_url" fields));
    [apply runs_as_download | idle].
Qed.

(** A listing, as the three loops of the code take it. *)
Lemma listing_run (what : string) (url : jsval)
      (body : json -> M Walk unit) (w : Walk) :
  let w1 := (set_events (Spec.asked (GET url hdrs) (events (fst w))) (fst w),
             snd w) in
  (response <- on_fst (fetch (GET url hdrs)) ;;
   if ok response then
     contents <- lift (json_body response) ;;
     items <- lift (iterate what contents) ;;
     for_of items body
   else ret tt) w
  = match fst (Spec.listDirectory hdrs url (events (fst w))) with
    | Some items => for_of items body w1
    | None =>
        (match network (events (fst w)) (GET url hdrs) with
         | Rejected e => Throw e
         | Resolved response =>
             match json_body response with
             | Throw e => Throw e
             | Ok contents =>
                 match iterate what contents with
                 | Throw e => Throw e
                 | Ok _ => Ok tt
                 end
             end
         end, w1)
    end.
Proof.
  cbv zeta. rewrite bind_fetch. unfold Spec.listDirectory.
  destruct (network (events (fst w)) (GET url hdrs)) as [e|response];
    cbn [fst]; [reflexivity|].
  destruct (ok response); cbn [fst]; [|reflexivity].
  rewrite bind_lift_eq.
  destruct (json_body response) as [contents|e]; cbn [fst]; [|reflexivity].
  rewrite bind_lift_eq.
  destruct contents; cbn [iterate fst]; reflexivity.
Qed.

Lemma listDirectory_events (url : jsval) (h : list Event) :
  snd (Spec.listDirectory hdrs url h) = Spec.asked (GET url hdrs) h.
Proof.
  unfold Spec.listDirectory.
  destruct (network h (GET url hdrs)) as [e|response]; [reflexivity|].
  destruct (ok response); [|reflexivity].
  destruct (json_body response) as [contents|e]; [|reflexivity].
  destruct (iterate "contents" contents); reflexivity.
Qed.

(** A listing that fails: the loop is not entered and the code throws. *)
Lemma listing_failed (what : string) (url : jsval) (h : list Event) :
  fst (Spec.listDirectory hdrs url h) = None ->
  returned (match network h (GET url hdrs) with
            | Rejected e => Throw e
            | Resolved response =>
                match json_body response with
                | Throw e => Throw e
                | Ok contents =>
                    match iterate what contents with
                    | Throw e => Throw e
                    | Ok _ => Ok tt
                    end
                end
            end) = false.
Proof.
  unfold Spec.listDirectory.
  destruct (network h (GET url hdrs)) as [e|response]; [reflexivity|].
  destruct (ok response); [|discriminate].
  destruct (json_body response) as [contents|e]; [|reflexivity].
  destruct contents; cbn [iterate fst]; intros Hnone;
    try reflexivity; discriminate Hnone.
Qed.

Lemma runs_as_visitDateItem (dateItem : json) :
  runs_as (visitDateItem hdrs dateItem) (Spec.date_step hdrs dateItem).
Proof.
  intros w. unfold visitDateItem, Spec.date_step, listed.
  rewrite bind_lift_eq.
  destruct (is_entry dateItem) eqn:Hentry;
    [|destruct dateItem; try discriminate Hentry;
      idle].
  assert (Hprop : forall k, prop (Some dateItem) k = Ok (prop_opt (Some dateItem) k))
    by (intros k; destruct dateItem; try reflexivity; discriminate Hentry).
  rewrite Hprop.
  destruct (is_dir (prop_opt (Some dateItem) "type"));
    [|idle].
  rewrite bind_lift_eq, Hprop.
  rewrite (listing_run "dateContents" (prop_opt (Some dateItem) "url")
             (visitFile hdrs) w).
  pose proof (listDirectory_events (prop_opt (Some dateItem) "url")
                (events (fst w))) as Hasked.
  pose proof (listing_failed "dateContents" (prop_opt (Some dateItem) "url")
                (events (fst w))) as Hfailed.
  destruct (Spec.listDirectory hdrs (prop_opt (Some dateItem) "url")
              (events (fst w))) as [[files|] h1];
    cbn [fst snd] in *; subst h1.
  - destruct (runs_as_for_of (visitFile hdrs) (Spec.file_step hdrs) files
                runs_as_visitFile
                (set_events (Spec.asked (GET (prop_opt (Some dateItem) "url") hdrs)
                               (events (fst w))) (fst w), snd w))
      as [Hstate Hret].
    cbn [fst snd events set_events] in Hstate, Hret. split; assumption.
  - cbn [fst snd]. rewrite app_nil_r. split; [reflexivity|].
    now apply Hfailed.
Qed.

Lemma runs_as_getTranscriptsFromYearFolder (url : jsval) :
  runs_as (getTranscriptsFromYearFolder url hdrs)
          (completing (Spec.year_bodies hdrs url)).
Proof.
  intros w. unfold getTranscriptsFromYearFolder, completing, Spec.year_bodies.
  assert (Hbody :
    (yearResponse <- on_fst (fetch (GET url hdrs)) ;;
     if negb (ok yearResponse) then ret tt else
     yearContents <- lift (json_body yearResponse) ;;
     dateItems <- lift (iterate "yearContents" yearContents) ;;
     for_of dateItems (visitDateItem hdrs)) w
    = (response <- on_fst (fetch (GET url hdrs)) ;;
       if ok response then
         contents <- lift (json_body response) ;;
         items <- lift (iterate "yearContents" contents) ;;
         for_of items (visitDateItem hdrs)
       else ret tt) w).
  { rewrite !bind_fetch.
    destruct (network (events (fst w)) (GET url hdrs)) as [e|response];
      [reflexivity|].
    now destruct (ok response). }
  unfold try_catch. rewrite Hbody.
  rewrite (listing_run "yearContents" url (visitDateItem hdrs) w).
  pose proof (listDirectory_events url (events (fst w))) as Hasked.
  destruct (Spec.listDirectory hdrs url (events (fst w))) as [[dates|] h1];
    cbn [fst snd] in *; subst h1.
  - destruct (runs_as_for_of (visitDateItem hdrs) (Spec.date_step hdrs) dates
                runs_as_visitDateItem
                (set_events (Spec.asked (GET url hdrs) (events (fst w))) (fst w),
                 snd w))
      as [Hstate Hret].
    cbn [fst snd events set_events] in Hstate, Hret.
    destruct (for_of dates (visitDateItem hdrs) _) as [[[]|e] w1];
      cbn [fst snd ret returned] in *;
      destruct (Spec.in_order (Spec.date_step hdrs) dates _) as [[bodies all] h2];
      cbn [fst snd] in *; split; (exact Hstate || reflexivity).
  - match goal with
    | |- context [match ?r with Ok _ => _ | Throw _ => _ end] => destruct r as [[]|e]
    end; cbn [fst snd ret returned]; rewrite app_nil_r; split; reflexivity.
Qed.

Lemma inspectable_prop (item : json) (k : string) :
  is_entry item = true -> prop (Some item) k = Ok (prop_opt (Some item) k).
Proof. destruct item; intros Hitem; try reflexivity; discriminate Hitem. Qed.

Lemma runs_as_visitProjectItem (item : json) :
  runs_as (visitProjectItem hdrs item) (Spec.project_step hdrs item).
Proof.
  intros w. unfold visitProjectItem, Spec.project_step, inspectable, descends,
              renders.
  rewrite bind_lift_eq.
  destruct (is_entry item) eqn:Hentry; cbn [andb];
    [|destruct item; try discriminate Hentry;
      idle].
  rewrite (inspectable_prop item "type" Hentry).
  destruct (is_dir (prop_opt (Some item) "type")); cbn [negb orb andb];
    [|idle].
  rewrite bind_lift_eq, (inspectable_prop item "name" Hentry), bind_lift_eq.
  destruct (ToString (prop_opt (Some item) "name")) as [name|e];
    cbn [returned];
    [|idle].
  destruct (is_year name);
    [|idle].
  rewrite bind_lift_eq, (inspectable_prop item "url" Hentry).
  destruct (runs_as_getTranscriptsFromYearFolder (prop_opt (Some item) "url") w)
    as [Hstate Hret].
  unfold completing in Hstate, Hret. cbn [fst snd] in Hstate, Hret.
  destruct (Spec.year_bodies hdrs (prop_opt (Some item) "url") (events (fst w)))
    as [bodies h1].
  cbn [fst snd] in *. split; assumption.
Qed.

Lemma runs_as_browseProjectFolder (url : string) :
  runs_as (browseProjectFolder url hdrs) (completing (Spec.archived hdrs url)).
Proof.
  intros w. unfold browseProjectFolder, completing, Spec.archived.
  unfold try_catch.
  rewrite (listing_run "folderContents" (Some (JStr url))
             (visitProjectItem hdrs) w).
  pose proof (listDirectory_events (Some (JStr url)) (events (fst w))) as Hasked.
  destruct (Spec.listDirectory hdrs (Some (JStr url)) (events (fst w)))
    as [[items|] h1];
    cbn [fst snd] in *; subst h1.
  - destruct (runs_as_for_of (visitProjectItem hdrs) (Spec.project_step hdrs) items
                runs_as_visitProjectItem
                (set_events (Spec.asked (GET (Some (JStr url)) hdrs)
                               (events (fst w))) (fst w), snd w))
      as [Hstate Hret].
    cbn [fst snd events set_events] in Hstate, Hret.
    destruct (for_of items (visitProjectItem hdrs) _) as [[[]|e] w1];
      cbn [fst snd ret returned] in *;
      destruct (Spec.in_order (Spec.project_step hdrs) items _)
        as [[bodies all] h2];
      cbn [fst snd] in *; split; (exact Hstate || reflexivity).
  - match goal with
    | |- context [match ?r with Ok _ => _ | Throw _ => _ end] => destruct r as [[]|e]
    end; cbn [fst snd ret returned]; rewrite app_nil_r; split; reflexivity.
Qed.

Lemma runs_as_fetchLatest (url : string) :
  runs_as (fetchLatest url hdrs) (completing (Spec.latest hdrs url)).
Proof.
  intros w. unfold fetchLatest, completing, Spec.latest, try_catch.
  rewrite bind_fetch.
  destruct (network (events (fst w)) (GET (Some (JStr url)) hdrs))
    as [e|response];
    cbn [fst snd ret returned]; [now rewrite app_nil_r|].
  destruct (ok response); cbn [fst snd ret returned]; [|now rewrite app_nil_r].
  rewrite bind_lift_eq.
  destruct (json_body response) as [data|e]; cbn [fst snd ret returned];
    [|now rewrite app_nil_r].
  rewrite bind_lift_eq.
  destruct (is_entry data) eqn:Hentry.
  - rewrite (inspectable_prop data "download_url" Hentry).
    destruct (truthy (prop_opt (Some data) "download_url"));
      cbn [fst snd ret returned]; [|now rewrite app_nil_r].
    destruct (runs_as_download (prop_opt (Some data) "download_url")
                (set_events (Spec.asked (GET (Some (JStr url)) hdrs)
                               (events (fst w))) (fst w), snd w))
      as [Hstate Hret].
    cbn [fst snd events set_events] in Hstate, Hret.
    destruct (download _ hdrs _) as [[[]|e] w1]; cbn [fst snd ret returned] in *;
      destruct (Spec.fetchFileBody hdrs _ _) as [[bodies all] h2];
      cbn [fst snd] in *; split; (exact Hstate || reflexivity).
  - destruct data; try discriminate Hentry.
    cbn [prop prop_opt truthy fst snd ret returned]. now rewrite app_nil_r.
Qed.

End WalkSteps.

(* ----------------------------------------------------------------- *)
(** *** The transcript walk as a whole *)

Section Retrieval.

Context `{Host}.

Lemma bind_ok {S A B} (m : M S A) (k : A -> M S B) (s s' : S) (a : A) :
  m s = (Ok a, s') -> bind m k s = k a s'.
Proof. unfold bind. now intros ->. Qed.

Lemma bind_throw {S A B} (m : M S A) (k : A -> M S B) (s s' : S) (e : exn) :
  m s = (Throw e, s') -> bind m k s = (Throw e, s').
Proof. unfold bind. now intros ->. Qed.

Lemma bind_bind {S A B C} (m : M S A) (k1 : A -> M S B) (k2 : B -> M S C)
      (s : S) :
  bind (bind m k1) k2 s = bind m (fun a => bind (k1 a) k2) s.
Proof. unfold bind. now destruct (m s) as [[a|e] s']. Qed.

Lemma bind_lift_ok {S A B} (a : A) (k : A -> M S B) (s : S) :
  bind (lift (Ok a)) k s = k a s.
Proof. reflexivity. Qed.

(** A block that always completes, run. *)
Lemma block_run (m : M Walk unit) (f : list Event -> list string * list Event)
      (w : Walk) :
  runs_as m (completing f) ->
  m w = (Ok tt, (set_events (snd (f (events (fst w)))) (fst w),
                 (snd w ++ fst (f (events (fst w))))%list)).
Proof.
  intros Hm. destruct (Hm w) as [Hstate Hret]. unfold completing in *.
  cbn [fst snd] in *. destruct (m w) as [[[]|e] w1]; cbn in *;
    [now subst w1 | discriminate Hret].
Qed.

Lemma bind_block {B} (m : M Walk unit)
      (f : list Event -> list string * list Event)
      (k : unit -> M Walk B) (w : Walk) :
  runs_as m (completing f) ->
  bind m k w
  = k tt (set_events (snd (f (events (fst w)))) (fst w),
          (snd w ++ fst (f (events (fst w))))%list).
Proof. intros Hm. unfold bind. now rewrite (block_run m f w Hm). Qed.

(** The headers [getGitHubHeaders] returns; it reads the state and leaves
    it. *)
Lemma getGitHubHeaders_eq (s : State) :
  getGitHubHeaders s
  = (let token := prop_opt (Some (config s)) "github_token" in
     if truthy token
     then t <~ ToString token ;;
          Ok [("Accept", "application/vnd.github+json");
              ("User-Agent", "Claude-GitHub-Logger/1.0");
              ("Authorization", "token " ++ t)]
     else Ok [("Accept", "application/vnd.github+json");
              ("User-Agent", "Claude-GitHub-Logger/1.0")],
     s).
Proof.
  unfold getGitHubHeaders. rewrite (bind_ok (gets config) _ s s (config s) eq_refl).
  cbv zeta.
  destruct (truthy (prop_opt (Some (config s)) "github_token"));
    [|reflexivity].
  rewrite bind_lift_eq.
  now destruct (ToString (prop_opt (Some (config s)) "github_token")).
Qed.

Lemma getGitHubHeaders_run (s : State) :
  getGitHubHeaders s = (fst (getGitHubHeaders s), s).
Proof. now rewrite getGitHubHeaders_eq. Qed.

Lemma retrieveTranscripts_unconfigured (project : jsval) (s : State) :
  truthy (prop_opt (Some (config s)) "github_repo") = false ->
  retrieveTranscripts project s
  = (Throw (Error "GitHub repo not configured"), s).
Proof.
  intros Hrepo. unfold retrieveTranscripts.
  rewrite (bind_ok (gets config) _ s s (config s) eq_refl), Hrepo. reflexivity.
Qed.

Lemma retrieveTranscripts_no_headers (project : jsval) (s : State) (e : exn) :
  truthy (prop_opt (Some (config s)) "github_repo") = true ->
  fst (getGitHubHeaders s) = Throw e ->
  retrieveTranscripts project s = (Throw e, s).
Proof.
  intros Hrepo Hhdrs. unfold retrieveTranscripts.
  rewrite (bind_ok (gets config) _ s s (config s) eq_refl), Hrepo. cbn [negb].
  apply bind_throw. now rewrite getGitHubHeaders_run, Hhdrs.
Qed.

(** [retrieveTranscripts] past its guard and with its headers: the walk
    of the specification, unless an address cannot be built, in which case
    the outer handler returns the empty array. *)
Lemma retrieveTranscripts_run (project : jsval) (s : State)
      (hdrs : list (string * string)) :
  truthy (prop_opt (Some (config s)) "github_repo") = true ->
  fst (getGitHubHeaders s) = Ok hdrs ->
  retrieveTranscripts project s
  = match ToString (prop_opt (Some (config s)) "github_repo") with
    | Throw _ => (Ok [], s)
    | Ok repo =>
        match given_project project with
        | Ok given =>
            (Ok (fst (Spec.retrieve hdrs repo given (events s))),
             set_events (snd (Spec.retrieve hdrs repo given (events s))) s)
        | Throw _ =>
            (Ok [],
             set_events
               (snd (Spec.latest hdrs (contents_url repo "transcripts/latest.md")
                       (events s))) s)
        end
    end.
Proof.
  intros Hrepo Hhdrs. unfold retrieveTranscripts.
  rewrite (bind_ok (gets config) _ s s (config s) eq_refl), Hrepo. cbn [negb].
  rewrite (bind_ok _ _ s s hdrs)
    by (now rewrite getGitHubHeaders_run, Hhdrs).
  unfold run_local, try_catch. rewrite bind_lift_eq.
  destruct (ToString (prop_opt (Some (config s)) "github_repo")) as [repo|e];
    [|reflexivity].
  rewrite (bind_block _ _ _ _ (runs_as_fetchLatest hdrs _)).
  cbn [fst snd app]. unfold Spec.retrieve, given_project.
  destruct (Spec.latest hdrs (contents_url repo "transcripts/latest.md") (events s))
    as [root h1].
  cbn [fst snd].
  destruct (truthy project); [|reflexivity].
  rewrite bind_bind, bind_lift_ok, bind_bind, bind_lift_eq.
  destruct (ToString project) as [p|e]; cbn [and_then]; [|reflexivity].
  rewrite bind_bind, (bind_block _ _ _ _ (runs_as_fetchLatest hdrs _)).
  cbn [fst snd events set_events].
  destruct (Spec.latest hdrs (contents_url repo ("transcripts/" ++ p ++ "/latest.md")) h1)
    as [project_latest h2].
  cbn [fst snd].
  rewrite bind_bind, bind_lift_ok, bind_bind, bind_lift_ok.
  rewrite (bind_block _ _ _ _ (runs_as_browseProjectFolder hdrs _)).
  cbn [fst snd events set_events].
  destruct (Spec.archived hdrs (contents_url repo ("transcripts/" ++ p)) h2)
    as [archive h3].
  cbn [fst snd gets]. now rewrite <- app_assoc.
Qed.

End Retrieval.

(* ----------------------------------------------------------------- *)
(** *** The transcript walk: failures *)

Section Failures.

Context `{Host}.

(** C2 (as amended).  Every step of the walk does what its specification
    says, under every behaviour of the network: it collects the bodies the
    step yields after the ones collected before, asks what the step asks,
    and throws exactly when the step fails.  A reply with a status outside
    200..299 and a missing download URL are steps that complete with
    nothing; a request that is refused, a body that cannot be read, a
    listing that is not iterable and an entry that cannot be inspected are
    steps that fail.  A loop takes its entries in order and ends at the
    first that fails.  The three blocks wrapped in a handler (a [latest.md]
    file, a year folder, the project folder) always complete: a failure
    inside one ends that block and nothing else, so that the entry after a
    year folder is visited whatever happened in the year folder.  The call
    as a whole, once its headers and addresses are built, returns what the
    three blocks collected, one after the other. *)
Theorem walk_tolerates_failures (hdrs : list (string * string)) :
  (forall url, runs_as (download url hdrs) (Spec.fetchFileBody hdrs url))
  /\ (forall file, runs_as (visitFile hdrs file) (Spec.file_step hdrs file))
  /\ (forall dateItem,
        runs_as (visitDateItem hdrs dateItem) (Spec.date_step hdrs dateItem))
  /\ (forall item,
        runs_as (visitProjectItem hdrs item) (Spec.project_step hdrs item))
  /\ (forall (body : json -> M Walk unit) step items,
        (forall x, runs_as (body x) (step x)) ->
        runs_as (for_of items body) (Spec.in_order step items))
  /\ (forall url,
        runs_as (fetchLatest url hdrs) (completing (Spec.latest hdrs url)))
  /\ (forall url,
        runs_as (getTranscriptsFromYearFolder url hdrs)
                (completing (Spec.year_bodies hdrs url)))
  /\ (forall url,
        runs_as (browseProjectFolder url hdrs)
                (completing (Spec.archived hdrs url)))
  /\ (forall item rest w,
        inspectable item = true ->
        for_of (item :: rest) (visitProjectItem hdrs) w
        = for_of rest (visitProjectItem hdrs)
            (snd (visitProjectItem hdrs item w)))
  /\ (forall project s repo given,
        truthy (prop_opt (Some (config s)) "github_repo") = true ->
        fst (getGitHubHeaders s) = Ok hdrs ->
        ToString (prop_opt (Some (config s)) "github_repo") = Ok repo ->
        given_project project = Ok given ->
        retrieveTranscripts project s
        = (Ok (fst (Spec.retrieve hdrs repo given (events s))),
           set_events (snd (Spec.retrieve hdrs repo given (events s))) s)).
Proof.
  split; [exact (runs_as_download hdrs)|].
  split; [exact (runs_as_visitFile hdrs)|].
  split; [exact (runs_as_visitDateItem hdrs)|].
  split; [exact (runs_as_visitProjectItem hdrs)|].
  split; [intros body step items Hbody; now apply runs_as_for_of|].
  split; [exact (runs_as_fetchLatest hdrs)|].
  split; [exact (runs_as_getTranscriptsFromYearFolder hdrs)|].
  split; [exact (runs_as_browseProjectFolder hdrs)|].
  split.
  - intros item rest w Hitem. cbn [for_of]. unfold bind.
    destruct (runs_as_visitProjectItem hdrs item w) as [_ Hret].
    unfold Spec.project_step in Hret. rewrite Hitem in Hret.
    destruct (visitProjectItem hdrs item w) as [[[]|e] w1]; cbn [fst snd] in *;
      [reflexivity|].
    destruct (descends item); [|discriminate Hret].
    destruct (Spec.year_bodies _ _ _); discriminate Hret.
  - intros project s repo given Hrepo Hhdrs Htext Hgiven.
    now rewrite (retrieveTranscripts_run project s hdrs Hrepo Hhdrs), Htext, Hgiven.
Qed.

End Failures.

(* ----------------------------------------------------------------- *)
(** *** The transcript walk: which entries are followed *)

Section Selection.

Context `{Host}.
Variable hdrs : list (string * string).








End Selection.

(* ----------------------------------------------------------------- *)
(** *** The transcript walk: the order of the result *)

Section DiscoveryOrder.

Context `{Host}.

(** C1.  [retrieveTranscripts] returns the sequence of the walk laid out
    step by step, under every behaviour of the network: with a repository
    configured, headers built and a repository and a project that convert
    to strings, it returns what the root [latest.md] gave, then what the
    project's [latest.md] gave, then the archive, year folders, date
    folders and files each in the order of their listing, and it makes its
    requests in that order.  It returns no other sequence, except the empty
    one when an address could not be built because the repository or the
    project does not convert to a string. *)
Theorem retrieve_in_discovery_order (project : jsval) (s : State) :
  (forall hdrs repo given,
      truthy (prop_opt (Some (config s)) "github_repo") = true ->
      fst (getGitHubHeaders s) = Ok hdrs ->
      ToString (prop_opt (Some (config s)) "github_repo") = Ok repo ->
      given_project project = Ok given ->
      let root := Spec.latest hdrs (contents_url repo "transcripts/latest.md")
                    (events s) in
      match given with
      | None =>
          retrieveTranscripts project s
          = (Ok (fst root), set_events (snd root) s)
      | Some p =>
          let project_latest :=
            Spec.latest hdrs
              (contents_url repo ("transcripts/" ++ p ++ "/latest.md"))
              (snd root) in
          let archive :=
            Spec.archived hdrs (contents_url repo ("transcripts/" ++ p))
              (snd project_latest) in
          retrieveTranscripts project s
          = (Ok (fst root ++ fst project_latest ++ fst archive)%list,
             set_events (snd archive) s)
      end)
  /\ (forall bodies,
        fst (retrieveTranscripts project s) = Ok bodies ->
        exists hdrs,
          fst (getGitHubHeaders s) = Ok hdrs
          /\ match ToString (prop_opt (Some (config s)) "github_repo"),
                   given_project project with
             | Ok repo, Ok given =>
                 bodies = fst (Spec.retrieve hdrs repo given (events s))
                 /\ events (snd (retrieveTranscripts project s))
                    = snd (Spec.retrieve hdrs repo given (events s))
             | _, _ => bodies = []
             end).
Proof.
  split.
  - intros hdrs repo given Hrepo Hhdrs Htext Hgiven. cbv zeta.
    rewrite (retrieveTranscripts_run project s hdrs Hrepo Hhdrs), Htext, Hgiven.
    unfold Spec.retrieve.
    destruct (Spec.latest hdrs (contents_url repo "transcripts/latest.md") (events s))
      as [root h1].
    destruct given as [p|]; [|reflexivity]. cbn [fst snd].
    destruct (Spec.latest hdrs (contents_url repo ("transcripts/" ++ p ++ "/latest.md")) h1)
      as [project_latest h2].
    cbn [fst snd].
    now destruct (Spec.archived hdrs (contents_url repo ("transcripts/" ++ p)) h2).
  - intros bodies Hbodies.
    destruct (truthy (prop_opt (Some (config s)) "github_repo")) eqn:Hrepo;
      [|rewrite (retrieveTranscripts_unconfigured project s Hrepo) in Hbodies;
        discriminate Hbodies].
    destruct (fst (getGitHubHeaders s)) as [hdrs|e] eqn:Hhdrs;
      [|rewrite (retrieveTranscripts_no_headers project s e Hrepo Hhdrs) in Hbodies;
        discriminate Hbodies].
    exists hdrs. split; [reflexivity|].
    rewrite (retrieveTranscripts_run project s hdrs Hrepo Hhdrs) in Hbodies |- *.
    destruct (ToString (prop_opt (Some (config s)) "github_repo")) as [repo|e];
      [|now injection Hbodies as <-].
    destruct (given_project project) as [given|e];
      cbn [fst snd events set_events] in *; injection Hbodies as <-; auto.
Qed.

End DiscoveryOrder.

(* ----------------------------------------------------------------- *)
(** *** The tool-call handler *)

Section Facade.

Context `{Host}.

Lemma loadConfig_returns (s : State) : exists v, loadConfig s = (Ok v, snd (loadConfig s)).
Proof.
  rewrite loadConfig_cases.
  destruct (disk s) as [data|]; [destruct (JSON_parse data)|]; eauto.
Qed.

Lemma loadConfig_events (s : State) :
  events (snd (loadConfig s)) = (events s ++ [EvReadFile])%list.
Proof.
  rewrite loadConfig_cases.
  destruct (disk s) as [data|]; [destruct (JSON_parse data)|]; reflexivity.
Qed.

Lemma loadConfig_unloadable (s : State) :
  unloadable s -> loadConfig s = (Ok JNull, log_event EvReadFile s).
Proof.
  unfold unloadable. intros Hs. rewrite loadConfig_cases.
  destruct (disk s) as [data|]; [|reflexivity].
  destruct (JSON_parse data); [discriminate Hs | reflexivity].
Qed.

Lemma bind_loadConfig {B} (k : json -> M State B) (s : State) :
  bind loadConfig k s
  = match fst (loadConfig s) with
    | Ok v => k v (snd (loadConfig s))
    | Throw e => (Throw e, snd (loadConfig s))
    end.
Proof. unfold bind. now destruct (loadConfig s) as [[v|e] s1]. Qed.

Lemma callTool_answer name args (s : State) :
  callTool name args s
  = (answer (fst (dispatch name args s)), snd (dispatch name args s)).
Proof.
  unfold callTool. now destruct (dispatch name args s) as [[t|e] s1].
Qed.

Lemma callTool_result name args (s : State) :
  fst (callTool name args s) = answer (fst (dispatch name args s)).
Proof. now rewrite callTool_answer. Qed.

Lemma callTool_state name args (s : State) :
  snd (callTool name args s) = snd (dispatch name args s).
Proof. now rewrite callTool_answer. Qed.

Lemma prop_of_truthy (v : json) (k : string) :
  truthy (Some v) = true -> prop (Some v) k = Ok (prop_opt (Some v) k).
Proof. destruct v; cbn; intros Hv; try reflexivity. discriminate Hv. Qed.

Lemma configured_truthy (c : json) (k : string) :
  truthy (prop_opt (Some c) k) = true -> truthy (Some c) = true.
Proof. destruct c; cbn; intros Hc; try discriminate Hc; reflexivity. Qed.

Lemma prop_opt_fields (v : json) (k : string) :
  prop_opt (Some v) k = lookup k (fields_of v).
Proof. now destruct v. Qed.

(** [retrieve_chat_history], by the configuration in memory after the
    load, the outcome of the walk and the conversion of the limit. *)
Lemma retrieve_chat_history_cases (args : option (list (string * json)))
      (s : State) :
  retrieve_chat_history args s
  = if truthy (Some (config (snd (loadConfig s))))
    then match retrieveTranscripts (arg args "project") (snd (loadConfig s)) with
         | (Ok transcripts, s2) =>
             (slice_end <~ ToIntegerOrInfinity
                             (js_or (arg args "limit") (Some (JNum 10))) ;;
              Ok (history_text transcripts slice_end), s2)
         | (Throw e, s2) => (Throw e, s2)
         end
    else (Throw (Error "GitHub logging not configured. Run setup_github_logging first."),
          snd (loadConfig s)).
Proof.
  unfold retrieve_chat_history. rewrite bind_loadConfig.
  destruct (loadConfig_returns s) as [v Hload].
  set (s1 := snd (loadConfig s)) in *. rewrite Hload. cbn [fst].
  rewrite (bind_ok (gets config) _ s1 s1 (config s1) eq_refl).
  destruct (truthy (Some (config s1))); cbn [negb]; [|reflexivity].
  unfold bind at 1.
  destruct (retrieveTranscripts (arg args "project") s1) as [[ts|e] s2];
    [|reflexivity].
  rewrite bind_lift_eq.
  destruct (ToIntegerOrInfinity _) as [slice_end|e]; cbn [and_then];
    [|reflexivity].
  unfold history_text.
  now destruct (slice0 ts slice_end).
Qed.

(** C10.  When the [limit] argument is absent or falsy (0 in particular),
    [retrieve_chat_history] shows the first ten transcripts, or all of them
    when there are fewer; it reports that none were found only when the
    walk collected none. *)
Theorem falsy_limit_defaults_to_ten
        (args : option (list (string * json))) (s s2 : State) (ts : list string) :
  truthy (arg args "limit") = false ->
  truthy (Some (config (snd (loadConfig s)))) = true ->
  retrieveTranscripts (arg args "project") (snd (loadConfig s)) = (Ok ts, s2) ->
  retrieve_chat_history args s
  = (Ok (match ts with
         | [] => "No chat transcripts found in the repository."
         | _ :: _ =>
             "Found " ++ string_of_nat (length ts) ++ " transcripts (showing "
             ++ string_of_nat (Nat.min 10 (length ts)) ++ "):" ++ nl ++ nl
             ++ join nl (transcript_blocks 0 (firstn 10 ts))
         end), s2).
Proof.
  intros Hlimit Hcfg Hwalk.
  rewrite retrieve_chat_history_cases, Hcfg, Hwalk.
  unfold js_or. rewrite Hlimit. cbn [ToIntegerOrInfinity and_then].
  unfold history_text.
  change (slice0 ts (Finite 10)) with (firstn 10 ts).
  destruct ts as [|t rest]; [reflexivity|].
  rewrite <- (length_firstn 10 (t :: rest)). reflexivity.
Qed.

(** The three tools that test for an arguments object. *)
Lemma no_arguments_rejected (s : State) :
  callTool "setup_github_logging" None s
  = ({| text := "Error: No arguments provided"; isError := true |}, s)
  /\ callTool "log_conversation" None s
     = ({| text := "Error: No arguments provided"; isError := true |}, s)
  /\ callTool "update_session_context" None s
     = ({| text := "Error: No arguments provided"; isError := true |}, s).
Proof. repeat split. Qed.

Lemma sendToN8N_unconfigured (entry : ChatLogEntry) (s : State) :
  truthy (prop_opt (Some (config s)) "webhook_url") = false ->
  sendToN8N entry s = (Throw (Error "Webhook URL not configured"), s).
Proof.
  intros Hurl. unfold sendToN8N. unfold bind at 1, gets at 1.
  rewrite Hurl. reflexivity.
Qed.

(** [sendToN8N] with a webhook configured: one request, and what becomes
    of its answer. *)
Lemma sendToN8N_run (entry : ChatLogEntry) (s : State) :
  truthy (prop_opt (Some (config s)) "webhook_url") = true ->
  sendToN8N entry s
  = (relay_result (network (events s) (relay_request entry (config s))),
     log_event (EvFetch (relay_request entry (config s))) s).
Proof.
  intros Hurl. unfold sendToN8N.
  rewrite (bind_ok (gets config) _ s s (config s) eq_refl).
  rewrite Hurl. cbn [negb].
  assert (Hfield :
    (if truthy (entry_project entry) then ret (entry_project entry)
     else p <- lift (prop (Some (config s)) "project") ;;
          ret (js_or p (Some (JStr "")))) s
    = (Ok (if truthy (entry_project entry) then entry_project entry
           else js_or (prop_opt (Some (config s)) "project") (Some (JStr ""))), s)).
  { destruct (truthy (entry_project entry)); [reflexivity|].
    now rewrite bind_lift_eq, (prop_of_truthy _ _ (configured_truthy _ _ Hurl)). }
  rewrite (bind_ok _ _ s s _ Hfield).
  unfold bind at 1, fetch at 1. fold (relay_payload entry (config s)).
  fold (relay_request entry (config s)).
  destruct (network (events s) (relay_request entry (config s))) as [e|response];
    cbn [relay_result]; [reflexivity|].
  destruct (ok response); reflexivity.
Qed.

(** [log_conversation] with arguments and a configuration in memory after
    the load: the entry is sent and the reply turned into text. *)
Lemma log_conversation_run (fields : list (string * json)) (s : State) :
  truthy (Some (config (snd (loadConfig s)))) = true ->
  log_conversation (Some fields) s
  = match sendToN8N (log_entry fields (snd (loadConfig s))) (snd (loadConfig s)) with
    | (Ok reply, s2) =>
        (log_reply_text (log_entry fields (snd (loadConfig s))) reply, s2)
    | (Throw e, s2) => (Throw e, s2)
    end.
Proof.
  intros Hcfg. unfold log_conversation. rewrite bind_loadConfig.
  destruct (loadConfig_returns s) as [v Hload].
  set (s1 := snd (loadConfig s)) in *. rewrite Hload. cbn [fst].
  rewrite (bind_ok (gets config) _ s1 s1 (config s1) eq_refl).
  rewrite Hcfg. cbn [negb].
  rewrite (bind_ok (gets ticks) _ s1 s1 (ticks s1) eq_refl).
  rewrite bind_lift_eq, (prop_of_truthy _ _ Hcfg).
  rewrite bind_lift_eq, (prop_of_truthy _ _ Hcfg).
  change (arg (Some fields)) with (fun k => lookup k fields). cbv beta.
  fold (log_entry fields s1). unfold bind at 1.
  destruct (sendToN8N (log_entry fields s1) s1) as [[reply|e] s2]; [|reflexivity].
  unfold log_reply_text.
  repeat (rewrite bind_lift_eq;
          match goal with
          | |- context [and_then ?r _] =>
              destruct r; cbn [and_then]; [|reflexivity]
          end).
  reflexivity.
Qed.

Lemma log_conversation_unconfigured (fields : list (string * json)) (s : State) :
  truthy (Some (config (snd (loadConfig s)))) = false ->
  log_conversation (Some fields) s
  = (Throw (Error "GitHub logging not configured. Run setup_github_logging first."),
     snd (loadConfig s)).
Proof.
  intros Hcfg. unfold log_conversation. rewrite bind_loadConfig.
  destruct (loadConfig_returns s) as [v Hload].
  set (s1 := snd (loadConfig s)) in *. rewrite Hload. cbn [fst].
  rewrite (bind_ok (gets config) _ s1 s1 (config s1) eq_refl).
  now rewrite Hcfg.
Qed.

(** With a webhook address in memory after the load, [log_conversation]
    posts the entry built from its arguments and makes its answer from the
    reply. *)
Lemma log_conversation_posts (fields : list (string * json)) (s : State) :
  truthy (prop_opt (Some (config (snd (loadConfig s)))) "webhook_url") = true ->
  dispatch "log_conversation" (Some fields) s
  = (match relay_result
             (network (events (snd (loadConfig s)))
                (relay_request (log_entry fields (snd (loadConfig s)))
                   (config (snd (loadConfig s))))) with
     | Ok reply => log_reply_text (log_entry fields (snd (loadConfig s))) reply
     | Throw e => Throw e
     end,
     log_event (EvFetch (relay_request (log_entry fields (snd (loadConfig s)))
                           (config (snd (loadConfig s)))))
               (snd (loadConfig s))).
Proof.
  intros Hurl. unfold dispatch. cbn [String.eqb Ascii.eqb Bool.eqb].
  rewrite (log_conversation_run fields s (configured_truthy _ _ Hurl)).
  rewrite (sendToN8N_run _ _ Hurl).
  destruct (relay_result _); reflexivity.
Qed.

Lemma log_conversation_posts_events (fields : list (string * json)) (s : State) :
  truthy (prop_opt (Some (config (snd (loadConfig s)))) "webhook_url") = true ->
  events (snd (callTool "log_conversation" (Some fields) s))
  = (events s
     ++ [EvReadFile;
         EvFetch (relay_request (log_entry fields (snd (loadConfig s)))
                    (config (snd (loadConfig s))))])%list.
Proof.
  intros Hurl. rewrite callTool_state, (log_conversation_posts fields s Hurl).
  cbn [snd events log_event]. now rewrite loadConfig_events, <- app_assoc.
Qed.

(** [setup_github_logging] with arguments: the identifier is drawn, the
    record built and saved, and the confirmation made. *)
Lemma setup_run (fields : list (string * json)) (s : State) :
  let sid := session_identifier (ticks s) in
  let record := setup_record fields sid in
  let s1 := log_event (EvWriteFile (JSON_stringify record 2))
              (set_config record (tick s)) in
  dispatch "setup_github_logging" (Some fields) s
  = if disk_writable s
    then (setup_text fields sid, set_disk (Some (JSON_stringify record 2)) s1)
    else (Throw (SystemError "EACCES: permission denied"), s1).
Proof.
  cbv zeta. unfold dispatch. cbn [String.eqb Ascii.eqb Bool.eqb].
  unfold setup_github_logging, generateSessionId.
  rewrite bind_bind, (bind_ok (gets ticks) _ s s (ticks s) eq_refl).
  rewrite bind_bind. unfold bind at 1, modify at 1.
  rewrite (bind_ok (ret _) _ (tick s) (tick s) _ eq_refl).
  cbn [arg]. fold (session_identifier (ticks s)).
  fold (setup_record fields (session_identifier (ticks s))).
  unfold bind at 1. rewrite saveConfig_cases. cbv zeta.
  cbn [disk_writable tick].
  destruct (disk_writable s); [|reflexivity].
  unfold setup_text.
  repeat (rewrite bind_lift_eq;
          match goal with
          | |- context [and_then ?r _] =>
              destruct r; cbn [and_then]; [|reflexivity]
          end).
  reflexivity.
Qed.

(** C3 (as amended).  The handler tests only that an arguments object is
    present: without one, [setup_github_logging], [log_conversation] and
    [update_session_context] answer with the error "No arguments provided"
    and leave the state as it was (no request, no file access).  With an
    arguments object, [setup_github_logging] checks no field: it builds the
    record from whatever was passed, in which [webhook_url] is what the
    arguments hold, possibly nothing, and writes it; it reports success
    exactly when the file could be written and the three values it echoes
    convert to text, the absent ones among them as "undefined" or "None".
    A stored record without a [webhook_url] is refused when it is used:
    [log_conversation] then answers "Webhook URL not configured" after
    reading the file and before any request. *)
Theorem arguments_object_checked (s : State) :
  (callTool "setup_github_logging" None s
   = ({| text := "Error: No arguments provided"; isError := true |}, s)
   /\ callTool "log_conversation" None s
      = ({| text := "Error: No arguments provided"; isError := true |}, s)
   /\ callTool "update_session_context" None s
      = ({| text := "Error: No arguments provided"; isError := true |}, s))
  /\ (forall fields,
        let outcome := callTool "setup_github_logging" (Some fields) s in
        let s' := snd outcome in
        events s' = (events s ++ [EvWriteFile (JSON_stringify (config s') 2)])%list
        /\ prop_opt (Some (config s')) "webhook_url" = lookup "webhook_url" fields
        /\ (disk_writable s = true -> disk s' = Some (JSON_stringify (config s') 2))
        /\ (isError (fst outcome) = false
            <-> disk_writable s = true
                /\ renders (lookup "webhook_url" fields) = true
                /\ renders (lookup "github_repo" fields) = true
                /\ returned (or_text (lookup "project" fields) "None") = true)
        /\ (isError (fst outcome) = false ->
            occurs_in "GitHub logging configured successfully!" (text (fst outcome))))
  /\ (forall fields,
        let s1 := snd (loadConfig s) in
        truthy (Some (config s1)) = true ->
        truthy (prop_opt (Some (config s1)) "webhook_url") = false ->
        callTool "log_conversation" (Some fields) s
        = ({| text := "Error: Webhook URL not configured"; isError := true |}, s1)
        /\ events s1 = (events s ++ [EvReadFile])%list).
Proof.
  split; [apply no_arguments_rejected|]. split.
  - intros fields. cbv zeta. rewrite callTool_answer.
    pose proof (setup_run fields s) as Hrun. cbv zeta in Hrun. rewrite Hrun.
    assert (Hurl : prop_opt (Some (setup_record fields (session_identifier (ticks s))))
                            "webhook_url" = lookup "webhook_url" fields).
    { unfold setup_record. cbn [prop_opt object_literal].
      destruct (lookup "webhook_url" fields);
        destruct (lookup "github_repo" fields);
        destruct (lookup "github_token" fields);
        destruct (lookup "project" fields); reflexivity. }
    unfold renders.
    destruct (disk_writable s); cbn [fst snd events config disk log_event
                                      set_disk set_config tick].
    + split; [reflexivity|]. split; [exact Hurl|]. split; [reflexivity|].
      unfold setup_text.
      destruct (ToString (lookup "webhook_url" fields)) as [w|e];
        cbn [and_then answer isError returned];
        [|split; [split; [discriminate | intros (_ & Hx & _); discriminate Hx]
                 | discriminate]].
      destruct (ToString (lookup "github_repo" fields)) as [r|e];
        cbn [and_then answer isError returned];
        [|split; [split; [discriminate | intros (_ & _ & Hx & _); discriminate Hx]
                 | discriminate]].
      destruct (or_text (lookup "project" fields) "None") as [p|e];
        cbn [and_then answer isError returned text];
        [|split; [split; [discriminate | intros (_ & _ & _ & Hx); discriminate Hx]
                 | discriminate]].
      split; [split; auto|].
      intros _. exists "". eexists. reflexivity.
    + split; [reflexivity|]. split; [exact Hurl|]. split; [discriminate|].
      cbn [answer isError].
      split; [split; [discriminate | intros (Hx & _); discriminate Hx]
             | discriminate].
  - intros fields. cbv zeta. intros Hcfg Hurl. split.
    + rewrite callTool_answer. unfold dispatch.
      cbn [String.eqb Ascii.eqb Bool.eqb].
      rewrite (log_conversation_run fields s Hcfg).
      now rewrite (sendToN8N_unconfigured _ _ Hurl).
    + apply loadConfig_events.
Qed.

(** *** What the tools leave untouched *)

Lemma preserves_ret {S X A} (f : S -> X) (a : A) : preserves f (ret a).
Proof. intros s. reflexivity. Qed.

Lemma preserves_throw {S X A} (f : S -> X) (e : exn) : preserves f (@throw S A e).
Proof. intros s. reflexivity. Qed.

Lemma preserves_lift {S X A} (f : S -> X) (r : result A) : preserves f (lift r).
Proof. intros s. reflexivity. Qed.

Lemma preserves_gets {S X A} (f : S -> X) (g : S -> A) : preserves f (gets g).
Proof. intros s. reflexivity. Qed.

Lemma preserves_bind {S X A B} (f : S -> X) (m : M S A) (k : A -> M S B) :
  preserves f m -> (forall a, preserves f (k a)) -> preserves f (bind m k).
Proof.
  intros Hm Hk s. unfold bind. specialize (Hm s).
  destruct (m s) as [[a|e] s1]; cbn [snd] in *; [|exact Hm].
  now rewrite Hk.
Qed.

Lemma preserves_try_catch {S X A} (f : S -> X) (m : M S A) (h : exn -> M S A) :
  preserves f m -> (forall e, preserves f (h e)) -> preserves f (try_catch m h).
Proof.
  intros Hm Hh s. unfold try_catch. specialize (Hm s).
  destruct (m s) as [[a|e] s1]; cbn [snd] in *; [exact Hm|].
  now rewrite Hh.
Qed.

Lemma preserves_for_of {S X A} (f : S -> X) (xs : list A) (body : A -> M S unit) :
  (forall x, preserves f (body x)) -> preserves f (for_of xs body).
Proof.
  intros Hbody. induction xs as [|x rest IH]; cbn [for_of].
  - apply preserves_ret.
  - apply preserves_bind; [apply Hbody | intros _; exact IH].
Qed.

Lemma preserves_on_fst {S T X A} (f : S -> X) (m : M S A) :
  preserves f m -> preserves (fun w : S * T => f (fst w)) (on_fst m).
Proof.
  intros Hm w. unfold on_fst. specialize (Hm (fst w)).
  destruct (m (fst w)) as [r s1]. exact Hm.
Qed.

Lemma preserves_run_local {S T X A} (f : S -> X) (init : T) (m : M (S * T) A) :
  preserves (fun w : S * T => f (fst w)) m -> preserves f (run_local init m).
Proof.
  intros Hm s. unfold run_local. specialize (Hm (s, init)).
  destruct (m (s, init)) as [r [s1 t]]. exact Hm.
Qed.

Lemma preserves_push (t : string) :
  preserves (fun w : Walk => store (fst w)) (push t).
Proof. intros w. reflexivity. Qed.

Lemma preserves_fetch (r : Request) : preserves store (fetch r).
Proof.
  intros s. unfold fetch. destruct (network (events s) r); reflexivity.
Qed.

Lemma preserves_loadConfig : preserves store loadConfig.
Proof.
  intros s. rewrite loadConfig_cases.
  destruct (disk s) as [data|] eqn:E; [destruct (JSON_parse data)|];
    unfold store; cbn; now rewrite E.
Qed.

Lemma preserves_set_currentUserMessage (v : jsval) :
  preserves store (modify (set_currentUserMessage v)).
Proof. intros s. reflexivity. Qed.

Ltac preserves_step :=
  first
    [ apply preserves_ret | apply preserves_throw | apply preserves_lift
    | apply preserves_gets | apply preserves_push
    | apply preserves_loadConfig | apply preserves_set_currentUserMessage
    | apply preserves_on_fst; apply preserves_fetch
    | apply preserves_fetch
    | apply preserves_run_local
    | apply preserves_bind; [|intro]
    | apply preserves_try_catch; [|intro]
    | apply preserves_for_of; intro
    | match goal with
      | |- preserves _ (if ?c then _ else _) => destruct c
      | |- preserves _ (match ?a with Some _ => _ | None => _ end) => destruct a
      end
    | progress cbv zeta ].

Lemma preserves_retrieveTranscripts (project : jsval) :
  preserves store (retrieveTranscripts project).
Proof.
  unfold retrieveTranscripts, getGitHubHeaders, fetchLatest, browseProjectFolder,
    visitProjectItem, getTranscriptsFromYearFolder, visitDateItem, visitFile,
    download.
  repeat preserves_step.
Qed.

Lemma preserves_sendToN8N (entry : ChatLogEntry) : preserves store (sendToN8N entry).
Proof. unfold sendToN8N. repeat preserves_step. Qed.

Ltac preserves_tool :=
  first [ apply preserves_sendToN8N | apply preserves_retrieveTranscripts
        | preserves_step ].

Lemma preserves_other_tools (name : string) (args : option (list (string * json))) :
  name <> "setup_github_logging" -> preserves store (dispatch name args).
Proof.
  intros Hname. unfold dispatch.
  apply String.eqb_neq in Hname. rewrite Hname.
  repeat match goal with
         | |- preserves _ (if ?c then _ else _) => destruct c
         end.
  - unfold log_conversation. repeat preserves_tool.
  - unfold retrieve_chat_history. repeat preserves_tool.
  - unfold get_logger_status. repeat preserves_tool.
  - unfold update_session_context. repeat preserves_tool.
  - apply preserves_throw.
Qed.

Lemma run_calls_store calls (s : State) :
  Forall (fun call => fst call <> "setup_github_logging") calls ->
  store (run_calls calls s) = store s.
Proof.
  intros Hcalls. revert s.
  induction Hcalls as [|[name args] rest Hname _ IH]; intros s; cbn [run_calls];
    [reflexivity|].
  rewrite IH, callTool_state. now apply preserves_other_tools.
Qed.

(** C8.  Over any sequence of invocations none of which is
    [setup_github_logging], the configuration file, and with it the stored
    [session_id], stays as it was and no identifier is drawn.  An
    invocation of [setup_github_logging] on a writable store leaves the
    record built from its arguments and an identifier drawn at that moment,
    in memory and, printed, in the file; nothing of the earlier record
    enters it. *)
Theorem session_id_stable_until_setup
        (calls : list (string * option (list (string * json))))
        (fields : list (string * json)) (s : State) :
  Forall (fun call => fst call <> "setup_github_logging") calls ->
  disk_writable s = true ->
  (disk (run_calls calls s) = disk s /\ ticks (run_calls calls s) = ticks s)
  /\
  let s' := snd (callTool "setup_github_logging" (Some fields) s) in
  let sid := "claude-" ++ string_of_Z (Date_now (ticks s)) ++ "-"
             ++ Math_random_tail (ticks s) in
  config s'
  = JObj (object_literal
            [("webhook_url", lookup "webhook_url" fields);
             ("github_repo", lookup "github_repo" fields);
             ("github_token", lookup "github_token" fields);
             ("session_id", Some (JStr sid));
             ("auto_log", Some (JBool (is_not_false (lookup "auto_log" fields))));
             ("project", lookup "project" fields)])
  /\ disk s' = Some (JSON_stringify (config s') 2)
  /\ ticks s' = S (ticks s).
Proof.
  intros Hcalls Hw. split.
  - pose proof (run_calls_store calls s Hcalls) as Hstore.
    unfold store in Hstore. now inversion Hstore.
  - cbv zeta. rewrite callTool_state.
    pose proof (setup_run fields s) as Hrun. cbv zeta in Hrun.
    rewrite Hrun, Hw. cbn [snd]. repeat split.
Qed.

Lemma lookup_without_key (k k' : string) (fields : list (string * json)) :
  k' <> k -> lookup k' (without_key k fields) = lookup k' fields.
Proof.
  intros Hk. induction fields as [|[key v] rest IH]; [reflexivity|].
  cbn [without_key filter fst lookup].
  destruct (String.eqb_spec key k) as [->|Hkey]; cbn [negb].
  - fold (without_key k rest). rewrite IH.
    apply String.eqb_neq in Hk. rewrite String.eqb_sym in Hk. rewrite Hk.
    now destruct (lookup k' rest).
  - cbn [lookup]. fold (without_key k rest). now rewrite IH.
Qed.

Lemma lookup_agree (k : string) (f1 f2 : list (string * json)) :
  without_key "github_token" f1 = without_key "github_token" f2 ->
  k <> "github_token" -> lookup k f1 = lookup k f2.
Proof.
  intros Heq Hk.
  rewrite <- (lookup_without_key _ _ f1 Hk), <- (lookup_without_key _ _ f2 Hk).
  now rewrite Heq.
Qed.

(** [get_logger_status], by what the load returned. *)
Lemma get_logger_status_run (s : State) :
  get_logger_status s
  = (match fst (loadConfig s) with
     | Ok v =>
         if truthy (Some v)
         then status_report (fields_of v)
         else Ok "GitHub logging is not configured. Run 'setup_github_logging' to get started."
     | Throw e => Throw e
     end, snd (loadConfig s)).
Proof.
  unfold get_logger_status. rewrite bind_loadConfig.
  destruct (fst (loadConfig s)) as [v|e]; [|reflexivity].
  destruct (truthy (Some v)) eqn:Hv; cbn [negb]; [|reflexivity].
  unfold status_report. rewrite <- !prop_opt_fields.
  repeat (rewrite bind_lift_eq, (prop_of_truthy _ _ Hv)).
  repeat (rewrite ?bind_lift_eq, ?(prop_of_truthy _ _ Hv);
          match goal with
          | |- context [and_then ?r _] =>
              destruct r; cbn [and_then]; [|reflexivity]
          end).
  rewrite ?bind_lift_eq, ?(prop_of_truthy _ _ Hv). reflexivity.
Qed.

(** C9.  Two records that differ only in the value of a github_token that
    is present in both give the same status report when they are the
    stored configuration, and the same confirmation when they are the
    arguments of [setup_github_logging]. *)
Theorem token_value_not_displayed
        (f1 f2 : list (string * json)) (s1 s2 s : State)
        (a1 a2 : option (list (string * json))) :
  without_key "github_token" f1 = without_key "github_token" f2 ->
  truthy (lookup "github_token" f1) = true ->
  truthy (lookup "github_token" f2) = true ->
  fst (loadConfig s1) = Ok (JObj f1) ->
  fst (loadConfig s2) = Ok (JObj f2) ->
  fst (callTool "get_logger_status" a1 s1) = fst (callTool "get_logger_status" a2 s2)
  /\ fst (callTool "setup_github_logging" (Some f1) s)
     = fst (callTool "setup_github_logging" (Some f2) s).
Proof.
  intros Heq Ht1 Ht2 Hl1 Hl2.
  assert (Hk : forall k, k <> "github_token" -> lookup k f1 = lookup k f2)
    by (intros k; now apply lookup_agree).
  assert (Hw : lookup "webhook_url" f1 = lookup "webhook_url" f2) by now apply Hk.
  assert (Hr : lookup "github_repo" f1 = lookup "github_repo" f2) by now apply Hk.
  assert (Hs : lookup "session_id" f1 = lookup "session_id" f2) by now apply Hk.
  assert (Ha : lookup "auto_log" f1 = lookup "auto_log" f2) by now apply Hk.
  assert (Hp : lookup "project" f1 = lookup "project" f2) by now apply Hk.
  split.
  - rewrite !callTool_result. unfold dispatch.
    cbn [String.eqb Ascii.eqb Bool.eqb].
    rewrite !get_logger_status_run, Hl1, Hl2. cbn [fst truthy fields_of].
    unfold status_report.
    now rewrite Hw, Hr, Hs, Ha, Hp, Ht1, Ht2.
  - rewrite !callTool_result.
    pose proof (setup_run f1 s) as Hrun1. pose proof (setup_run f2 s) as Hrun2.
    cbv zeta in Hrun1, Hrun2. rewrite Hrun1, Hrun2.
    destruct (disk_writable s); cbn [fst]; [|reflexivity].
    unfold setup_text.
    now rewrite Hw, Hr, Ha, Hp, Ht1, Ht2.
Qed.

End Facade.

(* ================================================================= *)
(** ** Further properties of the code

    What the functions do to the outside (the file, the network), when the
    tools answer with an error, what is posted to the webhook, and how the
    tool list relates to the handler. *)

(* ----------------------------------------------------------------- *)
(** *** The requests of the walk *)

Section WalkRequests.

Context `{Host}.

Lemma adds_ret {S A} (ev : S -> list Event) P (a : A) : adds ev P (ret a).
Proof. intros s. exists []. cbn. now rewrite app_nil_r. Qed.

Lemma adds_throw {S A} (ev : S -> list Event) P (e : exn) :
  adds ev P (@throw S A e).
Proof. intros s. exists []. cbn. now rewrite app_nil_r. Qed.

Lemma adds_lift {S A} (ev : S -> list Event) P (r : result A) :
  adds ev P (lift r).
Proof. intros s. exists []. cbn. now rewrite app_nil_r. Qed.

Lemma adds_gets {S A} (ev : S -> list Event) P (f : S -> A) :
  adds ev P (gets f).
Proof. intros s. exists []. cbn. now rewrite app_nil_r. Qed.

Lemma adds_bind {S A B} (ev : S -> list Event) P (m : M S A) (k : A -> M S B) :
  adds ev P m -> (forall a, adds ev P (k a)) -> adds ev P (bind m k).
Proof.
  intros Hm Hk s. unfold bind. destruct (Hm s) as (x & Hx & Px).
  destruct (m s) as [[a|e] s1]; cbn [snd] in Hx.
  - destruct (Hk a s1) as (y & Hy & Py). exists (x ++ y)%list.
    split; [now rewrite Hy, Hx, app_assoc | now apply Forall_app].
  - exists x. now split.
Qed.

Lemma adds_try_catch {S A} (ev : S -> list Event) P (m : M S A)
      (h : exn -> M S A) :
  adds ev P m -> (forall e, adds ev P (h e)) -> adds ev P (try_catch m h).
Proof.
  intros Hm Hh s. unfold try_catch. destruct (Hm s) as (x & Hx & Px).
  destruct (m s) as [[a|e] s1]; cbn [snd] in Hx.
  - exists x. now split.
  - destruct (Hh e s1) as (y & Hy & Py). exists (x ++ y)%list.
    split; [now rewrite Hy, Hx, app_assoc | now apply Forall_app].
Qed.

Lemma adds_for_of {S A} (ev : S -> list Event) P (xs : list A)
      (body : A -> M S unit) :
  (forall x, adds ev P (body x)) -> adds ev P (for_of xs body).
Proof.
  intros Hbody. induction xs as [|x rest IH]; cbn [for_of].
  - apply adds_ret.
  - apply adds_bind; [apply Hbody | intros _; exact IH].
Qed.

Lemma adds_on_fst {S T A} (ev : S -> list Event) P (m : M S A) :
  adds ev P m -> adds (fun w : S * T => ev (fst w)) P (on_fst m).
Proof.
  intros Hm w. unfold on_fst. destruct (Hm (fst w)) as (x & Hx & Px).
  destruct (m (fst w)) as [r s1]. exists x. now split.
Qed.

Lemma adds_run_local {S T A} (ev : S -> list Event) P (init : T)
      (m : M (S * T) A) :
  adds (fun w : S * T => ev (fst w)) P m -> adds ev P (run_local init m).
Proof.
  intros Hm s. unfold run_local. destruct (Hm (s, init)) as (x & Hx & Px).
  destruct (m (s, init)) as [r [s1 t]]. exists x. now split.
Qed.

Lemma adds_push P (t : string) :
  adds (fun w : Walk => events (fst w)) P (push t).
Proof. intros w. exists []. cbn. now rewrite app_nil_r. Qed.

Lemma adds_fetch (P : Event -> Prop) (r : Request) :
  P (EvFetch r) -> adds events P (fetch r).
Proof.
  intros Hr s. exists [EvFetch r]. unfold fetch.
  destruct (network (events s) r); cbn; auto.
Qed.

Ltac adds_step hdrs :=
  first
    [ apply adds_ret | apply adds_throw | apply adds_lift | apply adds_gets
    | apply adds_push
    | apply adds_on_fst; apply adds_fetch; eexists; reflexivity
    | apply adds_bind; [|intro]
    | apply adds_try_catch; [|intro]
    | apply adds_for_of; intro
    | match goal with
      | |- adds _ _ (if ?c then _ else _) => destruct c
      end ].

Lemma adds_browseProjectFolder (url : string) hdrs :
  adds (fun w : Walk => events (fst w)) (is_get hdrs)
       (browseProjectFolder url hdrs).
Proof.
  unfold browseProjectFolder, visitProjectItem, getTranscriptsFromYearFolder,
    visitDateItem, visitFile, download.
  repeat adds_step hdrs.
Qed.

(** What a [latest.md] step asks: the file's entry, then at most one
    download; it yields at most one body. *)
Lemma latest_events (url : string) hdrs (h : list Event) :
  exists more,
    snd (Spec.latest hdrs url h)
    = (h ++ EvFetch (GET (Some (JStr url)) hdrs) :: more)%list
    /\ Forall (is_get hdrs) more
    /\ (length more <= 1)%nat
    /\ (length (fst (Spec.latest hdrs url h)) <= length more)%nat.
Proof.
  assert (Hnone : forall bodies : list string,
             bodies = [] ->
             exists more,
               snd (bodies, Spec.asked (GET (Some (JStr url)) hdrs) h)
               = (h ++ EvFetch (GET (Some (JStr url)) hdrs) :: more)%list
               /\ Forall (is_get hdrs) more
               /\ (length more <= 1)%nat
               /\ (length (fst (bodies, Spec.asked (GET (Some (JStr url)) hdrs) h))
                   <= length more)%nat).
  { intros bodies ->. exists []. cbn. auto. }
  unfold Spec.latest. cbv zeta.
  destruct (network h (GET (Some (JStr url)) hdrs)) as [e|response];
    [now apply Hnone|].
  destruct (ok response); [|now apply Hnone].
  destruct (json_body response) as [data|e]; [|now apply Hnone].
  destruct (truthy (prop_opt (Some data) "download_url")); [|now apply Hnone].
  set (download_url := prop_opt (Some data) "download_url").
  assert (Hget : Forall (is_get hdrs) [EvFetch (GET download_url hdrs)])
    by (constructor; [eexists; reflexivity | constructor]).
  unfold Spec.fetchFileBody. cbv zeta.
  exists [EvFetch (GET download_url hdrs)].
  destruct (network _ (GET download_url hdrs)) as [e|content];
    [|destruct (ok content); [destruct (text_body content)|]];
    cbn [fst snd length]; unfold Spec.asked; rewrite <- app_assoc;
    repeat split; auto.
Qed.

(** What the archive step asks, as the code asks it. *)
Lemma archived_events (url : string) hdrs (s : State) (h : list Event) :
  exists added,
    snd (Spec.archived hdrs url h) = (h ++ added)%list
    /\ Forall (is_get hdrs) added.
Proof.
  destruct (adds_browseProjectFolder url hdrs (set_events h s, []))
    as (added & Hev & Hget).
  destruct (runs_as_browseProjectFolder hdrs url (set_events h s, []))
    as [Hstate _].
  rewrite Hstate in Hev. cbn [fst snd events set_events completing] in Hev.
  now exists added.
Qed.

(** The requests of a retrieval whose headers and repository are at hand. *)
Lemma walk_requests_from hdrs (project : jsval) (s : State) (r : string) :
  exists more,
    events (snd (match given_project project with
                 | Ok given =>
                     (Ok (fst (Spec.retrieve hdrs r given (events s))),
                      set_events (snd (Spec.retrieve hdrs r given (events s))) s)
                 | Throw _ =>
                     (Ok [],
                      set_events
                        (snd (Spec.latest hdrs
                                (contents_url r "transcripts/latest.md")
                                (events s))) s)
                 end))
    = (events s
       ++ EvFetch (GET (Some (JStr (contents_url r "transcripts/latest.md"))) hdrs)
       :: more)%list
    /\ Forall (is_get hdrs) more.
Proof.
  destruct (latest_events (contents_url r "transcripts/latest.md") hdrs (events s))
    as (m1 & E1 & P1 & _).
  destruct (given_project project) as [[p|]|e];
    cbn [snd events set_events]; unfold Spec.retrieve.
  - destruct (Spec.latest hdrs (contents_url r "transcripts/latest.md") (events s))
      as [root h1].
    cbn [snd] in E1.
    destruct (latest_events (contents_url r ("transcripts/" ++ p ++ "/latest.md"))
                hdrs h1) as (m2 & E2 & P2 & _).
    destruct (Spec.latest hdrs (contents_url r ("transcripts/" ++ p ++ "/latest.md")) h1)
      as [project_latest h2].
    cbn [snd] in E2.
    destruct (archived_events (contents_url r ("transcripts/" ++ p)) hdrs s h2)
      as (m3 & E3 & P3).
    destruct (Spec.archived hdrs (contents_url r ("transcripts/" ++ p)) h2)
      as [archive h3].
    cbn [snd] in E3 |- *. rewrite E3, E2, E1.
    eexists. split.
    + rewrite <- !app_assoc. cbn [app]. reflexivity.
    + apply Forall_app. split; [exact P1|].
      constructor; [eexists; reflexivity|]. apply Forall_app. now split.
  - destruct (Spec.latest hdrs (contents_url r "transcripts/latest.md") (events s))
      as [root h1].
    cbn [snd] in E1 |- *. now exists m1.
  - now exists m1.
Qed.

(** X1.  Once the repository guard has passed, [retrieveTranscripts] first
    builds its headers: a token that is present and cannot be converted to
    a string makes the call throw, before any request.  With the headers
    built, a repository that cannot be converted makes it return the empty
    array, again without a request.  Otherwise everything it does to the
    outside is a sequence of GET requests that all carry those headers (the
    token, when there is one, goes to every address the listings name);
    the first request is for the root [latest.md]. *)
Theorem walk_requests (project : jsval) (s : State) :
  truthy (prop_opt (Some (config s)) "github_repo") = true ->
  let repo := prop_opt (Some (config s)) "github_repo" in
  let token := prop_opt (Some (config s)) "github_token" in
  match (if truthy token then ToString token else Ok "") with
  | Throw e => retrieveTranscripts project s = (Throw e, s)
  | Ok token_text =>
      let hdrs := (("Accept", "application/vnd.github+json")
                   :: ("User-Agent", "Claude-GitHub-Logger/1.0")
                   :: (if truthy token
                       then [("Authorization", "token " ++ token_text)]
                       else [])) in
      match ToString repo with
      | Throw _ => retrieveTranscripts project s = (Ok [], s)
      | Ok repo_text =>
          exists more,
            events (snd (retrieveTranscripts project s))
            = (events s
               ++ EvFetch (GET (Some (JStr (contents_url repo_text
                                              "transcripts/latest.md"))) hdrs)
               :: more)%list
            /\ Forall (is_get hdrs) more
      end
  end.
Proof.
  intros Hrepo repo token.
  pose proof (getGitHubHeaders_eq s) as Hh. cbv zeta in Hh. fold token in Hh.
  destruct (truthy token) eqn:Htoken.
  - destruct (ToString token) as [t|e]; cbn [and_then] in Hh.
    + cbv zeta.
      rewrite (retrieveTranscripts_run project s _ Hrepo (f_equal fst Hh)).
      fold repo. destruct (ToString repo) as [r|e]; [|reflexivity].
      set (hdrs := [("Accept", "application/vnd.github+json");
                    ("User-Agent", "Claude-GitHub-Logger/1.0");
                    ("Authorization", "token " ++ t)]).
      destruct (walk_requests_from hdrs project s r) as (more & E & P).
      now exists more.
    + apply retrieveTranscripts_no_headers; [exact Hrepo | now rewrite Hh].
  - cbv zeta.
    rewrite (retrieveTranscripts_run project s _ Hrepo (f_equal fst Hh)).
    fold repo. destruct (ToString repo) as [r|e]; [|reflexivity].
    destruct (walk_requests_from
                [("Accept", "application/vnd.github+json");
                 ("User-Agent", "Claude-GitHub-Logger/1.0")] project s r)
      as (more & E & P).
    now exists more.
Qed.

(** X2.  Without a project, and with a token and a repository that convert
    to strings, [retrieveTranscripts] makes one or two requests (the entry
    of the root [latest.md], then at most its download), returns at most
    one body, and does not look at the project of the stored
    configuration. *)
Theorem retrieve_without_project (project : jsval) (s : State)
        (hdrs : list (string * string)) (repo : string) :
  truthy (prop_opt (Some (config s)) "github_repo") = true ->
  fst (getGitHubHeaders s) = Ok hdrs ->
  ToString (prop_opt (Some (config s)) "github_repo") = Ok repo ->
  truthy project = false ->
  exists bodies more,
    fst (retrieveTranscripts project s) = Ok bodies
    /\ events (snd (retrieveTranscripts project s))
       = (events s
          ++ EvFetch (GET (Some (JStr (contents_url repo "transcripts/latest.md")))
                          hdrs)
          :: more)%list
    /\ (length more <= 1)%nat
    /\ (length bodies <= length more)%nat.
Proof.
  intros Hrepo Hhdrs Htext Hproject.
  rewrite (retrieveTranscripts_run project s hdrs Hrepo Hhdrs), Htext.
  unfold given_project. rewrite Hproject. unfold Spec.retrieve.
  destruct (latest_events (contents_url repo "transcripts/latest.md") hdrs (events s))
    as (more & E & _ & Hmore & Hbodies).
  destruct (Spec.latest hdrs (contents_url repo "transcripts/latest.md") (events s))
    as [root h1].
  cbn [fst snd events set_events] in *.
  now exists root, more.
Qed.

(** X17.  A project that is truthy and cannot be converted to a string
    loses the root transcript: the root [latest.md] is looked up and
    fetched as usual, then the address of the project's [latest.md] cannot
    be built, and the outer handler returns the empty array in place of
    what was collected. *)
Theorem unconvertible_project_loses_root
        (project : jsval) (s : State)
        (hdrs : list (string * string)) (repo : string) :
  truthy (prop_opt (Some (config s)) "github_repo") = true ->
  fst (getGitHubHeaders s) = Ok hdrs ->
  ToString (prop_opt (Some (config s)) "github_repo") = Ok repo ->
  truthy project = true ->
  renders project = false ->
  retrieveTranscripts project s
  = (Ok [],
     set_events
       (snd (Spec.latest hdrs (contents_url repo "transcripts/latest.md")
               (events s))) s).
Proof.
  intros Hrepo Hhdrs Htext Hproject Hrenders.
  rewrite (retrieveTranscripts_run project s hdrs Hrepo Hhdrs), Htext.
  unfold given_project, renders in *. rewrite Hproject.
  destruct (ToString project); [discriminate Hrenders | reflexivity].
Qed.

(** All that [retrieveTranscripts] adds to the events are GET requests with
    the headers of the state it starts in. *)
Lemma retrieveTranscripts_events (project : jsval) (s : State) :
  exists added,
    events (snd (retrieveTranscripts project s)) = (events s ++ added)%list
    /\ Forall (is_get (current_headers s)) added.
Proof.
  destruct (truthy (prop_opt (Some (config s)) "github_repo")) eqn:Hrepo;
    [|rewrite (retrieveTranscripts_unconfigured project s Hrepo);
      exists []; cbn; now rewrite app_nil_r].
  unfold current_headers.
  destruct (fst (getGitHubHeaders s)) as [hdrs|e] eqn:Hhdrs;
    [|rewrite (retrieveTranscripts_no_headers project s e Hrepo Hhdrs);
      exists []; cbn; now rewrite app_nil_r].
  unfold retrieveTranscripts.
  rewrite (bind_ok (gets config) _ s s (config s) eq_refl), Hrepo. cbn [negb].
  rewrite (bind_ok _ _ s s hdrs) by (now rewrite getGitHubHeaders_run, Hhdrs).
  match goal with
  | |- context [run_local ?i ?m s] =>
      assert (Hm : adds events (is_get hdrs) (run_local i m))
  end.
  { apply adds_run_local.
    unfold fetchLatest, browseProjectFolder, visitProjectItem,
      getTranscriptsFromYearFolder, visitDateItem, visitFile, download.
    repeat adds_step hdrs. }
  exact (Hm s).
Qed.

End WalkRequests.

(* ----------------------------------------------------------------- *)
(** *** What the tools do to the outside, and when they fail *)

Section ToolEffects.

Context `{Host}.

Lemma lookup_object_literal_cons (k k' : string) (v : jsval)
      (rest : list (string * jsval)) :
  lookup k (object_literal ((k', v) :: rest))
  = match lookup k (object_literal rest) with
    | Some w => Some w
    | None => if k' =? k then v else None
    end.
Proof.
  destruct v as [v|]; cbn [object_literal lookup]; [reflexivity|].
  destruct (lookup k (object_literal rest)); [reflexivity|].
  now destruct (k' =? k).
Qed.

Lemma object_literal_keys (props : list (string * jsval)) :
  incl (map fst (object_literal props)) (map fst props).
Proof.
  induction props as [|[k [v|]] rest IH]; cbn [object_literal map fst].
  - apply incl_refl.
  - apply incl_cons; [now left | now apply incl_tl].
  - now apply incl_tl.
Qed.

Lemma js_or_some (a : jsval) (b : json) : exists v, js_or a (Some b) = Some v.
Proof.
  unfold js_or. destruct a as [a|]; [|now exists b].
  destruct (truthy (Some a)); eexists; reflexivity.
Qed.

(** A value that is replaced when falsy converts when the value itself
    does. *)
Lemma or_text_returned (v : jsval) (d : string) :
  returned (or_text v d) = renders v.
Proof.
  unfold or_text, renders.
  destruct v as [[|[]|n|x|t|items|fields]|]; cbn [truthy]; try reflexivity.
  - now destruct (n =? 0)%Z.
  - now destruct (t =? "").
Qed.

(** X3.  [get_logger_status] reads the file once.  When the load gave a
    falsy value it reports "not configured"; otherwise it reports the
    fields of the loaded value, those of a value that is not an object
    being all absent.  It answers with an error exactly when the loaded
    value is truthy and one of the four fields it puts into its text
    (webhook_url, github_repo, session_id, project) cannot be converted to
    a string. *)
Theorem get_logger_status_errors
        (args : option (list (string * json))) (s : State) :
  exists loaded,
    fst (loadConfig s) = Ok loaded
    /\ callTool "get_logger_status" args s
       = (answer (if truthy (Some loaded)
                  then status_report (fields_of loaded)
                  else Ok "GitHub logging is not configured. Run 'setup_github_logging' to get started."),
          snd (loadConfig s))
    /\ events (snd (loadConfig s)) = (events s ++ [EvReadFile])%list
    /\ (isError (fst (callTool "get_logger_status" args s)) = true
        <-> truthy (Some loaded) = true
            /\ exists k, In k displayed_fields
                         /\ renders (lookup k (fields_of loaded)) = false).
Proof.
  destruct (loadConfig_returns s) as [v Hload]. exists v.
  assert (Hcall : callTool "get_logger_status" args s
                  = (answer (if truthy (Some v)
                             then status_report (fields_of v)
                             else Ok "GitHub logging is not configured. Run 'setup_github_logging' to get started."),
                     snd (loadConfig s))).
  { rewrite callTool_answer. unfold dispatch.
    cbn [String.eqb Ascii.eqb Bool.eqb].
    rewrite get_logger_status_run. rewrite Hload at 1. cbn [fst snd].
    reflexivity. }
  split; [now rewrite Hload|]. split; [exact Hcall|].
  split; [apply loadConfig_events|].
  rewrite Hcall. cbn [fst].
  destruct (truthy (Some v));
    [|cbn; split; [discriminate | intros [Hx _]; discriminate Hx]].
  unfold status_report, displayed_fields.
  pose proof (or_text_returned (lookup "project" (fields_of v)) "None") as Hp.
  unfold renders in *.
  destruct (ToString (lookup "webhook_url" (fields_of v))) as [w|e] eqn:Hw;
    cbn [and_then answer isError];
    [|split; [intros _; split; [reflexivity|];
              exists "webhook_url"; cbn [In]; rewrite Hw; auto
             | reflexivity]].
  destruct (ToString (lookup "github_repo" (fields_of v))) as [r|e] eqn:Hr;
    cbn [and_then answer isError];
    [|split; [intros _; split; [reflexivity|];
              exists "github_repo"; cbn [In]; rewrite Hr; auto
             | reflexivity]].
  destruct (ToString (lookup "session_id" (fields_of v))) as [i|e] eqn:Hi;
    cbn [and_then answer isError];
    [|split; [intros _; split; [reflexivity|];
              exists "session_id"; cbn [In]; rewrite Hi; auto
             | reflexivity]].
  destruct (or_text (lookup "project" (fields_of v)) "None") as [p|e];
    cbn [and_then answer isError returned] in *.
  - split; [discriminate|].
    intros [_ (k & [<-|[<-|[<-|[<-|[]]]]] & Hk)];
      rewrite ?Hw, ?Hr, ?Hi, <- ?Hp in Hk; discriminate Hk.
  - split; [|reflexivity]. intros _. split; [reflexivity|].
    exists "project". cbn [In]. rewrite <- Hp. auto 6.
Qed.

Lemma setup_events (args : option (list (string * json))) (s : State) :
  exists added,
    events (snd (setup_github_logging args s)) = (events s ++ added)%list
    /\ (added = [] \/ exists data, added = [EvWriteFile data]).
Proof.
  destruct args as [fields|]; [|exists []; cbn; rewrite app_nil_r; auto].
  pose proof (setup_run fields s) as Hrun. cbv zeta in Hrun.
  unfold dispatch in Hrun. cbn [String.eqb Ascii.eqb Bool.eqb] in Hrun.
  rewrite Hrun.
  eexists. split; [|right; eexists; reflexivity].
  destruct (disk_writable s); reflexivity.
Qed.

Lemma log_conversation_events (args : option (list (string * json))) (s : State) :
  exists added,
    events (snd (log_conversation args s)) = (events s ++ added)%list
    /\ (added = [] \/ added = [EvReadFile]
        \/ exists req, added = [EvReadFile; EvFetch req]
                       /\ method req = "POST"
                       /\ target req
                          = prop_opt (Some (config (snd (loadConfig s)))) "webhook_url").
Proof.
  destruct args as [fields|]; [|exists []; cbn; rewrite app_nil_r; auto].
  destruct (truthy (Some (config (snd (loadConfig s))))) eqn:Hcfg.
  - rewrite (log_conversation_run fields s Hcfg).
    set (s1 := snd (loadConfig s)) in *.
    destruct (truthy (prop_opt (Some (config s1)) "webhook_url")) eqn:Hurl.
    + rewrite (sendToN8N_run _ s1 Hurl).
      exists [EvReadFile; EvFetch (relay_request (log_entry fields s1) (config s1))].
      split; [|right; right; eexists; repeat split].
      destruct (relay_result _) as [reply|e]; cbn [snd events log_event];
        subst s1; rewrite loadConfig_events, <- app_assoc; reflexivity.
    + rewrite (sendToN8N_unconfigured _ s1 Hurl). cbn [snd].
      exists [EvReadFile]. split; [apply loadConfig_events | auto].
  - rewrite (log_conversation_unconfigured fields s Hcfg). cbn [snd].
    exists [EvReadFile]. split; [apply loadConfig_events | auto].
Qed.

(** X4.  What each tool may do to the outside.  [update_session_context]
    does nothing; [setup_github_logging] at most writes the file, once;
    [log_conversation] reads the file and then makes at most one request,
    a POST to the stored webhook address; [retrieve_chat_history] reads the
    file and then makes GET requests only.  So the file is written by
    [setup_github_logging] alone and nothing is posted but by
    [log_conversation]. *)
Theorem tool_footprint (args : option (list (string * json))) (s : State) :
  events (snd (callTool "update_session_context" args s)) = events s
  /\ (exists added,
        events (snd (callTool "setup_github_logging" args s))
        = (events s ++ added)%list
        /\ (added = [] \/ exists data, added = [EvWriteFile data]))
  /\ (exists added,
        events (snd (callTool "log_conversation" args s)) = (events s ++ added)%list
        /\ (added = [] \/ added = [EvReadFile]
            \/ exists req, added = [EvReadFile; EvFetch req]
                           /\ method req = "POST"
                           /\ target req
                              = prop_opt (Some (config (snd (loadConfig s))))
                                         "webhook_url"))
  /\ (exists requests,
        events (snd (callTool "retrieve_chat_history" args s))
        = (events s ++ EvReadFile :: requests)%list
        /\ Forall (is_get (current_headers (snd (loadConfig s)))) requests).
Proof.
  split; [|split; [|split]].
  - rewrite callTool_state. unfold dispatch. cbn [String.eqb Ascii.eqb Bool.eqb].
    destruct args; reflexivity.
  - rewrite callTool_state. unfold dispatch. cbn [String.eqb Ascii.eqb Bool.eqb].
    apply setup_events.
  - rewrite callTool_state. unfold dispatch. cbn [String.eqb Ascii.eqb Bool.eqb].
    apply log_conversation_events.
  - rewrite callTool_state. unfold dispatch. cbn [String.eqb Ascii.eqb Bool.eqb].
    rewrite retrieve_chat_history_cases.
    destruct (truthy (Some (config (snd (loadConfig s))))).
    + destruct (retrieveTranscripts_events (arg args "project") (snd (loadConfig s)))
        as (added & E & P).
      exists added. split; [|exact P].
      destruct (retrieveTranscripts _ _) as [[ts|e] s2]; cbn [snd] in *;
        now rewrite E, loadConfig_events, <- app_assoc.
    + exists []. split; [apply loadConfig_events | constructor].
Qed.

(** X5.  [retrieve_chat_history] answers with an error in four cases only:
    no configuration in memory after the load, or no repository in it, and
    it has then only read the file; a token that cannot be converted to a
    string, again before any request; a limit that cannot be converted to
    a number, after the walk.  What the network answers plays no part: a
    failure of the network never makes it fail. *)
Theorem retrieve_chat_history_errors
        (args : option (list (string * json))) (s : State) :
  let s1 := snd (loadConfig s) in
  let outcome := callTool "retrieve_chat_history" args s in
  isError (fst outcome) = true ->
  (truthy (Some (config s1)) = false
   /\ text (fst outcome)
      = "Error: GitHub logging not configured. Run setup_github_logging first."
   /\ events (snd outcome) = (events s ++ [EvReadFile])%list)
  \/ (truthy (prop_opt (Some (config s1)) "github_repo") = false
      /\ text (fst outcome) = "Error: GitHub repo not configured"
      /\ events (snd outcome) = (events s ++ [EvReadFile])%list)
  \/ (truthy (prop_opt (Some (config s1)) "github_token") = true
      /\ renders (prop_opt (Some (config s1)) "github_token") = false
      /\ events (snd outcome) = (events s ++ [EvReadFile])%list)
  \/ returned (ToIntegerOrInfinity (js_or (arg args "limit") (Some (JNum 10))))
     = false.
Proof.
  cbv zeta. rewrite callTool_answer. cbn [fst snd].
  unfold dispatch. cbn [String.eqb Ascii.eqb Bool.eqb].
  rewrite retrieve_chat_history_cases.
  pose proof (loadConfig_events s) as Hev.
  set (s1 := snd (loadConfig s)) in *.
  destruct (truthy (Some (config s1))) eqn:Hcfg;
    [|intros _; left; repeat split; exact Hev].
  destruct (truthy (prop_opt (Some (config s1)) "github_repo")) eqn:Hrepo;
    [|rewrite (retrieveTranscripts_unconfigured _ s1 Hrepo);
      intros _; right; left; repeat split; exact Hev].
  pose proof (getGitHubHeaders_eq s1) as Hh. cbv zeta in Hh.
  destruct (fst (getGitHubHeaders s1)) as [hdrs|e] eqn:Hhdrs.
  - rewrite (retrieveTranscripts_run _ s1 hdrs Hrepo Hhdrs).
    intros Herr. right. right. right.
    destruct (ToIntegerOrInfinity _); [|reflexivity].
    exfalso.
    destruct (ToString (prop_opt (Some (config s1)) "github_repo"));
      [destruct (given_project _)|]; discriminate Herr.
  - rewrite (retrieveTranscripts_no_headers _ s1 e Hrepo Hhdrs).
    intros _. right. right. left.
    rewrite Hh in Hhdrs. cbn [fst] in Hhdrs. unfold renders.
    destruct (truthy (prop_opt (Some (config s1)) "github_token"));
      [|discriminate Hhdrs].
    destruct (ToString (prop_opt (Some (config s1)) "github_token"));
      [discriminate Hhdrs|].
    repeat split. exact Hev.
Qed.

(** X6.  When the file is missing or does not parse, the tools disagree on
    whether the logger is configured: [get_logger_status] goes by what the
    load returned and reports "not configured", while [log_conversation]
    goes by the record left in memory and posts to its webhook. *)
Theorem unreadable_file_keeps_memory
        (fields : list (string * json)) (args : option (list (string * json)))
        (s : State) :
  unloadable s ->
  truthy (prop_opt (Some (config s)) "webhook_url") = true ->
  text (fst (callTool "get_logger_status" args s))
  = "GitHub logging is not configured. Run 'setup_github_logging' to get started."
  /\ exists req,
       events (snd (callTool "log_conversation" (Some fields) s))
       = (events s ++ [EvReadFile; EvFetch req])%list
       /\ method req = "POST"
       /\ target req = prop_opt (Some (config s)) "webhook_url".
Proof.
  intros Hdisk Hurl.
  pose proof (loadConfig_unloadable s Hdisk) as Hload.
  assert (Hcfg : truthy (Some (config s)) = true)
    by (destruct (config s); cbn in Hurl |- *; try discriminate; reflexivity).
  split.
  - rewrite callTool_answer. unfold dispatch. cbn [String.eqb Ascii.eqb Bool.eqb].
    rewrite get_logger_status_run, Hload. reflexivity.
  - exists (relay_request (log_entry fields (log_event EvReadFile s)) (config s)).
    assert (Hurl1 : truthy (prop_opt (Some (config (snd (loadConfig s))))
                                     "webhook_url") = true)
      by (rewrite Hload; exact Hurl).
    rewrite (log_conversation_posts_events fields s Hurl1), Hload.
    split; [reflexivity|]. split; reflexivity.
Qed.

(** X7.  When the file cannot be written, [setup_github_logging] answers
    with an error and leaves the file as it was, but the record in memory
    is already the new one and an identifier has been drawn. *)
Theorem failed_setup_replaces_memory (fields : list (string * json)) (s : State) :
  disk_writable s = false ->
  let outcome := callTool "setup_github_logging" (Some fields) s in
  isError (fst outcome) = true
  /\ disk (snd outcome) = disk s
  /\ ticks (snd outcome) = S (ticks s)
  /\ prop_opt (Some (config (snd outcome))) "session_id"
     = Some (JStr ("claude-" ++ string_of_Z (Date_now (ticks s)) ++ "-"
                   ++ Math_random_tail (ticks s)))
  /\ prop_opt (Some (config (snd outcome))) "webhook_url" = lookup "webhook_url" fields
  /\ prop_opt (Some (config (snd outcome))) "github_repo" = lookup "github_repo" fields.
Proof.
  intros Hw. cbv zeta. rewrite callTool_answer.
  pose proof (setup_run fields s) as Hrun. cbv zeta in Hrun.
  rewrite Hrun, Hw.
  cbn [fst snd answer isError disk ticks config log_event set_config tick].
  unfold setup_record, prop_opt.
  rewrite !lookup_object_literal_cons.
  cbn [object_literal lookup String.eqb Ascii.eqb Bool.eqb].
  repeat split;
    destruct (lookup "webhook_url" fields);
    destruct (lookup "github_repo" fields);
    destruct (lookup "github_token" fields);
    destruct (lookup "project" fields);
    reflexivity.
Qed.

End ToolEffects.

(* ----------------------------------------------------------------- *)
(** *** What is posted, and what is made of the reply *)

Section Relay.

Context `{Host}.

(** The object posted: its keys and what they hold. *)
Lemma relay_payload_shape (fields : list (string * json)) (s : State) :
  exists payload,
    relay_payload (log_entry fields s) (config s) = JObj payload
    /\ incl (map fst payload)
            ["session_id"; "model"; "tools_used"; "user_message";
             "assistant_message"; "project"]
    /\ lookup "session_id" payload = prop_opt (Some (config s)) "session_id"
    /\ lookup "model" payload = Some (JStr "claude-sonnet-4")
    /\ lookup "tools_used" payload
       = js_or (lookup "tools_used" fields) (Some (JArr []))
    /\ lookup "user_message" payload = lookup "user_message" fields
    /\ lookup "assistant_message" payload = lookup "assistant_message" fields
    /\ lookup "project" payload
       = js_or (js_or (lookup "project" fields)
                      (prop_opt (Some (config s)) "project"))
               (Some (JStr "")).
Proof.
  unfold relay_payload, log_entry.
  cbn [entry_session_id model tools_used user_msg assistant_msg entry_project].
  set (sid := prop_opt (Some (config s)) "session_id").
  set (stored := prop_opt (Some (config s)) "project").
  set (tools := js_or (lookup "tools_used" fields) (Some (JArr []))).
  set (user := lookup "user_message" fields).
  set (assistant := lookup "assistant_message" fields).
  set (given := js_or (lookup "project" fields) stored).
  assert (Hproject :
    (if truthy given then given else js_or stored (Some (JStr "")))
    = js_or given (Some (JStr ""))).
  { unfold js_or at 2. destruct (truthy given) eqn:Hgiven; [reflexivity|].
    subst given. unfold js_or in Hgiven |- *.
    destruct (truthy (lookup "project" fields)) eqn:Harg.
    - rewrite Harg in Hgiven. discriminate Hgiven.
    - now rewrite Hgiven. }
  rewrite Hproject.
  destruct (js_or_some given (JStr "")) as [p Hp]. rewrite Hp.
  eexists. split; [reflexivity|]. split; [apply object_literal_keys|].
  rewrite !lookup_object_literal_cons.
  cbn [object_literal lookup String.eqb Ascii.eqb Bool.eqb].
  repeat split.
  - now destruct tools.
  - now destruct user.
  - now destruct assistant.
Qed.

(** X8.  What [log_conversation] posts holds nothing but the six keys of
    the payload: the stored session identifier, the fixed model label, the
    tools (the empty array when the argument is falsy), the two messages as
    given, and under [project] the argument, else the stored project, else
    the empty string.  Neither the timestamp of the entry nor any other
    field of the configuration is sent. *)
Theorem relay_wire_shape (fields : list (string * json)) (s : State) :
  let s1 := snd (loadConfig s) in
  truthy (prop_opt (Some (config s1)) "webhook_url") = true ->
  exists payload req,
    events (snd (callTool "log_conversation" (Some fields) s))
    = (events s ++ [EvReadFile; EvFetch req])%list
    /\ target req = prop_opt (Some (config s1)) "webhook_url"
    /\ headers req = [("Content-Type", "application/json")]
    /\ body req = Some (JSON_stringify (JObj payload) 0)
    /\ incl (map fst payload)
            ["session_id"; "model"; "tools_used"; "user_message";
             "assistant_message"; "project"]
    /\ lookup "session_id" payload = prop_opt (Some (config s1)) "session_id"
    /\ lookup "model" payload = Some (JStr "claude-sonnet-4")
    /\ lookup "tools_used" payload
       = js_or (lookup "tools_used" fields) (Some (JArr []))
    /\ lookup "user_message" payload = lookup "user_message" fields
    /\ lookup "assistant_message" payload = lookup "assistant_message" fields
    /\ lookup "project" payload
       = js_or (js_or (lookup "project" fields)
                      (prop_opt (Some (config s1)) "project"))
               (Some (JStr "")).
Proof.
  intros s1 Hurl.
  destruct (relay_payload_shape fields s1) as (payload & Hpayload & Hshape).
  exists payload, (relay_request (log_entry fields s1) (config s1)).
  split; [exact (log_conversation_posts_events fields s Hurl)|].
  split; [reflexivity|]. split; [reflexivity|].
  split; [|exact Hshape].
  unfold relay_request. cbn [body]. now rewrite Hpayload.
Qed.

(** X9.  The request [log_conversation] makes depends on the stored record
    through its webhook address, session identifier and project only: with
    these three equal, two states lead to the same request whatever their
    tokens, repositories, clocks and histories. *)
Theorem relay_request_confined (fields : list (string * json)) (s s' : State) :
  let c := config (snd (loadConfig s)) in
  let c' := config (snd (loadConfig s')) in
  truthy (prop_opt (Some c) "webhook_url") = true ->
  prop_opt (Some c) "webhook_url" = prop_opt (Some c') "webhook_url" ->
  prop_opt (Some c) "session_id" = prop_opt (Some c') "session_id" ->
  prop_opt (Some c) "project" = prop_opt (Some c') "project" ->
  exists req,
    events (snd (callTool "log_conversation" (Some fields) s))
    = (events s ++ [EvReadFile; EvFetch req])%list
    /\ events (snd (callTool "log_conversation" (Some fields) s'))
       = (events s' ++ [EvReadFile; EvFetch req])%list.
Proof.
  intros c c' Hurl Hw Hs Hp.
  assert (Hurl' : truthy (prop_opt (Some c') "webhook_url") = true)
    by (rewrite <- Hw; exact Hurl).
  exists (relay_request (log_entry fields (snd (loadConfig s))) c).
  split; [exact (log_conversation_posts_events fields s Hurl)|].
  rewrite (log_conversation_posts_events fields s' Hurl').
  fold c'. do 3 f_equal.
  unfold relay_request, relay_payload, log_entry.
  cbn [entry_session_id model tools_used user_msg assistant_msg entry_project].
  fold c c'. now rewrite Hw, Hs, Hp.
Qed.

(** X10.  After a 2xx reply with a JSON body, [log_conversation] still
    answers with an error exactly when the reply is [null], or the
    [tools_used] argument is a truthy value that is not an array, or one of
    the values it puts into its confirmation (the stored session
    identifier, an element of [tools_used], the project, one of the three
    addresses of the reply) cannot be converted to a string; the entry has
    been posted all the same. *)
Theorem log_conversation_late_error
        (fields : list (string * json)) (s : State)
        (response : Response) (reply : json) :
  let s1 := snd (loadConfig s) in
  let req := relay_request (log_entry fields s1) (config s1) in
  truthy (prop_opt (Some (config s1)) "webhook_url") = true ->
  network (events s1) req = Resolved response ->
  ok response = true ->
  json_body response = Ok reply ->
  events (snd (callTool "log_conversation" (Some fields) s))
  = (events s ++ [EvReadFile; EvFetch req])%list
  /\ (isError (fst (callTool "log_conversation" (Some fields) s)) = true
      <-> reply = JNull
          \/ joinable (lookup "tools_used" fields) = false
          \/ confirmation_renders (log_entry fields s1) reply = false).
Proof.
  intros s1 req Hurl Hnet Hok Hbody.
  split; [exact (log_conversation_posts_events fields s Hurl)|].
  rewrite callTool_result, (log_conversation_posts fields s Hurl).
  fold s1. fold req. rewrite Hnet. cbn [relay_result fst]. rewrite Hok, Hbody.
  unfold log_reply_text, confirmation_renders, joinable, renders.
  cbn [tools_used log_entry entry_session_id entry_project].
  set (sid := prop_opt (Some (config s1)) "session_id").
  set (tools := js_or (lookup "tools_used" fields) (Some (JArr []))).
  set (shown := js_or (lookup "project" fields)
                      (prop_opt (Some (config s1)) "project")).
  destruct (ToString sid) as [session_text|e];
    cbn [and_then answer isError returned andb];
    [|split; [auto | reflexivity]].
  destruct tools as [[| | | | |items|]|]; cbn [call_join and_then answer isError];
    try (split; [intros _; right; left; reflexivity | reflexivity]).
  destruct (each element_text items) as [pieces|e];
    cbn [and_then answer isError returned andb];
    [|split; [auto | reflexivity]].
  destruct (or_text shown "default") as [project_text|e];
    cbn [and_then answer isError returned andb];
    [|split; [auto | reflexivity]].
  destruct reply as [| | | | | |replied];
    try (cbn; split;
         [intros Hx; discriminate Hx
         | intros [Hx|[Hx|Hx]]; discriminate Hx]);
    [cbn; split; [auto | reflexivity]|].
  cbn [prop prop_opt and_then].
  destruct (or_text (lookup "latest_url" replied) "N/A") as [latest_text|e];
    cbn [and_then answer isError returned andb];
    [|split; [auto | reflexivity]].
  destruct (or_text (lookup "dated_url" replied) "N/A") as [dated_text|e];
    cbn [and_then answer isError returned andb];
    [|split; [auto | reflexivity]].
  destruct (or_text (lookup "project_latest_url" replied) "N/A")
    as [project_latest_text|e];
    cbn [and_then answer isError returned andb];
    [|split; [auto | reflexivity]].
  split; [intros Hx; discriminate Hx
         | intros [Hx|[Hx|Hx]]; discriminate Hx].
Qed.

(** X11.  A failure of the relay is what [log_conversation] answers, after
    the one request: the error the network rejected with, "HTTP" with the
    status and its text for a reply outside 200..299, the error of
    [response.json()] for a 2xx reply whose body is not JSON. *)
Theorem log_conversation_relays_failure
        (fields : list (string * json)) (s : State) :
  let s1 := snd (loadConfig s) in
  let req := relay_request (log_entry fields s1) (config s1) in
  let failed (reason : string) :=
    callTool "log_conversation" (Some fields) s
    = ({| text := "Error: " ++ reason; isError := true |},
       log_event (EvFetch req) s1) in
  truthy (prop_opt (Some (config s1)) "webhook_url") = true ->
  match network (events s1) req with
  | Rejected e => failed (message e)
  | Resolved response =>
      if ok response
      then match json_body response with
           | Throw e => failed (message e)
           | Ok _ => events (snd (callTool "log_conversation" (Some fields) s))
                     = (events s ++ [EvReadFile; EvFetch req])%list
           end
      else failed ("HTTP " ++ string_of_Z (status response) ++ ": "
                           ++ statusText response)
  end.
Proof.
  intros s1 req failed Hurl. subst failed. cbv beta.
  pose proof (log_conversation_posts fields s Hurl) as Hrun.
  fold s1 in Hrun. fold req in Hrun.
  destruct (network (events s1) req) as [e|response]; cbn [relay_result] in Hrun;
    [rewrite callTool_answer; now rewrite Hrun|].
  destruct (ok response); [|rewrite callTool_answer; now rewrite Hrun].
  destruct (json_body response) as [reply|e];
    [|rewrite callTool_answer; now rewrite Hrun].
  exact (log_conversation_posts_events fields s Hurl).
Qed.

Lemma setup_outcome (fields : list (string * json)) (s : State) :
  let s0 := snd (callTool "setup_github_logging" (Some fields) s) in
  events s0 = (events s ++ [EvWriteFile (JSON_stringify (config s0) 2)])%list
  /\ disk s0 = (if disk_writable s
                then Some (JSON_stringify (config s0) 2)
                else disk s)
  /\ ticks s0 = S (ticks s)
  /\ prop_opt (Some (config s0)) "session_id"
     = Some (JStr ("claude-" ++ string_of_Z (Date_now (ticks s)) ++ "-"
                   ++ Math_random_tail (ticks s)))
  /\ prop_opt (Some (config s0)) "webhook_url" = lookup "webhook_url" fields
  /\ prop_opt (Some (config s0)) "github_repo" = lookup "github_repo" fields
  /\ prop_opt (Some (config s0)) "github_token" = lookup "github_token" fields
  /\ prop_opt (Some (config s0)) "project" = lookup "project" fields.
Proof.
  cbv zeta. rewrite callTool_state.
  pose proof (setup_run fields s) as Hrun. cbv zeta in Hrun. rewrite Hrun.
  unfold setup_record, session_identifier, prop_opt.
  destruct (disk_writable s);
    cbn [fst snd disk ticks config events log_event set_config set_disk tick];
    rewrite !lookup_object_literal_cons;
    cbn [object_literal lookup String.eqb Ascii.eqb Bool.eqb];
    (repeat split;
     match goal with
     | |- context [match ?v with Some _ => _ | None => _ end] => now destruct v
     | _ => reflexivity
     end).
Qed.

(** X12.  A [log_conversation] that follows a [setup_github_logging] on a
    writable file posts to the webhook address given at setup, under the
    session identifier drawn at setup: the record comes back through the
    file, for a host whose parser reads what its printer wrote. *)
Theorem setup_then_log (given fields : list (string * json)) (s : State) :
  let s0 := snd (callTool "setup_github_logging" (Some given) s) in
  disk_writable s = true ->
  JSON_parse (JSON_stringify (config s0) 2) = Ok (config s0) ->
  truthy (lookup "webhook_url" given) = true ->
  exists payload req,
    events (snd (callTool "log_conversation" (Some fields) s0))
    = (events s ++ [EvWriteFile (JSON_stringify (config s0) 2);
                    EvReadFile; EvFetch req])%list
    /\ method req = "POST"
    /\ target req = lookup "webhook_url" given
    /\ body req = Some (JSON_stringify (JObj payload) 0)
    /\ lookup "session_id" payload
       = Some (JStr ("claude-" ++ string_of_Z (Date_now (ticks s)) ++ "-"
                     ++ Math_random_tail (ticks s))).
Proof.
  intros s0 Hw Hcodec Hgiven.
  destruct (setup_outcome given s) as (Hev & Hdisk & _ & Hsid & Hurl & _).
  fold s0 in Hev, Hdisk, Hsid, Hurl. rewrite Hw in Hdisk.
  assert (Hload : loadConfig s0
                  = (Ok (config s0), set_config (config s0) (log_event EvReadFile s0)))
    by (rewrite loadConfig_cases, Hdisk, Hcodec; reflexivity).
  assert (Hmem : config (snd (loadConfig s0)) = config s0)
    by (rewrite Hload; reflexivity).
  assert (Hurl1 : truthy (prop_opt (Some (config (snd (loadConfig s0)))) "webhook_url")
                  = true)
    by (rewrite Hmem, Hurl; exact Hgiven).
  destruct (relay_payload_shape fields (snd (loadConfig s0)))
    as (payload & Hpayload & _ & Hsession & _).
  exists payload,
    (relay_request (log_entry fields (snd (loadConfig s0)))
       (config (snd (loadConfig s0)))).
  split.
  - rewrite (log_conversation_posts_events fields s0 Hurl1), Hev.
    now rewrite <- app_assoc.
  - split; [reflexivity|].
    split; [cbn [target relay_request]; now rewrite Hmem|].
    split; [unfold relay_request; cbn [body]; now rewrite Hpayload|].
    now rewrite Hsession, Hmem.
Qed.

End Relay.

(* ----------------------------------------------------------------- *)
(** *** The limit of [retrieve_chat_history] *)

Section Limit.

Context `{Host}.

(** X13.  A [limit] that is a number other than 0 is handed to [slice] as
    it is, and [slice] takes its integer part: a positive one shows that
    many transcripts from the start, a negative one drops that many from
    the end, a fraction below 1 shows none, so that "No chat transcripts
    found" is also the answer when transcripts were found and none of them
    is shown.  The count reported as found is that of the walk in every
    case. *)
Theorem numeric_limit (args : option (list (string * json))) (s s2 : State)
        (v : json) (n : extended) (ts : list string) :
  let s1 := snd (loadConfig s) in
  let limited := match n with
                 | Finite z =>
                     if (z <? 0)%Z
                     then firstn (length ts - Z.to_nat (- z)) ts
                     else firstn (Z.to_nat z) ts
                 | PlusInfinity => ts
                 | MinusInfinity => []
                 end in
  arg args "limit" = Some v ->
  numeric v = Some n ->
  truthy (Some v) = true ->
  truthy (Some (config s1)) = true ->
  retrieveTranscripts (arg args "project") s1 = (Ok ts, s2) ->
  retrieve_chat_history args s
  = (Ok (match limited with
         | [] => "No chat transcripts found in the repository."
         | _ :: _ =>
             "Found " ++ string_of_nat (length ts) ++
             " transcripts (showing " ++ string_of_nat (length limited) ++ "):" ++
             nl ++ nl ++ join nl (transcript_blocks 0 limited)
         end), s2).
Proof.
  intros s1 limited Hlimit Hnum Htruthy Hcfg Hwalk.
  rewrite retrieve_chat_history_cases. fold s1. rewrite Hcfg, Hwalk, Hlimit.
  unfold js_or. rewrite Htruthy.
  assert (Hconv : ToIntegerOrInfinity (Some v) = Ok n).
  { destruct v; cbn in Hnum; try discriminate Hnum;
      injection Hnum as <-; reflexivity. }
  rewrite Hconv. cbn [and_then]. unfold history_text.
  assert (Hslice : slice0 ts n = limited).
  { subst limited. destruct n as [z| |]; cbn [slice0]; try reflexivity.
    destruct (Z.ltb_spec z 0) as [Hneg|_]; [|reflexivity].
    assert (Hdrop : Z.to_nat (Z.max (Z.of_nat (List.length ts) + z) 0)
                    = (List.length ts - Z.to_nat (- z))%nat) by lia.
    now rewrite Hdrop. }
  rewrite Hslice. now destruct limited.
Qed.

End Limit.

(* ----------------------------------------------------------------- *)
(** *** The tool list and the handler *)

Section ToolList.

Context `{Host}.

(** X14.  The handler knows exactly the tools the list advertises: a name
    is outside the list if and only if every call under it is answered
    with "Unknown tool" and changes nothing. *)
Theorem unknown_tools_are_the_unadvertised (name : string) :
  advertised name = false
  <-> (forall args s,
         callTool name args s
         = ({| text := "Error: Unknown tool: " ++ name; isError := true |}, s)).
Proof.
  unfold advertised, tools. cbn [map tool_name existsb].
  split.
  - intros Hname args s. rewrite !callTool_answer. unfold dispatch.
    destruct (name =? "setup_github_logging"); [discriminate Hname|].
    destruct (name =? "log_conversation"); [discriminate Hname|].
    destruct (name =? "retrieve_chat_history"); [discriminate Hname|].
    destruct (name =? "get_logger_status"); [discriminate Hname|].
    destruct (name =? "update_session_context"); [discriminate Hname|].
    reflexivity.
  - intros Hall.
    pose proof (Hall None (initial None false)) as Hnone.
    destruct (String.eqb_spec name "setup_github_logging") as [->|_];
      [discriminate Hnone|].
    destruct (String.eqb_spec name "log_conversation") as [->|_];
      [discriminate Hnone|].
    destruct (String.eqb_spec name "retrieve_chat_history") as [->|_];
      [discriminate Hnone|].
    destruct (String.eqb_spec name "get_logger_status") as [->|_];
      [discriminate Hnone|].
    destruct (String.eqb_spec name "update_session_context") as [->|_];
      [discriminate Hnone|].
    reflexivity.
Qed.

Lemma lookup_with_argument (k k' : string) (v : json)
      (fields : list (string * json)) :
  lookup k (with_argument k' v fields)
  = if k' =? k then Some v else lookup k fields.
Proof.
  unfold with_argument. induction fields as [|[a b] rest IH].
  - reflexivity.
  - cbn [List.app lookup]. rewrite IH. now destruct (k' =? k).
Qed.

(** X15.  The defaults the tool list advertises are the ones the handler
    applies: a call that leaves out an argument with an advertised default
    is answered, and acts, as the call that passes the default. *)
Theorem absent_argument_takes_default
        (tool property : string) (d : json)
        (fields : list (string * json)) (s : State) :
  advertised_default tool property = Some d ->
  lookup property fields = None ->
  callTool tool (Some (with_argument property d fields)) s
  = callTool tool (Some fields) s.
Proof.
  unfold advertised_default, tools.
  cbn [find tool_name].
  destruct (String.eqb_spec "setup_github_logging" tool) as [<-|_].
  { cbn [tool_properties find property_name property_default schema_property].
    repeat match goal with
           | |- context [?a =? property] =>
               destruct (String.eqb_spec a property) as [<-|_];
               [try discriminate|]
           end; try discriminate.
    intros Hd Habsent. injection Hd as <-.
    rewrite !callTool_answer. unfold dispatch. cbn [String.eqb Ascii.eqb Bool.eqb].
    unfold setup_github_logging. cbn [arg].
    rewrite !lookup_with_argument, Habsent.
    cbn [String.eqb Ascii.eqb Bool.eqb]. reflexivity. }
  destruct (String.eqb_spec "log_conversation" tool) as [<-|_].
  { cbn [tool_properties find property_name property_default schema_property].
    repeat match goal with
           | |- context [?a =? property] =>
               destruct (String.eqb_spec a property) as [<-|_];
               [try discriminate|]
           end; try discriminate.
    intros Hd Habsent. injection Hd as <-.
    rewrite !callTool_answer. unfold dispatch. cbn [String.eqb Ascii.eqb Bool.eqb].
    unfold log_conversation. cbn [arg].
    rewrite !lookup_with_argument, Habsent.
    cbn [String.eqb Ascii.eqb Bool.eqb]. reflexivity. }
  destruct (String.eqb_spec "retrieve_chat_history" tool) as [<-|_].
  { cbn [tool_properties find property_name property_default schema_property].
    repeat match goal with
           | |- context [?a =? property] =>
               destruct (String.eqb_spec a property) as [<-|_];
               [try discriminate|]
           end; try discriminate.
    intros Hd Habsent. injection Hd as <-.
    rewrite !callTool_answer. unfold dispatch. cbn [String.eqb Ascii.eqb Bool.eqb].
    unfold retrieve_chat_history. cbn [arg].
    rewrite !lookup_with_argument, Habsent.
    cbn [String.eqb Ascii.eqb Bool.eqb]. reflexivity. }
  destruct (String.eqb_spec "get_logger_status" tool) as [<-|_];
    [cbn; discriminate|].
  destruct (String.eqb_spec "update_session_context" tool) as [<-|_].
  { cbn [tool_properties find property_name property_default schema_property].
    destruct (String.eqb_spec "user_message" property); discriminate. }
  discriminate.
Qed.

End ToolList.

(* ----------------------------------------------------------------- *)
(** *** The message of [update_session_context] *)

Section SessionContext.

Context `{Host}.

Lemma blind_ret {S A} (R : S -> S -> Prop) (a : A) : blind R (ret a).
Proof. intros s1 s2 HR. now split. Qed.

Lemma blind_throw {S A} (R : S -> S -> Prop) (e : exn) : blind R (@throw S A e).
Proof. intros s1 s2 HR. now split. Qed.

Lemma blind_lift {S A} (R : S -> S -> Prop) (r : result A) : blind R (lift r).
Proof. intros s1 s2 HR. now split. Qed.

Lemma blind_gets {S A} (R : S -> S -> Prop) (f : S -> A) :
  (forall s1 s2, R s1 s2 -> f s1 = f s2) -> blind R (gets f).
Proof.
  intros Hf s1 s2 HR. split; [|exact HR].
  cbn. now rewrite (Hf s1 s2 HR).
Qed.

Lemma blind_modify {S} (R : S -> S -> Prop) (f : S -> S) :
  (forall s1 s2, R s1 s2 -> R (f s1) (f s2)) -> blind R (modify f).
Proof. intros Hf s1 s2 HR. split; [reflexivity | now apply Hf]. Qed.

Lemma blind_bind {S A B} (R : S -> S -> Prop) (m : M S A) (k : A -> M S B) :
  blind R m -> (forall a, blind R (k a)) -> blind R (bind m k).
Proof.
  intros Hm Hk s1 s2 HR. unfold bind. destruct (Hm s1 s2 HR) as [Hr HR'].
  destruct (m s1) as [[a|e] t1], (m s2) as [[a'|e'] t2];
    cbn [fst snd] in *; try discriminate Hr.
  - injection Hr as <-. now apply Hk.
  - injection Hr as <-. now split.
Qed.

Lemma blind_try_catch {S A} (R : S -> S -> Prop) (m : M S A)
      (h : exn -> M S A) :
  blind R m -> (forall e, blind R (h e)) -> blind R (try_catch m h).
Proof.
  intros Hm Hh s1 s2 HR. unfold try_catch. destruct (Hm s1 s2 HR) as [Hr HR'].
  destruct (m s1) as [[a|e] t1], (m s2) as [[a'|e'] t2];
    cbn [fst snd] in *; try discriminate Hr.
  - now split.
  - injection Hr as <-. now apply Hh.
Qed.

Lemma blind_for_of {S A} (R : S -> S -> Prop) (xs : list A)
      (body : A -> M S unit) :
  (forall x, blind R (body x)) -> blind R (for_of xs body).
Proof.
  intros Hbody. induction xs as [|x rest IH]; cbn [for_of].
  - apply blind_ret.
  - apply blind_bind; [apply Hbody | intros _; exact IH].
Qed.

Lemma blind_on_fst {A} (m : M State A) :
  blind same_but_message m -> blind same_walk (on_fst m).
Proof.
  intros Hm w1 w2 [HR Hts]. unfold on_fst. destruct (Hm _ _ HR) as [Hr HR'].
  destruct (m (fst w1)) as [r1 t1], (m (fst w2)) as [r2 t2].
  cbn [fst snd] in *. split; [exact Hr | now split].
Qed.

Lemma blind_run_local {A} (init : list string) (m : M Walk A) :
  blind same_walk m -> blind same_but_message (run_local init m).
Proof.
  intros Hm s1 s2 HR. unfold run_local.
  destruct (Hm (s1, init) (s2, init)) as [Hr [HR' _]]; [now split|].
  destruct (m (s1, init)) as [r1 [t1 l1]], (m (s2, init)) as [r2 [t2 l2]].
  cbn [fst snd] in *. now split.
Qed.

Lemma blind_push (t : string) : blind same_walk (push t).
Proof.
  intros w1 w2 [HR Hts]. unfold push, modify. cbn [fst snd].
  split; [reflexivity|]. split; [exact HR | cbn; now rewrite Hts].
Qed.

Lemma same_log_event (e : Event) (s1 s2 : State) :
  same_but_message s1 s2 -> same_but_message (log_event e s1) (log_event e s2).
Proof.
  intros (Hc & Hd & Hw & He & Ht). unfold same_but_message. cbn.
  rewrite He. auto.
Qed.

Lemma blind_fetch (r : Request) : blind same_but_message (fetch r).
Proof.
  intros s1 s2 HR. pose proof (same_log_event (EvFetch r) s1 s2 HR) as Hlog.
  destruct HR as (_ & _ & _ & He & _). unfold fetch. rewrite He.
  destruct (network (events s2) r); now split.
Qed.

Lemma blind_readFile : blind same_but_message readFile.
Proof.
  intros s1 s2 HR. pose proof (same_log_event EvReadFile s1 s2 HR) as Hlog.
  destruct HR as (_ & Hd & _). unfold readFile. rewrite Hd.
  destruct (disk s2); now split.
Qed.

Lemma blind_writeFile (data : string) : blind same_but_message (writeFile data).
Proof.
  intros s1 s2 HR.
  pose proof (same_log_event (EvWriteFile data) s1 s2 HR) as Hlog.
  destruct HR as (_ & _ & Hw & _). unfold writeFile. rewrite Hw.
  destruct (disk_writable s2); cbn [fst snd]; split; try reflexivity;
    [|exact Hlog].
  destruct Hlog as (Hc & Hd & Hw' & He & Ht). unfold same_but_message. cbn.
  auto.
Qed.

Ltac same_states :=
  let s1 := fresh "s" in
  let s2 := fresh "s" in
  let HR := fresh "HR" in
  intros s1 s2 HR;
  unfold same_walk, same_but_message in *; cbn;
  intuition congruence.

Ltac blind_step :=
  first
    [ apply blind_ret | apply blind_throw | apply blind_lift | apply blind_push
    | apply blind_fetch | apply blind_readFile | apply blind_writeFile
    | apply blind_on_fst
    | apply blind_run_local
    | apply blind_gets; same_states
    | apply blind_modify; same_states
    | apply blind_bind; [|intro]
    | apply blind_try_catch; [|intro]
    | apply blind_for_of; intro
    | match goal with
      | |- blind _ (if ?c then _ else _) => destruct c
      end
    | progress cbv zeta ].

Lemma blind_dispatch (name : string) (args : option (list (string * json))) :
  blind same_but_message (dispatch name args).
Proof.
  unfold dispatch.
  repeat match goal with
         | |- blind _ (if ?c then _ else _) => destruct c
         end.
  - unfold setup_github_logging, generateSessionId, saveConfig.
    destruct args; repeat blind_step.
  - unfold log_conversation, loadConfig, sendToN8N.
    destruct args; repeat blind_step.
  - unfold retrieve_chat_history, loadConfig, retrieveTranscripts,
      getGitHubHeaders, fetchLatest, browseProjectFolder, visitProjectItem,
      getTranscriptsFromYearFolder, visitDateItem, visitFile.
    repeat blind_step.
  - unfold get_logger_status, loadConfig. repeat blind_step.
  - unfold update_session_context. destruct args; repeat blind_step.
  - apply blind_throw.
Qed.

Lemma blind_callTool (name : string) (args : option (list (string * json)))
      (s1 s2 : State) :
  same_but_message s1 s2 ->
  fst (callTool name args s1) = fst (callTool name args s2)
  /\ same_but_message (snd (callTool name args s1)) (snd (callTool name args s2)).
Proof.
  intros HR. rewrite !callTool_state, !callTool_result.
  destruct (blind_dispatch name args s1 s2 HR) as [Hr HR'].
  now rewrite Hr.
Qed.

Lemma blind_calls (calls : list (string * option (list (string * json))))
      (s1 s2 : State) :
  same_but_message s1 s2 ->
  answers calls s1 = answers calls s2
  /\ same_but_message (run_calls calls s1) (run_calls calls s2).
Proof.
  revert s1 s2. induction calls as [|[name args] rest IH]; intros s1 s2 HR.
  - now split.
  - cbn [answers run_calls].
    destruct (blind_callTool name args s1 s2 HR) as [Hr HR'].
    destruct (IH _ _ HR') as [Hanswers Hstates].
    now rewrite Hr, Hanswers.
Qed.

(** X16.  The message [update_session_context] stores is never read: after
    it, every sequence of tool invocations gives the answers, makes the
    requests and leaves the file and the configuration it would have given,
    made and left without it. *)
Theorem session_context_never_read
        (message : option (list (string * json)))
        (calls : list (string * option (list (string * json)))) (s : State) :
  let s' := snd (callTool "update_session_context" message s) in
  answers calls s' = answers calls s
  /\ same_but_message (run_calls calls s') (run_calls calls s).
Proof.
  cbv zeta. apply blind_calls.
  rewrite callTool_state. unfold dispatch. cbn [String.eqb Ascii.eqb Bool.eqb].
  unfold update_session_context. destruct message; cbn; repeat split.
Qed.

End SessionContext.

(* ================================================================= *)
(** ** The properties on the reference host *)

Section Scenarios.

Import RefHost.

Lemma retrieve_in_discovery_order_witness :
  (truthy (prop_opt (Some (config (demo_state "ghp_1"))) "github_repo") = true
   /\ fst (getGitHubHeaders (H := demo_host) (demo_state "ghp_1"))
      = Ok (demo_headers "ghp_1")
   /\ ToString (H := demo_host)
        (prop_opt (Some (config (demo_state "ghp_1"))) "github_repo")
      = Ok "john/chat"
   /\ given_project (H := demo_host) project_p = Ok (Some "p"))
  /\ fst (retrieveTranscripts (H := demo_host) project_p (demo_state "ghp_1"))
     = Ok ["## root latest"; "## p latest"; "## session"].
Proof.
  split; [repeat split|].
  pose proof (proj1 (retrieve_in_discovery_order (H := demo_host) project_p
                       (demo_state "ghp_1"))
                (demo_headers "ghp_1") "john/chat" (Some "p")
                eq_refl eq_refl eq_refl eq_refl) as W.
  cbv zeta in W. rewrite W. vm_compute. reflexivity.
Defined.

Lemma walk_tolerates_failures_witness :
  let year_2024 := dir_entry "2024" "https://api.example/p/2024" in
  let year_2025 := dir_entry "2025" "https://api.example/p/2025" in
  inspectable (H := demo_host) year_2024 = true
  /\ network (Host := demo_host) []
       (GET (Some (JStr "https://api.example/p/2024")) (demo_headers "ghp_1"))
     = Rejected (FetchError "socket hang up")
  /\ snd (snd (for_of [year_2024; year_2025]
                 (visitProjectItem (H := demo_host) (demo_headers "ghp_1"))
                 (demo_state "ghp_1", [])))
     = ["## session"].
Proof.
  cbv zeta. split; [reflexivity|]. split; [reflexivity|].
  destruct (walk_tolerates_failures (H := demo_host) (demo_headers "ghp_1"))
    as (_ & _ & _ & _ & _ & _ & _ & _ & Hnext & _).
  rewrite (Hnext (dir_entry "2024" "https://api.example/p/2024")
             [dir_entry "2025" "https://api.example/p/2025"]
             (demo_state "ghp_1", []) eq_refl).
  vm_compute. reflexivity.
Defined.

(** C2, as stated, fails: a download that is refused ends the whole year
    folder.  In the year folder 2024 the download of [a.md] is refused;
    [b.md], next to it, and [c.md], in the next date folder, would be
    answered, and are never asked for: the walk goes on with the year
    folder 2025, and the result holds neither. *)
Lemma refused_download_ends_year_folder :
  let outcome := retrieveTranscripts (H := failing_host) project_p
                   (demo_state "ghp_1") in
  failing_remote (GET (Some (JStr "https://raw.example/p/a.md"))
                      (demo_headers "ghp_1"))
  = Rejected (FetchError "socket hang up")
  /\ failing_remote (GET (Some (JStr "https://raw.example/p/b.md"))
                         (demo_headers "ghp_1"))
     = reply_text "## b"
  /\ failing_remote (GET (Some (JStr "https://raw.example/p/c.md"))
                         (demo_headers "ghp_1"))
     = reply_text "## c"
  /\ fst outcome = Ok ["## root latest"; "## e"]
  /\ map target (requests (events (snd outcome)))
     = map (fun url => Some (JStr url))
           ["https://api.github.com/repos/john/chat/contents/transcripts/latest.md";
            "https://raw.example/latest.md";
            "https://api.github.com/repos/john/chat/contents/transcripts/p/latest.md";
            "https://api.github.com/repos/john/chat/contents/transcripts/p";
            "https://api.example/p/2024";
            "https://api.example/p/2024/2024-01-01";
            "https://raw.example/p/a.md";
            "https://api.example/p/2025";
            "https://api.example/p/2025/2025-09-14";
            "https://raw.example/p/e.md"].
Proof.
  cbv zeta. repeat split; vm_compute; reflexivity.
Qed.

Lemma save_then_load_roundtrip_witness :
  (disk_writable (initial None true) = true
   /\ JSON_parse (Host := demo_host)
        (JSON_stringify (Host := demo_host) (LoggerConfig_js (demo_config "ghp_1")) 2)
      = Ok (LoggerConfig_js (demo_config "ghp_1")))
  /\ exists s1 s2,
       saveConfig (H := demo_host) (LoggerConfig_js (demo_config "ghp_1"))
         (initial None true) = (Ok tt, s1)
       /\ loadConfig (H := demo_host) s1
          = (Ok (LoggerConfig_js (demo_config "ghp_1")), s2).
Proof.
  pose proof (parse_stringify_config (demo_config "ghp_1")) as Hcodec.
  split; [split; [reflexivity | exact Hcodec]|].
  destruct (save_then_load_roundtrip (H := demo_host) (demo_config "ghp_1")
              (initial None true) eq_refl Hcodec)
    as (s1 & s2 & Hsave & _ & Hload & _).
  exists s1, s2. split; assumption.
Defined.

Lemma sendToN8N_reply_witness :
  truthy (prop_opt (Some (config (demo_state "ghp_1"))) "webhook_url") = true
  /\ exists req,
       method req = "POST"
       /\ target req = Some (JStr "https://n8n.example/webhook/chat")
       /\ events (snd (sendToN8N (H := demo_host) demo_entry (demo_state "ghp_1")))
          = [EvFetch req]
       /\ fst (sendToN8N (H := demo_host) demo_entry (demo_state "ghp_1"))
          = Throw (Error "HTTP 500: Internal Server Error").
Proof.
  split; [reflexivity|].
  destruct (sendToN8N_reply (H := demo_host) demo_entry (demo_state "ghp_1") eq_refl)
    as (req & Hmethod & Htarget & Hstate & Hreply).
  exists req. split; [exact Hmethod|]. split; [exact Htarget|].
  split; [rewrite Hstate; reflexivity|].
  vm_compute. reflexivity.
Defined.

Lemma falsy_limit_defaults_to_ten_witness :
  let args := Some [("project", JStr "p"); ("limit", JNum 0)] in
  let s := demo_state "ghp_1" in
  let s1 := snd (loadConfig (H := demo_host) s) in
  let ts := ["## root latest"; "## p latest"; "## session"] in
  let s2 := snd (retrieveTranscripts (H := demo_host) (arg args "project") s1) in
  (truthy (arg args "limit") = false
   /\ truthy (Some (config s1)) = true
   /\ retrieveTranscripts (H := demo_host) (arg args "project") s1 = (Ok ts, s2))
  /\ exists t, retrieve_chat_history (H := demo_host) args s = (Ok t, s2).
Proof.
  cbv zeta.
  assert (Hwalk :
    retrieveTranscripts (H := demo_host)
      (arg (Some [("project", JStr "p"); ("limit", JNum 0)]) "project")
      (snd (loadConfig (H := demo_host) (demo_state "ghp_1")))
    = (Ok ["## root latest"; "## p latest"; "## session"],
       snd (retrieveTranscripts (H := demo_host)
              (arg (Some [("project", JStr "p"); ("limit", JNum 0)]) "project")
              (snd (loadConfig (H := demo_host) (demo_state "ghp_1"))))))
    by (vm_compute; reflexivity).
  split; [split; [reflexivity | split; [vm_compute; reflexivity | exact Hwalk]]|].
  eexists.
  exact (falsy_limit_defaults_to_ten (H := demo_host)
           (Some [("project", JStr "p"); ("limit", JNum 0)])
           (demo_state "ghp_1") _ _ eq_refl
           ltac:(vm_compute; reflexivity) Hwalk).
Defined.

Lemma session_id_stable_until_setup_witness :
  (Forall (fun call => fst call <> "setup_github_logging") demo_calls
   /\ disk_writable (demo_state "ghp_1") = true)
  /\ disk (run_calls (H := demo_host) demo_calls (demo_state "ghp_1"))
     = disk (demo_state "ghp_1")
  /\ prop_opt
       (Some (config (snd (callTool (H := demo_host) "setup_github_logging"
                             (Some (demo_arguments "ghp_2")) (demo_state "ghp_1")))))
       "session_id"
     = Some (JStr "claude-1757808000001-k3v9x0q21").
Proof.
  assert (Hcalls : Forall (fun call => fst call <> "setup_github_logging") demo_calls)
    by (repeat constructor; cbn; discriminate).
  split; [split; [exact Hcalls | reflexivity]|].
  destruct (session_id_stable_until_setup (H := demo_host) demo_calls
              (demo_arguments "ghp_2") (demo_state "ghp_1") Hcalls eq_refl)
    as [[Hdisk _] [Hconfig _]].
  split; [exact Hdisk|].
  rewrite Hconfig. vm_compute. reflexivity.
Defined.

Lemma token_value_not_displayed_witness :
  (without_key "github_token" (config_fields (demo_config "ghp_1"))
   = without_key "github_token" (config_fields (demo_config "ghp_2"))
   /\ truthy (lookup "github_token" (config_fields (demo_config "ghp_1"))) = true
   /\ truthy (lookup "github_token" (config_fields (demo_config "ghp_2"))) = true
   /\ fst (loadConfig (H := demo_host) (demo_state "ghp_1"))
      = Ok (JObj (config_fields (demo_config "ghp_1")))
   /\ fst (loadConfig (H := demo_host) (demo_state "ghp_2"))
      = Ok (JObj (config_fields (demo_config "ghp_2"))))
  /\ fst (callTool (H := demo_host) "get_logger_status" None (demo_state "ghp_1"))
     = fst (callTool (H := demo_host) "get_logger_status" None (demo_state "ghp_2")).
Proof.
  split; [repeat split; vm_compute; reflexivity|].
  exact (proj1 (token_value_not_displayed (H := demo_host)
                  (config_fields (demo_config "ghp_1"))
                  (config_fields (demo_config "ghp_2"))
                  (demo_state "ghp_1") (demo_state "ghp_2") (initial None true)
                  None None eq_refl eq_refl eq_refl
                  ltac:(vm_compute; reflexivity) ltac:(vm_compute; reflexivity))).
Defined.



Lemma arguments_object_checked_witness :
  let s := snd (callTool (H := host offline) "setup_github_logging"
                  (Some [("github_repo", JStr "john/chat")]) (initial None true)) in
  let s1 := snd (loadConfig (H := host offline) s) in
  (truthy (Some (config s1)) = true
   /\ truthy (prop_opt (Some (config s1)) "webhook_url") = false)
  /\ callTool (H := host offline) "log_conversation"
       (Some [("user_message", JStr "hello"); ("assistant_message", JStr "hi")]) s
     = ({| text := "Error: Webhook URL not configured"; isError := true |}, s1).
Proof.
  cbv zeta. split; [split; vm_compute; reflexivity|].
  destruct (arguments_object_checked (H := host offline)
              (snd (callTool (H := host offline) "setup_github_logging"
                      (Some [("github_repo", JStr "john/chat")])
                      (initial None true))))
    as (_ & _ & Hlog).
  apply (Hlog [("user_message", JStr "hello"); ("assistant_message", JStr "hi")]);
    vm_compute; reflexivity.
Defined.

(** C3, as stated, fails: with an arguments object that holds no
    [webhook_url], [setup_github_logging] reports success and has written a
    record without one. *)
Lemma setup_saves_record_without_webhook_url :
  let args := Some [("github_repo", JStr "john/chat"); ("github_token", JStr "ghp_1")] in
  let s := initial None true in
  let outcome := callTool (H := host offline) "setup_github_logging" args s in
  arg args "webhook_url" = None
  /\ isError (fst outcome) = false
  /\ prop_opt (Some (config (snd outcome))) "webhook_url" = None
  /\ disk (snd outcome) = Some (stringify (config (snd outcome)) 2)
  /\ disk (snd outcome) <> disk s
  /\ events (snd outcome) = [EvWriteFile (stringify (config (snd outcome)) 2)].
Proof.
  cbv zeta. repeat split; try (vm_compute; reflexivity).
  vm_compute. discriminate.
Qed.

End Scenarios.

(* ----------------------------------------------------------------- *)
(** *** The further properties on the reference host *)

Section FurtherScenarios.

Import RefHost.

Lemma walk_requests_witness :
  truthy (prop_opt (Some (config (demo_state "ghp_1"))) "github_repo") = true
  /\ exists more,
       events (snd (retrieveTranscripts (H := demo_host) project_p
                      (demo_state "ghp_1")))
       = EvFetch (GET (Some (JStr "https://api.github.com/repos/john/chat/contents/transcripts/latest.md"))
                      (demo_headers "ghp_1"))
         :: more
       /\ Forall (is_get (demo_headers "ghp_1")) more.
Proof.
  split; [reflexivity|].
  exact (walk_requests (H := demo_host) project_p (demo_state "ghp_1") eq_refl).
Defined.

Lemma retrieve_without_project_witness :
  (truthy (prop_opt (Some (config (demo_state "ghp_1"))) "github_repo") = true
   /\ fst (getGitHubHeaders (H := demo_host) (demo_state "ghp_1"))
      = Ok (demo_headers "ghp_1")
   /\ ToString (H := demo_host)
        (prop_opt (Some (config (demo_state "ghp_1"))) "github_repo")
      = Ok "john/chat"
   /\ truthy None = false)
  /\ exists bodies more,
       fst (retrieveTranscripts (H := demo_host) None (demo_state "ghp_1"))
       = Ok bodies
       /\ events (snd (retrieveTranscripts (H := demo_host) None
                         (demo_state "ghp_1")))
          = EvFetch (GET (Some (JStr "https://api.github.com/repos/john/chat/contents/transcripts/latest.md"))
                         (demo_headers "ghp_1"))
            :: more
       /\ (List.length more <= 1)%nat
       /\ (List.length bodies <= List.length more)%nat.
Proof.
  split; [repeat split|].
  exact (retrieve_without_project (H := demo_host) None (demo_state "ghp_1")
           (demo_headers "ghp_1") "john/chat" eq_refl eq_refl eq_refl eq_refl).
Defined.

Lemma unconvertible_project_loses_root_witness :
  let s := demo_state "ghp_1" in
  (truthy (prop_opt (Some (config s)) "github_repo") = true
   /\ fst (getGitHubHeaders (H := demo_host) s) = Ok (demo_headers "ghp_1")
   /\ ToString (H := demo_host) (prop_opt (Some (config s)) "github_repo")
      = Ok "john/chat"
   /\ truthy (Some odd_project) = true
   /\ renders (H := demo_host) (Some odd_project) = false)
  /\ fst (retrieveTranscripts (H := demo_host) (Some odd_project) s) = Ok []
  /\ map target
       (requests (events (snd (retrieveTranscripts (H := demo_host)
                                 (Some odd_project) s))))
     = [Some (JStr "https://api.github.com/repos/john/chat/contents/transcripts/latest.md");
        Some (JStr "https://raw.example/latest.md")].
Proof.
  cbv zeta. split; [repeat split|].
  rewrite (unconvertible_project_loses_root (H := demo_host) (Some odd_project)
             (demo_state "ghp_1") (demo_headers "ghp_1") "john/chat"
             eq_refl eq_refl eq_refl eq_refl eq_refl).
  split; vm_compute; reflexivity.
Defined.

Lemma retrieve_chat_history_errors_witness :
  let args := Some [("limit", odd_project)] in
  let s := demo_state "ghp_1" in
  let outcome := callTool (H := demo_host) "retrieve_chat_history" args s in
  isError (fst outcome) = true
  /\ text (fst outcome) = "Error: Cannot convert object to primitive value"
  /\ truthy (Some (config (snd (loadConfig (H := demo_host) s)))) = true
  /\ returned (ToIntegerOrInfinity (H := demo_host)
                 (js_or (arg args "limit") (Some (JNum 10)))) = false.
Proof.
  cbv zeta.
  assert (Herror :
    isError (fst (callTool (H := demo_host) "retrieve_chat_history"
                    (Some [("limit", odd_project)]) (demo_state "ghp_1"))) = true)
    by (vm_compute; reflexivity).
  split; [exact Herror|]. split; [vm_compute; reflexivity|].
  split; [vm_compute; reflexivity|].
  pose proof (retrieve_chat_history_errors (H := demo_host)
                (Some [("limit", odd_project)]) (demo_state "ghp_1") Herror) as W.
  cbv zeta in W.
  destruct W as [(Hx & _)|[(Hx & _)|[(_ & Hx & _)|Hx]]];
    [vm_compute in Hx; discriminate Hx
    | vm_compute in Hx; discriminate Hx
    | vm_compute in Hx; discriminate Hx
    | exact Hx].
Defined.

Lemma unreadable_file_keeps_memory_witness :
  let s := set_disk None (demo_state "ghp_1") in
  (unloadable (H := demo_host) s
   /\ truthy (prop_opt (Some (config s)) "webhook_url") = true)
  /\ text (fst (callTool (H := demo_host) "get_logger_status" None s))
     = "GitHub logging is not configured. Run 'setup_github_logging' to get started."
  /\ exists req,
       events (snd (callTool (H := demo_host) "log_conversation"
                      (Some demo_turn) s))
       = [EvReadFile; EvFetch req]
       /\ method req = "POST"
       /\ target req = Some (JStr "https://n8n.example/webhook/chat").
Proof.
  cbv zeta. split; [split; [exact I | reflexivity]|].
  exact (unreadable_file_keeps_memory (H := demo_host) demo_turn None
           (set_disk None (demo_state "ghp_1")) I eq_refl).
Defined.

Lemma failed_setup_replaces_memory_witness :
  let s := set_disk (Some "{}") (initial None false) in
  let outcome := callTool (H := host offline) "setup_github_logging"
                   (Some (demo_arguments "ghp_2")) s in
  disk_writable s = false
  /\ isError (fst outcome) = true
  /\ disk (snd outcome) = Some "{}"
  /\ prop_opt (Some (config (snd outcome))) "webhook_url"
     = Some (JStr "https://n8n.example/webhook/chat").
Proof.
  cbv zeta. split; [reflexivity|].
  destruct (failed_setup_replaces_memory (H := host offline)
              (demo_arguments "ghp_2") (set_disk (Some "{}") (initial None false))
              eq_refl)
    as (Herror & Hdisk & _ & _ & Hurl & _).
  split; [exact Herror|]. split; [exact Hdisk | exact Hurl].
Defined.

Lemma relay_wire_shape_witness :
  let s1 := snd (loadConfig (H := demo_host) (demo_state "ghp_1")) in
  truthy (prop_opt (Some (config s1)) "webhook_url") = true
  /\ exists payload req,
       events (snd (callTool (H := demo_host) "log_conversation"
                      (Some demo_turn) (demo_state "ghp_1")))
       = [EvReadFile; EvFetch req]
       /\ body req = Some (JSON_stringify (Host := demo_host) (JObj payload) 0)
       /\ lookup "project" payload = Some (JStr "")
       /\ lookup "tools_used" payload = Some (JArr []).
Proof.
  cbv zeta.
  assert (Hurl : truthy (prop_opt (Some (config (snd (loadConfig (H := demo_host)
                                                        (demo_state "ghp_1")))))
                                  "webhook_url") = true)
    by (vm_compute; reflexivity).
  split; [exact Hurl|].
  destruct (relay_wire_shape (H := demo_host) demo_turn (demo_state "ghp_1") Hurl)
    as (payload & req & Hev & _ & _ & Hbody & _ & _ & _ & Htools & _ & _ & Hproject).
  exists payload, req. split; [exact Hev|]. split; [exact Hbody|].
  split; [rewrite Hproject; vm_compute; reflexivity | exact Htools].
Defined.

Lemma relay_request_confined_witness :
  let c := config (snd (loadConfig (H := demo_host) (demo_state "ghp_1"))) in
  let c' := config (snd (loadConfig (H := demo_host) (demo_state "ghp_2"))) in
  (truthy (prop_opt (Some c) "webhook_url") = true
   /\ prop_opt (Some c) "webhook_url" = prop_opt (Some c') "webhook_url"
   /\ prop_opt (Some c) "session_id" = prop_opt (Some c') "session_id"
   /\ prop_opt (Some c) "project" = prop_opt (Some c') "project")
  /\ prop_opt (Some c) "github_token" <> prop_opt (Some c') "github_token"
  /\ exists req,
       events (snd (callTool (H := demo_host) "log_conversation"
                      (Some demo_turn) (demo_state "ghp_1")))
       = [EvReadFile; EvFetch req]
       /\ events (snd (callTool (H := demo_host) "log_conversation"
                         (Some demo_turn) (demo_state "ghp_2")))
          = [EvReadFile; EvFetch req].
Proof.
  cbv zeta.
  split; [repeat split; vm_compute; reflexivity|].
  split; [vm_compute; discriminate|].
  exact (relay_request_confined (H := demo_host) demo_turn
           (demo_state "ghp_1") (demo_state "ghp_2")
           ltac:(vm_compute; reflexivity) ltac:(vm_compute; reflexivity)
           ltac:(vm_compute; reflexivity) ltac:(vm_compute; reflexivity)).
Defined.

Lemma log_conversation_late_error_witness :
  let s := demo_state "ghp_1" in
  let s1 := snd (loadConfig (H := accepting_host) s) in
  let req := relay_request (H := accepting_host)
               (log_entry (H := accepting_host) demo_turn_with_tool s1)
               (config s1) in
  let reply :=
    JObj [("latest_url",
           JStr "https://github.com/john/chat/blob/main/transcripts/latest.md")] in
  let response :=
    {| status := 200; statusText := "OK"; json_body := Ok reply;
       text_body := Ok (stringify reply 0) |} in
  (truthy (prop_opt (Some (config s1)) "webhook_url") = true
   /\ network (Host := accepting_host) (events s1) req = Resolved response
   /\ ok response = true
   /\ json_body response = Ok reply)
  /\ events (snd (callTool (H := accepting_host) "log_conversation"
                    (Some demo_turn_with_tool) s))
     = [EvReadFile; EvFetch req]
  /\ isError (fst (callTool (H := accepting_host) "log_conversation"
                     (Some demo_turn_with_tool) s)) = true.
Proof.
  cbv zeta.
  split; [repeat split; vm_compute; reflexivity|].
  destruct (log_conversation_late_error (H := accepting_host)
              demo_turn_with_tool (demo_state "ghp_1")
              {| status := 200; statusText := "OK";
                 json_body := Ok (JObj [("latest_url",
                   JStr "https://github.com/john/chat/blob/main/transcripts/latest.md")]);
                 text_body := Ok (stringify (JObj [("latest_url",
                   JStr "https://github.com/john/chat/blob/main/transcripts/latest.md")]) 0) |}
              (JObj [("latest_url",
                 JStr "https://github.com/john/chat/blob/main/transcripts/latest.md")])
              ltac:(vm_compute; reflexivity) ltac:(vm_compute; reflexivity)
              eq_refl eq_refl)
    as [Hev Herror].
  split; [exact Hev|]. apply Herror. right. left. reflexivity.
Defined.

Lemma log_conversation_relays_failure_witness :
  let s1 := snd (loadConfig (H := demo_host) (demo_state "ghp_1")) in
  truthy (prop_opt (Some (config s1)) "webhook_url") = true
  /\ fst (callTool (H := demo_host) "log_conversation" (Some demo_turn)
            (demo_state "ghp_1"))
     = {| text := "Error: HTTP 500: Internal Server Error"; isError := true |}.
Proof.
  cbv zeta.
  assert (Hurl : truthy (prop_opt (Some (config (snd (loadConfig (H := demo_host)
                                                        (demo_state "ghp_1")))))
                                  "webhook_url") = true)
    by (vm_compute; reflexivity).
  split; [exact Hurl|].
  pose proof (log_conversation_relays_failure (H := demo_host) demo_turn
                (demo_state "ghp_1") Hurl) as W.
  cbv zeta beta in W.
  change (network (Host := demo_host)
            (events (snd (loadConfig (H := demo_host) (demo_state "ghp_1"))))
            (relay_request (H := demo_host)
               (log_entry (H := demo_host) demo_turn
                  (snd (loadConfig (H := demo_host) (demo_state "ghp_1"))))
               (config (snd (loadConfig (H := demo_host) (demo_state "ghp_1"))))))
    with (reply_status 500 "Internal Server Error") in W.
  cbn [reply_status ok status statusText andb Z.leb Z.ltb Z.compare
       Pos.compare Pos.compare_cont] in W.
  rewrite W. reflexivity.
Defined.

Lemma setup_then_log_witness :
  let s := initial None true in
  let s0 := snd (callTool (H := demo_host) "setup_github_logging"
                   (Some (demo_arguments "ghp_1")) s) in
  (disk_writable s = true
   /\ JSON_parse (Host := demo_host)
        (JSON_stringify (Host := demo_host) (config s0) 2) = Ok (config s0)
   /\ truthy (lookup "webhook_url" (demo_arguments "ghp_1")) = true)
  /\ exists payload req,
       events (snd (callTool (H := demo_host) "log_conversation"
                      (Some demo_turn) s0))
       = [EvWriteFile (JSON_stringify (Host := demo_host) (config s0) 2);
          EvReadFile; EvFetch req]
       /\ target req = Some (JStr "https://n8n.example/webhook/chat")
       /\ body req = Some (JSON_stringify (Host := demo_host) (JObj payload) 0)
       /\ lookup "session_id" payload
          = Some (JStr "claude-1757808000000-k3v9x0q20").
Proof.
  cbv zeta.
  assert (Hcodec :
    JSON_parse (Host := demo_host)
      (JSON_stringify (Host := demo_host)
         (config (snd (callTool (H := demo_host) "setup_github_logging"
                         (Some (demo_arguments "ghp_1")) (initial None true)))) 2)
    = Ok (config (snd (callTool (H := demo_host) "setup_github_logging"
                         (Some (demo_arguments "ghp_1")) (initial None true)))))
    by (vm_compute; reflexivity).
  split; [split; [reflexivity | split; [exact Hcodec | reflexivity]]|].
  destruct (setup_then_log (H := demo_host) (demo_arguments "ghp_1") demo_turn
              (initial None true) eq_refl Hcodec eq_refl)
    as (payload & req & Hev & _ & Htarget & Hbody & Hsession).
  exists payload, req. split; [exact Hev|]. split; [exact Htarget|].
  split; [exact Hbody|]. rewrite Hsession. vm_compute. reflexivity.
Defined.

Lemma numeric_limit_witness :
  let args := Some [("project", JStr "p"); ("limit", one_half)] in
  let s := demo_state "ghp_1" in
  let s1 := snd (loadConfig (H := demo_host) s) in
  let ts := ["## root latest"; "## p latest"; "## session"] in
  let s2 := snd (retrieveTranscripts (H := demo_host) (arg args "project") s1) in
  (arg args "limit" = Some one_half
   /\ numeric one_half = Some (Finite 0)
   /\ truthy (Some one_half) = true
   /\ truthy (Some (config s1)) = true
   /\ retrieveTranscripts (H := demo_host) (arg args "project") s1 = (Ok ts, s2))
  /\ retrieve_chat_history (H := demo_host) args s
     = (Ok "No chat transcripts found in the repository.", s2).
Proof.
  cbv zeta.
  assert (Hwalk :
    retrieveTranscripts (H := demo_host)
      (arg (Some [("project", JStr "p"); ("limit", one_half)]) "project")
      (snd (loadConfig (H := demo_host) (demo_state "ghp_1")))
    = (Ok ["## root latest"; "## p latest"; "## session"],
       snd (retrieveTranscripts (H := demo_host)
              (arg (Some [("project", JStr "p"); ("limit", one_half)]) "project")
              (snd (loadConfig (H := demo_host) (demo_state "ghp_1"))))))
    by (vm_compute; reflexivity).
  split;
    [split; [reflexivity
            | split; [reflexivity
                     | split; [reflexivity
                              | split; [vm_compute; reflexivity | exact Hwalk]]]]|].
  exact (numeric_limit (H := demo_host)
           (Some [("project", JStr "p"); ("limit", one_half)])
           (demo_state "ghp_1") _ one_half (Finite 0) _ eq_refl eq_refl eq_refl
           ltac:(vm_compute; reflexivity) Hwalk).
Defined.

Lemma absent_argument_takes_default_witness :
  (advertised_default "retrieve_chat_history" "limit" = Some (JNum 10)
   /\ lookup "limit" [("project", JStr "p")] = None)
  /\ callTool (H := demo_host) "retrieve_chat_history"
       (Some [("project", JStr "p"); ("limit", JNum 10)]) (demo_state "ghp_1")
     = callTool (H := demo_host) "retrieve_chat_history"
         (Some [("project", JStr "p")]) (demo_state "ghp_1").
Proof.
  split; [split; reflexivity|].
  exact (absent_argument_takes_default (H := demo_host)
           "retrieve_chat_history" "limit" (JNum 10) [("project", JStr "p")]
           (demo_state "ghp_1") eq_refl eq_refl).
Defined.

End FurtherScenarios.

